(** * StonkzzReport: the multi-source acquisition engine

    A shallow embedding of the fetch / validate / reconcile / cache code of
    the report backend, and the properties its specification states.

    Sources embedded:
    - [backend/anti_gravity_vix.py]            (validator, consensus engine)
    - [backend/scripts/robust_stock_fetcher.py] (cache store, cascade, retry)
    - [backend/fetch_data_v3.py]               (request retries, option-chain
                                                 cascade, trading calendar)

    Conventions of the embedding.
    - Python floats are read at two levels.  At the exact level they are
      rationals ([Q]): finite values, without rounding error, with [Qeq]
      ([==]) as equality and [round(x, 2)] as decimal rounding, ties to
      even; properties that do not depend on the last bit are stated
      there.  At the level of doubles ([Binary64], [VIX64]) every
      operation rounds to the nearest double, and NaN and the infinities
      are values; the consensus engine is stated there, where a
      comparison at the tolerance, a tie of [round] or a NaN decides.
    - A [datetime.date] is represented by its proleptic Gregorian ordinal
      ([date.toordinal()]); [date y m d] is the constructor.  A naive
      [datetime] is a date with hour, minute, second and microsecond.
      Ordinals and fields range over [Z]; the bounds of Python's types are
      not represented.
    - [datetime.now()] is an explicit argument, or a read of the external
      world where the code is modelled with its effects.  At the exact
      level one pass of [cross_validate_sources] reads the clock as one
      instant; at the level of doubles it reads it afresh for each
      reading, as the code does.
    - Network calls, the clock, [time.sleep] and [random] act on an
      abstract external world; an exception caught by a [try] block is the
      failure value of the call that raised it.  Logging is left out.
    - Dictionaries whose iteration order matters are association lists;
      the ticker-keyed cache is a [gmap].  The cache file is a copy of
      [self.cache] and is not represented. *)

From Stdlib Require Import Sorting.Permutation Sorting.Sorted.
From Stdlib Require Import ZArith QArith Qpower Qround Qabs Qminmax Lqa List String Ascii Bool Lia.
From stdpp Require Import gmap strings.

Set Default Proof Using "Type".

(* ===================================================================== *)
(** * Calendar: [datetime.date] and naive [datetime.datetime] *)
(* ===================================================================== *)

Module Calendar.
Local Open Scope Z_scope.

(** [datetime._is_leap] *)
Definition is_leap (year : Z) : bool :=
  (year mod 4 =? 0) && (negb (year mod 100 =? 0) || (year mod 400 =? 0)).

(** [datetime._days_before_year]: days before January 1st of [year]. *)
Definition days_before_year (year : Z) : Z :=
  let y := year - 1 in y * 365 + y / 4 - y / 100 + y / 400.

(** [datetime._DAYS_BEFORE_MONTH] plus the leap day. *)
Definition days_before_month (year month : Z) : Z :=
  nth (Z.to_nat month)
      [0; 0; 31; 59; 90; 120; 151; 181; 212; 243; 273; 304; 334] 0
  + (if (2 <? month) && is_leap year then 1 else 0).

(** [date(year, month, day)], as its ordinal ([datetime._ymd2ord]);
    January 1st of year 1 is day 1. *)
Definition date (year month day : Z) : Z :=
  days_before_year year + days_before_month year month + day.

(** [date.weekday()]: Monday is 0, Sunday is 6. *)
Definition weekday (d : Z) : Z := (d + 6) mod 7.

(** [d - timedelta(days=n)] *)
Definition minus_days (d n : Z) : Z := d - n.

(** A naive [datetime]. *)
Record datetime := mk_datetime {
  dt_date : Z;
  hour : Z;
  minute : Z;
  second : Z;
  microsecond : Z
}.

(** Microseconds since midnight before day 1: the quantity whose
    difference is the [timedelta] of two naive datetimes. *)
Definition to_microseconds (t : datetime) : Z :=
  (((dt_date t * 24 + hour t) * 60 + minute t) * 60 + second t) * 1000000
  + microsecond t.

(** [(a - b).total_seconds()] *)
Definition total_seconds (a b : datetime) : Q :=
  inject_Z (to_microseconds a - to_microseconds b) / inject_Z 1000000.

(** [timedelta(hours=h)] in microseconds. *)
Definition timedelta_hours (h : Z) : Z := h * 3600 * 1000000.

End Calendar.

(* ===================================================================== *)
(** * The trading calendar of [fetch_data_v3.py] *)
(* ===================================================================== *)

Module TradingDay.
Import Calendar.
Local Open Scope Z_scope.

(** The exchange holidays the code lists for 2026. *)
Definition holidays_2026 : list Z :=
  [ date 2026 1 26;   (* Republic Day *)
    date 2026 3 8;    (* Maha Shivaratri *)
    date 2026 3 29;   (* Holi *)
    date 2026 4 2;    (* Good Friday *)
    date 2026 4 14;   (* Ambedkar Jayanti *)
    date 2026 4 17;   (* Ram Navami *)
    date 2026 5 1;    (* May Day *)
    date 2026 5 15;   (* Vesak *)
    date 2026 6 15;   (* Eid-ul-Adha *)
    date 2026 8 15;   (* Independence Day *)
    date 2026 8 31;   (* Janmashtami *)
    date 2026 9 30;   (* Dussehra *)
    date 2026 10 2;   (* Gandhi Jayanti *)
    date 2026 10 25;  (* Diwali *)
    date 2026 11 1;   (* Diwali Holiday *)
    date 2026 11 15;  (* Guru Nanak Jayanti *)
    date 2026 12 25   (* Christmas *) ].

(** [check_date in holidays_2026] *)
Definition in_holidays (check_date : Z) : bool :=
  existsb (Z.eqb check_date) holidays_2026.

Definition is_holiday_or_weekend (check_date : Z) : bool :=
  if 5 <=? weekday check_date then true
  else if in_holidays check_date then true
  else false.

(** The loop [for _ in range(n): if is_holiday_or_weekend(check_date):
    check_date -= timedelta(days=1) else: break]. *)
Fixpoint step_back (n : nat) (check_date : Z) : Z :=
  match n with
  | O => check_date
  | S k =>
      if is_holiday_or_weekend check_date
      then step_back k (minus_days check_date 1)
      else check_date
  end.

(** [get_last_trading_day()], with [now] (India time) as argument. *)
Definition get_last_trading_day (now : datetime) : Z :=
  let today := dt_date now in
  let check_date :=
    if (hour now <? 15) || ((hour now =? 15) && (minute now <? 30))
    then minus_days today 1
    else today in
  step_back 10 check_date.

End TradingDay.

(* ===================================================================== *)
(** * [statistics] and [round] on rationals *)
(* ===================================================================== *)

Module Stats.
Local Open Scope Q_scope.

Definition Qltb (a b : Q) : bool := negb (Qle_bool b a).

(** [sum(values)] *)
Definition sum (l : list Q) : Q := fold_left Qplus l 0.

(** [statistics.mean]; the code never calls it on an empty list. *)
Definition mean (l : list Q) : Q := sum l / inject_Z (Z.of_nat (length l)).

Fixpoint insert_sorted (x : Q) (l : list Q) : list Q :=
  match l with
  | [] => [x]
  | y :: ys => if Qle_bool x y then x :: l else y :: insert_sorted x ys
  end.

(** [sorted(values)] *)
Definition sorted (l : list Q) : list Q := fold_right insert_sorted [] l.

(** [statistics.median]: the middle element of the sorted data, or the
    mean of the two middle elements when the length is even. *)
Definition median (l : list Q) : Q :=
  let data := sorted l in
  let n := length data in
  if Nat.odd n then nth (n / 2) data 0
  else
    let i := (n / 2)%nat in
    (nth (i - 1) data 0 + nth i data 0) / 2.

(** [max(iterable)] on a non-empty iterable: the first maximal element. *)
Definition py_max (l : list Q) : Q :=
  match l with
  | [] => 0
  | x :: xs => fold_left (fun m v => if Qltb m v then v else m) xs x
  end.

(** [min(iterable)] on a non-empty iterable. *)
Definition py_min (l : list Q) : Q :=
  match l with
  | [] => 0
  | x :: xs => fold_left (fun m v => if Qltb v m then v else m) xs x
  end.

(** [max(iterable, key=key)]: the first element whose key is maximal. *)
Definition py_max_by {A : Type} (key : A -> Q) (first : A) (others : list A) : A :=
  fold_left (fun best x => if Qltb (key best) (key x) then x else best)
            others first.

(** Rounding to the nearest integer, ties to the even neighbour. *)
Definition round_half_even (q : Q) : Z :=
  let f := Qfloor q in
  match Qcompare (q - inject_Z f) (1 # 2) with
  | Lt => f
  | Gt => (f + 1)%Z
  | Eq => if Z.even f then f else (f + 1)%Z
  end.

(** [round(x, 2)] *)
Definition round2 (q : Q) : Q := inject_Z (round_half_even (q * 100)) / 100.

End Stats.

(* ===================================================================== *)
(** * [AntiGravityVIXFetcher]: validator and consensus engine *)
(* ===================================================================== *)

Module VIX.
Import Calendar Stats.
Local Open Scope Q_scope.

(** The dictionary an adapter returns.  [validated] and [num_sources] are
    absent until cross-validation sets them; [change] is read with
    [.get] and may be absent. *)
Record reading := mk_reading {
  value : Q;
  change : option Q;
  timestamp : datetime;
  source : string;
  confidence : string;
  validated : option bool;
  num_sources : option nat
}.

(** The fetcher's quality parameters ([__init__]). *)
Record fetcher := mk_fetcher {
  max_age_minutes : Q;
  tolerance_percent : Q
}.

(** [AntiGravityVIXFetcher()] with its default arguments. *)
Definition default_fetcher : fetcher :=
  {| max_age_minutes := 30; tolerance_percent := 5 |}.

(** [self.historical_vix_range], fixed by [__init__]. *)
Definition historical_vix_range : Q * Q := (8, 40).

Inductive range_reason :=
| ZeroOrNegative
| UnusuallyLow
| UnusuallyHigh
| WithinNormalRange.

Definition validate_vix_value (vix_value : Q) : bool * range_reason :=
  if Qle_bool vix_value 0 then (false, ZeroOrNegative)
  else if Qltb vix_value (fst historical_vix_range) then (false, UnusuallyLow)
  else if Qltb (snd historical_vix_range) vix_value then (false, UnusuallyHigh)
  else (true, WithinNormalRange).

(** [age_minutes = (now - timestamp).total_seconds() / 60]; a timestamp
    that carries a time zone has it dropped first, keeping its fields. *)
Definition age_minutes (now timestamp : datetime) : Q :=
  total_seconds now timestamp / 60.

(** The value of [max_age] when the age is compared with it. *)
Definition max_age (self : fetcher) (now : datetime) : Q :=
  let current_hour := hour now in
  let max_age :=
    if (current_hour <? 9)%Z then 16 * 60 else max_age_minutes self in
  let weekday := weekday (dt_date now) in
  if ((5 <=? weekday) || ((weekday =? 0) && (current_hour <? 9)))%Z
  then 72 * 60
  else max_age.

Inductive freshness_reason :=
| TooOld (age limit : Q)
| Fresh (age : Q).

Definition validate_freshness (self : fetcher) (now timestamp : datetime)
  : bool * freshness_reason :=
  let age := age_minutes now timestamp in
  if Qltb (max_age self now) age
  then (false, TooOld age (max_age self now))
  else (true, Fresh age).

(** The loop that fills [valid_sources], over the dictionary's items in
    insertion order. *)
Fixpoint valid_sources (self : fetcher) (now : datetime)
    (sources : list (string * option reading)) : list reading :=
  match sources with
  | [] => []
  | (name, None) :: rest => valid_sources self now rest
  | (name, Some data) :: rest =>
      if fst (validate_vix_value (value data)) then
        if fst (validate_freshness self now (timestamp data))
        then data :: valid_sources self now rest
        else valid_sources self now rest
      else valid_sources self now rest
  end.

(** [max(abs(v - mean_value) / mean_value * 100 for v in values)] *)
Definition max_deviation (values : list Q) : Q :=
  let mean_value := mean values in
  py_max (map (fun v => Qabs (v - mean_value) / mean_value * 100) values).

(** The local [consensus_value]. *)
Definition consensus_value (self : fetcher) (values : list Q) : Q :=
  if Qltb (tolerance_percent self) (max_deviation values)
  then median values
  else mean values.

(** [[s.get('change', 0) for s in valid_sources if s.get('change') != 0]]:
    an absent change passes the test ([None != 0]) and contributes 0. *)
Definition changes (valid : list reading) : list Q :=
  flat_map (fun s =>
              match change s with
              | None => [0]
              | Some c => if Qeq_bool c 0 then [] else [c]
              end) valid.

Definition consensus_change (valid : list reading) : Q :=
  match changes valid with
  | [] => 0
  | cs => mean cs
  end.

(** The key of [max(valid_sources, key=...)]. *)
Definition confidence_key (x : reading) : Q :=
  if String.eqb (confidence x) "HIGH" then 1 else 1 # 2.

Definition best_source (first : reading) (others : list reading) : reading :=
  py_max_by confidence_key first others.

(** The consensus engine proper: what [cross_validate_sources] does with
    [valid_sources] once the loop has filled it. *)
Definition consensus (self : fetcher) (valid : list reading) : option reading :=
  match valid with
  | [] => None
  | first :: others =>
      if (1 <? length valid)%nat then
        let values := map value valid in
        let best := best_source first others in
        Some {| value := round2 (consensus_value self values);
                change := Some (round2 (consensus_change valid));
                timestamp := timestamp best;
                source := source best;
                confidence := confidence best;
                validated := Some true;
                num_sources := Some (length valid) |}
      else
        Some {| value := value first;
                change := change first;
                timestamp := timestamp first;
                source := source first;
                confidence := confidence first;
                validated := Some true;
                num_sources := Some 1%nat |}
  end.

(** [cross_validate_sources(sources)]; Python's [None] is [None]. *)
Definition cross_validate_sources (self : fetcher) (now : datetime)
    (sources : list (string * option reading)) : option reading :=
  match sources with
  | [] => None
  | _ => consensus self (valid_sources self now sources)
  end.

End VIX.

(* ===================================================================== *)
(** * [RobustStockFetcher]: cascade, retry loop and cache store *)
(* ===================================================================== *)

Module StockFetcher.
Import Calendar Stats.
Local Open Scope Q_scope.

(** The standardized dictionary [fetch_stock] returns.  These five keys
    are all it has. *)
Record stock_data := mk_stock {
  symbol : string;
  lastPrice : Q;
  pChange : Q;
  yearHigh : Q;
  yearLow : Q
}.

(** An entry of [self.cache] as [json.load] may deliver it: [ce_data] is
    [None] when the key is missing, [ce_timestamp] when the key is
    missing, empty, or not an ISO timestamp. *)
Record cache_entry := mk_entry {
  ce_data : option stock_data;
  ce_timestamp : option datetime;
  ce_source : string
}.

(** One row of the price history Yahoo returns. *)
Record row := mk_row { Close : Q; High : Q; Low : Q }.

Inductive yf_result :=
| YfRaise (message : string)
| YfFrame (hist : list row).

(** A value of the JSON reply as [resp.json()] delivers it; [JNull] is
    also what [.get] gives for a missing key.  A string comes with what
    [float] makes of it, [None] when [float] raises. *)
Inductive json_value :=
| JNull
| JNumber (q : Q)
| JString (text : string) (as_float : option Q)
| JBool (b : bool)
| JContainer (empty : bool).

(** [if v:] *)
Definition truthy (v : json_value) : bool :=
  match v with
  | JNull => false
  | JNumber q => negb (Qeq_bool q 0)
  | JString text _ => negb (String.eqb text EmptyString)
  | JBool b => b
  | JContainer empty => negb empty
  end.

(** [float(v)]; [None] when it raises. *)
Definition to_float (v : json_value) : option Q :=
  match v with
  | JNull => None
  | JNumber q => Some q
  | JString _ as_float => as_float
  | JBool b => Some (if b then 1 else 0)
  | JContainer _ => None
  end.

(** The [priceInfo] object of the NSE quote API, by the four keys
    [_fetch_nse] reads. *)
Record price_info := mk_price_info {
  pi_lastPrice : json_value;
  pi_pChange : json_value;
  pi_weekHigh52 : json_value;
  pi_weekLow52 : json_value
}.

Inductive nse_reply :=
| NseRaise
| NseResponse (status_code : Z) (body : option price_info).

(** The upstream providers and the wall clock, over an external world
    [E].  [false] and [None] stand for an exception inside the adapter's
    [try] block. *)
Record upstream (E : Type) := mk_upstream {
  clock : E -> datetime;
  sleep : Q -> E -> E;
  random_uniform : Q -> Q -> E -> Q * E;
  yf_history : string -> E -> yf_result * E;
  nse_home : E -> bool * E;
  nse_quote : string -> E -> nse_reply * E;
  groww_search : string -> E -> bool * E;
  google_quote : string -> E -> option Q * E
}.
Arguments clock {E}.
Arguments sleep {E}.
Arguments random_uniform {E}.
Arguments yf_history {E}.
Arguments nse_home {E}.
Arguments nse_quote {E}.
Arguments groww_search {E}.
Arguments google_quote {E}.

(** [ticker.replace('.NS', '')] *)
Fixpoint remove_NS (s : string) : string :=
  match s with
  | String "." (String "N" (String "S" rest)) => remove_NS rest
  | String c rest => String c (remove_NS rest)
  | EmptyString => EmptyString
  end.

(** What a run does to the outside and to the cache, in order. *)
Inductive event :=
| YfHistory (ticker : string)
| NseHome
| NseQuote (symbol : string)
| GrowwSearch (symbol : string)
| GoogleQuote (symbol : string)
| CacheRead (ticker : string)
| CacheWrite (ticker : string) (source : string).

(** The component an event belongs to, in the order [fetch_stock]
    consults them. *)
Inductive component := Yahoo | NSE | Groww | CacheStore.

Definition component_of (ev : event) : component :=
  match ev with
  | YfHistory _ => Yahoo
  | NseHome | NseQuote _ => NSE
  | GrowwSearch _ | GoogleQuote _ => Groww
  | CacheRead _ | CacheWrite _ _ => CacheStore
  end.

Definition priority (c : component) : nat :=
  match c with Yahoo => 0 | NSE => 1 | Groww => 2 | CacheStore => 3 end.

Definition is_call_of (c : component) (ev : event) : bool :=
  Nat.eqb (priority (component_of ev)) (priority c).

Definition is_cache_read (ev : event) : bool :=
  match ev with CacheRead _ => true | _ => false end.

Definition is_cache_write (ev : event) : bool :=
  match ev with CacheWrite _ _ => true | _ => false end.

(** How many calls went to a component. *)
Definition calls_to (c : component) (tr : list event) : nat :=
  length (List.filter (is_call_of c) tr).

(** The fetcher's state: the external world, [self.cache], and the
    events so far. *)
Record world (E : Type) := mk_world {
  ext : E;
  cache : gmap string cache_entry;
  trace : list event
}.
Arguments mk_world {E}.
Arguments ext {E}.
Arguments cache {E}.
Arguments trace {E}.

(** The events of [w'] beyond those of [w]. *)
Definition new_events {E} (w w' : world E) : list event :=
  skipn (length (trace w)) (trace w').

(** The calls one run of [_fetch_nse] can make: the home page, then the
    quote unless the home page failed. *)
Definition nse_calls (ticker : string) (l : list event) : Prop :=
  l = [NseHome] \/ l = [NseHome; NseQuote (remove_NS ticker)].

(** The calls one run of [_fetch_groww] can make. *)
Definition groww_calls (ticker : string) (l : list event) : Prop :=
  l = [GrowwSearch (remove_NS ticker)]
  \/ l = [GrowwSearch (remove_NS ticker); GoogleQuote (remove_NS ticker)].

Definition M (E A : Type) : Type := world E -> A * world E.

Definition ret {E A} (a : A) : M E A := fun w => (a, w).

Definition bind {E A B} (m : M E A) (k : A -> M E B) : M E B :=
  fun w => let '(a, w1) := m w in k a w1.

Notation "'let*' x ':=' m 'in' k" := (bind m (fun x => k))
  (at level 10, x name, m at level 200, k at level 200).

(** A call to the outside, recorded in the trace. *)
Definition io {E A} (ev : event) (f : E -> A * E) : M E A :=
  fun w =>
    let '(a, e1) := f (ext w) in
    (a, mk_world e1 (cache w) (trace w ++ [ev])).

(** [time.sleep] *)
Definition pause {E} (up : upstream E) (seconds : Q) : M E unit :=
  fun w => (tt, mk_world (sleep up seconds (ext w)) (cache w) (trace w)).

Definition max_retries : nat := 3.

(** The body of one Yahoo attempt after the history has arrived; [None]
    is an exception ([ValueError] on an empty frame, [ZeroDivisionError]
    on a zero previous close). *)
Definition yahoo_quote (ticker : string) (hist : list row) : option stock_data :=
  match rev hist with
  | [] => None
  | last :: before =>
      let cls := Close last in
      let pct :=
        match before with
        | [] => Some 0
        | prev_row :: _ =>
            let prev := Close prev_row in
            if Qeq_bool prev 0 then None
            else Some ((cls - prev) / prev * 100)
        end in
      match pct with
      | None => None
      | Some pct =>
          Some {| symbol := remove_NS ticker;
                  lastPrice := round2 cls;
                  pChange := round2 pct;
                  yearHigh := round2 (py_max (map High hist));
                  yearLow := round2 (py_min (map Low hist)) |}
      end
  end.

(** [for attempt in range(self.max_retries)] of [_fetch_yahoo], from
    iteration [attempt] with [remaining] iterations to go. *)
Fixpoint yahoo_attempts {E} (up : upstream E) (remaining attempt : nat)
    (ticker : string) : M E (option stock_data) :=
  match remaining with
  | O => ret None
  | S k =>
      let* _ := (if (0 <? attempt)%nat
            then pause up (3 * inject_Z (2 ^ Z.of_nat attempt))
            else fun w =>
                   let '(d, e1) := random_uniform up 1 2 (ext w) in
                   pause up d (mk_world e1 (cache w) (trace w))) in
      let* r := io (YfHistory ticker) (yf_history up ticker) in
      match r with
      | YfRaise _ => yahoo_attempts up k (S attempt) ticker
      | YfFrame hist =>
          match yahoo_quote ticker hist with
          | Some data => ret (Some data)
          | None => yahoo_attempts up k (S attempt) ticker
          end
      end
  end.

Definition _fetch_yahoo {E} (up : upstream E) (ticker : string)
  : M E (option stock_data) :=
  yahoo_attempts up max_retries 0 ticker.

(** What [_fetch_nse] makes of the quote reply. *)
Definition nse_parse (symbol : string) (r : nse_reply) : option stock_data :=
  match r with
  | NseRaise => None
  | NseResponse status_code body =>
      if (status_code =? 200)%Z then
        match body with
        | None => None
        | Some info =>
            if truthy (pi_lastPrice info) then
              match to_float (pi_lastPrice info), to_float (pi_pChange info),
                    to_float (pi_weekHigh52 info), to_float (pi_weekLow52 info)
              with
              | Some last_price, Some p_change, Some year_high, Some year_low =>
                  Some {| symbol := symbol;
                          lastPrice := last_price;
                          pChange := p_change;
                          yearHigh := year_high;
                          yearLow := year_low |}
              | _, _, _, _ => None
              end
            else None
        end
      else None
  end.

Definition _fetch_nse {E} (up : upstream E) (ticker : string)
  : M E (option stock_data) :=
  let symbol := remove_NS ticker in
  let* ok := io NseHome (nse_home up) in
  if ok : bool then
    let* r := io (NseQuote symbol) (nse_quote up symbol) in
    ret (nse_parse symbol r)
  else ret None.

Definition _fetch_groww {E} (up : upstream E) (ticker : string)
  : M E (option stock_data) :=
  let symbol := remove_NS ticker in
  let* ok := io (GrowwSearch symbol) (groww_search up symbol) in
  if ok : bool then
    let* p := io (GoogleQuote symbol) (google_quote up symbol) in
    ret (match p with
         | Some price =>
             Some {| symbol := symbol;
                     lastPrice := price;
                     pChange := 0;                  (* Placeholder *)
                     yearHigh := price * (12 # 10); (* Placeholder *)
                     yearLow := price * (8 # 10)    (* Placeholder *) |}
         | None => None
         end)
  else ret None.

(** [get_cached_data]: the entry's data if it is younger than 24 hours. *)
Definition get_cached_data {E} (up : upstream E) (ticker : string)
  : M E (option stock_data) :=
  fun w =>
    let found :=
      match cache w !! ticker with
      | Some entry =>
          match ce_timestamp entry with
          | Some ts =>
              if (to_microseconds (clock up (ext w)) - to_microseconds ts
                  <? timedelta_hours 24)%Z
              then ce_data entry
              else None
          | None => None
          end
      | None => None
      end in
    (found, mk_world (ext w) (cache w) (trace w ++ [CacheRead ticker])).

(** [update_cache]: [self.cache[ticker] = {...}], then the file is
    rewritten from [self.cache]. *)
Definition update_cache {E} (up : upstream E) (ticker : string)
    (data : stock_data) (source : string) : M E unit :=
  fun w =>
    (tt, mk_world (ext w)
           (<[ticker := {| ce_data := Some data;
                           ce_timestamp := Some (clock up (ext w));
                           ce_source := source |}]> (cache w))
           (trace w ++ [CacheWrite ticker source])).

Definition fetch_stock {E} (up : upstream E) (ticker : string)
  : M E (option stock_data) :=
  let* data := _fetch_yahoo up ticker in
  match data with
  | Some d => let* _ := update_cache up ticker d "Yahoo Finance" in ret (Some d)
  | None =>
      let* data := _fetch_nse up ticker in
      match data with
      | Some d => let* _ := update_cache up ticker d "NSE Official" in ret (Some d)
      | None =>
          let* data := _fetch_groww up ticker in
          match data with
          | Some d => let* _ := update_cache up ticker d "Groww" in ret (Some d)
          | None =>
              let* cached := get_cached_data up ticker in
              match cached with
              | Some c => ret (Some c)
              | None => ret None
              end
          end
      end
  end.

End StockFetcher.

(* ===================================================================== *)
(** * [make_request_with_retries] of [fetch_data_v3.py] *)
(* ===================================================================== *)

Module Requests.
Local Open Scope Z_scope.

Record Response := mk_response { status_code : Z; content : string }.

(** The outcome of one [session.get]: an exception or a response. *)
Inductive get_result :=
| Raised
| Replied (r : Response).

(** The session and the clock, over an external world [E]. *)
Record session (E : Type) := mk_session {
  session_get : string -> E -> get_result * E;
  sleep : Z -> E -> E
}.
Arguments session_get {E}.
Arguments sleep {E}.

(** The external world and every [session.get] made, with its outcome. *)
Record world (E : Type) := mk_world {
  ext : E;
  calls : list (string * get_result)
}.
Arguments mk_world {E}.
Arguments ext {E}.
Arguments calls {E}.

(** [for attempt in range(max_retries)], from iteration [attempt] with
    [remaining] iterations to go; [response] is the local of that name. *)
Fixpoint attempts {E} (s : session E) (remaining attempt : nat) (url : string)
    (response : option Response) (w : world E) : option Response * world E :=
  match remaining with
  | O => (response, w)
  | S k =>
      let e0 :=
        if (0 <? attempt)%nat then sleep s (2 ^ Z.of_nat attempt) (ext w)
        else ext w in
      let '(r, e1) := session_get s url e0 in
      let w1 := mk_world e1 (calls w ++ [(url, r)]) in
      match r with
      | Raised => attempts s k (S attempt) url response w1
      | Replied resp =>
          if status_code resp =? 200 then (Some resp, w1)
          else attempts s k (S attempt) url (Some resp) w1
      end
  end.

Definition make_request_with_retries {E} (s : session E) (url : string)
    (max_retries : nat) (w : world E) : option Response * world E :=
  attempts s max_retries 0 url None w.

(** The error classes of the specification's adapter contract.  The code
    has no such type; an outcome is read as a class by what it is: an
    exception (connection failure, timeout) is [Unreachable], and the
    statuses 429, 401 and 404 are what their names say. *)
Inductive fetch_error :=
| Unreachable
| RateLimited
| AuthRequired
| MalformedPayload
| NotFound.

Definition error_class (r : get_result) : option fetch_error :=
  match r with
  | Raised => Some Unreachable
  | Replied resp =>
      if status_code resp =? 429 then Some RateLimited
      else if status_code resp =? 401 then Some AuthRequired
      else if status_code resp =? 404 then Some NotFound
      else None
  end.

(** The classes the specification calls terminal. *)
Definition is_terminal (e : fetch_error) : bool :=
  match e with
  | AuthRequired | MalformedPayload | NotFound => true
  | Unreachable | RateLimited => false
  end.

(** An attempt that ends the loop: a response with status 200. *)
Definition is_success (r : get_result) : bool :=
  match r with
  | Raised => false
  | Replied resp => status_code resp =? 200
  end.

(** What the local [response] holds after one more outcome. *)
Definition keep_response (acc : option Response) (c : string * get_result)
  : option Response :=
  match snd c with
  | Raised => acc
  | Replied resp => Some resp
  end.

(** The last response among the outcomes, if any. *)
Definition last_response (outcomes : list (string * get_result))
  : option Response :=
  fold_left keep_response outcomes None.

(** The calls of [w'] beyond those of [w]. *)
Definition new_calls {E} (w w' : world E) : list (string * get_result) :=
  skipn (length (calls w)) (calls w').

(** A session in which every request has the same outcome. *)
Definition always (r : get_result) : session unit :=
  {| session_get := fun _ e => (r, e); sleep := fun _ e => e |}.

End Requests.

(* ===================================================================== *)
(** * [NSEOptionChainFetcher.fetch_nifty_data]: the option-chain cascade *)
(* ===================================================================== *)

Module OptionChain.

Inductive adapter := DirectNSE | GrowwScrape | MoneyControlScrape.

(** The three adapters, over an external world [E] and a payload type
    [D]; [None] is a falsy result. *)
Record adapters (E D : Type) := mk_adapters {
  _fetch_from_nse : E -> option D * E;
  _fetch_from_groww : option Q -> E -> option D * E;
  _fetch_from_moneycontrol : E -> option D * E
}.
Arguments _fetch_from_nse {E D}.
Arguments _fetch_from_groww {E D}.
Arguments _fetch_from_moneycontrol {E D}.

(** The external world and the adapters invoked so far, each with
    whether it returned data. *)
Record world (E : Type) := mk_world {
  ext : E;
  invoked : list (adapter * bool)
}.
Arguments mk_world {E}.
Arguments ext {E}.
Arguments invoked {E}.

Definition invoke {E D} (a : adapter) (f : E -> option D * E) (w : world E)
  : option D * world E :=
  let '(data, e1) := f (ext w) in
  (data, mk_world e1 (invoked w ++ [(a, match data with Some _ => true | None => false end)])).

Definition fetch_nifty_data {E D} (src : adapters E D)
    (backup_spot_price : option Q) (w : world E) : option D * world E :=
  let '(data, w1) := invoke DirectNSE (_fetch_from_nse src) w in
  match data with
  | Some d => (Some d, w1)
  | None =>
      let '(data, w2) :=
        invoke GrowwScrape (_fetch_from_groww src backup_spot_price) w1 in
      match data with
      | Some d => (Some d, w2)
      | None =>
          let '(data, w3) :=
            invoke MoneyControlScrape (_fetch_from_moneycontrol src) w2 in
          match data with
          | Some d => (Some d, w3)
          | None => (None, w3)
          end
      end
  end.

(** The adapters in the order the cascade consults them. *)
Definition priority_order : list adapter :=
  [DirectNSE; GrowwScrape; MoneyControlScrape].

End OptionChain.

(* ===================================================================== *)
(** * Concrete inputs used in the examples *)
(* ===================================================================== *)

Module Fixtures.
Import Calendar VIX.
Local Open Scope Q_scope.

(** Tuesday 3 November 2026, 10:00. *)
Definition tuesday_10am : datetime := mk_datetime (date 2026 11 3) 10 0 0 0.

(** Friday 30 October 2026, 15:30, the close before a weekend. *)
Definition friday_close : datetime := mk_datetime (date 2026 10 30) 15 30 0 0.

(** Monday 2 November 2026, 08:00 and 09:00. *)
Definition monday_8am : datetime := mk_datetime (date 2026 11 2) 8 0 0 0.
Definition monday_9am : datetime := mk_datetime (date 2026 11 2) 9 0 0 0.

(** The confidence order the specification names: HIGH over MEDIUM over
    LOW. *)
Definition spec_tier_rank (conf : string) : nat :=
  if String.eqb conf "HIGH" then 3
  else if String.eqb conf "MEDIUM" then 2
  else if String.eqb conf "LOW" then 1
  else 0.

End Fixtures.

Module StockFixtures.
Import Calendar StockFetcher.
Local Open Scope Q_scope.

(** Tuesday 3 November 2026, 10:00, and the days before it. *)
Definition tuesday_10am : datetime := mk_datetime (date 2026 11 3) 10 0 0 0.
Definition monday_10am : datetime := mk_datetime (date 2026 11 2) 10 0 0 0.
Definition monday_11am : datetime := mk_datetime (date 2026 11 2) 11 0 0 0.

(** Every provider down; the clock stands at [tuesday_10am]. *)
Definition all_down : upstream unit :=
  {| clock := fun _ => tuesday_10am;
     sleep := fun _ e => e;
     random_uniform := fun a _ e => (a, e);
     yf_history := fun _ e => (YfRaise "Too Many Requests", e);
     nse_home := fun e => (false, e);
     nse_quote := fun _ e => (NseRaise, e);
     groww_search := fun _ e => (false, e);
     google_quote := fun _ e => (None, e) |}.

(** Only the Google Finance page answers, with a price. *)
Definition google_only (price : Q) : upstream unit :=
  {| clock := fun _ => tuesday_10am;
     sleep := fun _ e => e;
     random_uniform := fun a _ e => (a, e);
     yf_history := fun _ e => (YfRaise "Too Many Requests", e);
     nse_home := fun e => (false, e);
     nse_quote := fun _ e => (NseRaise, e);
     groww_search := fun _ e => (true, e);
     google_quote := fun _ e => (Some price, e) |}.

(** Yahoo answers at once with a two-day history. *)
Definition yahoo_up : upstream unit :=
  {| clock := fun _ => tuesday_10am;
     sleep := fun _ e => e;
     random_uniform := fun a _ e => (a, e);
     yf_history := fun _ e =>
       (YfFrame [mk_row 2800 2820 2790; mk_row 2842 2850 2800], e);
     nse_home := fun e => (true, e);
     nse_quote := fun _ e => (NseRaise, e);
     groww_search := fun _ e => (true, e);
     google_quote := fun _ e => (Some 2840, e) |}.

(** Yahoo always fails with the given message. *)
Definition yahoo_failing (message : string) : upstream unit :=
  {| clock := fun _ => tuesday_10am;
     sleep := fun _ e => e;
     random_uniform := fun a _ e => (a, e);
     yf_history := fun _ e => (YfRaise message, e);
     nse_home := fun e => (false, e);
     nse_quote := fun _ e => (NseRaise, e);
     groww_search := fun _ e => (false, e);
     google_quote := fun _ e => (None, e) |}.

(** A fetcher that has made no call yet, with the given cache. *)
Definition start (c : gmap string cache_entry) : world unit :=
  mk_world tt c [].

Definition reliance : stock_data :=
  {| symbol := "RELIANCE";
     lastPrice := 2850;
     pChange := 3 # 2;
     yearHigh := 3000;
     yearLow := 2500 |}.

(** A cache holding RELIANCE as stored at the given time. *)
Definition cached_at (stored_at : datetime) : gmap string cache_entry :=
  {[ "RELIANCE.NS"%string :=
       mk_entry (Some reliance) (Some stored_at) "Yahoo Finance" ]}.

End StockFixtures.

(* ===================================================================== *)
(** * [scripts/market_utils.py] and the market-mood figure of
      [fetch_indices] *)
(* ===================================================================== *)

Module MarketUtils.
Import Calendar Stats.
Local Open Scope Z_scope.

(** [dt - timedelta(days=n)]: the same wall-clock time [n] days earlier. *)
Definition minus_days_dt (dt : datetime) (n : Z) : datetime :=
  mk_datetime (dt_date dt - n) (hour dt) (minute dt) (second dt)
              (microsecond dt).

(** [while market_date.weekday() >= 5: market_date -= timedelta(days=1)],
    cut at [fuel] iterations. *)
Fixpoint back_over_weekend (fuel : nat) (market_date : datetime) : datetime :=
  match fuel with
  | O => market_date
  | S k =>
      if 5 <=? weekday (dt_date market_date)
      then back_over_weekend k (minus_days_dt market_date 1)
      else market_date
  end.

(** [get_last_market_close()], with [now] (India time) as argument.  The
    loop never needs more than two iterations; it is given seven. *)
Definition get_last_market_close (now : datetime) : datetime :=
  let market_date :=
    if 5 <=? weekday (dt_date now) then
      let days_back := weekday (dt_date now) - 4 in
      minus_days_dt now days_back
    else if (hour now <? 15) || ((hour now =? 15) && (minute now <? 30)) then
      back_over_weekend 7 (minus_days_dt now 1)
    else now in
  mk_datetime (dt_date market_date) 15 30 0 0.

Inductive zone := ExtremeFear | Fear | Neutral | Greed | ExtremeGreed.

Inductive movement :=
| ImprovedTo
| DeclinedTo
| SlightImprovement
| SlightDecline
| Unchanged.

Local Open Scope Q_scope.

(** The local [zone] of [interpret_mmi]. *)
Definition mmi_zone (mmi_value : Q) : zone :=
  if Qltb mmi_value 30 then ExtremeFear
  else if Qle_bool 30 mmi_value && Qltb mmi_value 50 then Fear
  else if Qle_bool 50 mmi_value && Qltb mmi_value 55 then Neutral
  else if Qle_bool 55 mmi_value && Qltb mmi_value 70 then Greed
  else ExtremeGreed.

(** The wording [interpret_mmi] chooses for the local [movement]; [None]
    is the empty string. *)
Definition mmi_movement (mmi_value : Q) (previous_mmi : option Q)
  : option movement :=
  match previous_mmi with
  | None => None
  | Some previous =>
      let delta := mmi_value - previous in
      if Qle_bool 5 (Qabs delta) then
        Some (if Qltb 0 delta then ImprovedTo else DeclinedTo)
      else
        let imp_dec := if Qltb 0 delta then SlightImprovement else SlightDecline in
        Some (if Qeq_bool delta 0 then Unchanged else imp_dec)
  end.

(** [interpret_mmi], as the zone and the movement its message names. *)
Definition interpret_mmi (mmi_value : Q) (previous_mmi : option Q)
  : zone * option movement :=
  (mmi_zone mmi_value, mmi_movement mmi_value previous_mmi).

(** [mmi_val] of [fetch_indices]: [max(0, min(100, 50.0 + pct * 10))]. *)
Definition simulated_mmi (pct : Q) : Q :=
  let raw := 50 + pct * 10 in
  let capped := if Qltb raw 100 then raw else 100 in
  if Qltb 0 capped then capped else 0.

(** The call [interpret_mmi(mmi_val, mmi_val - (1.0 if chg > 0 else -1.0))]
    of [fetch_indices]. *)
Definition fetch_indices_mmi (pct chg : Q) : zone * option movement :=
  let mmi_val := simulated_mmi pct in
  interpret_mmi mmi_val (Some (mmi_val - (if Qltb 0 chg then 1 else - (1)))).

(** The zones from most fearful to most greedy. *)
Definition zone_rank (z : zone) : nat :=
  match z with
  | ExtremeFear => 0
  | Fear => 1
  | Neutral => 2
  | Greed => 3
  | ExtremeGreed => 4
  end.

End MarketUtils.

Module OutageFixtures.
Import Calendar StockFetcher StockFixtures.
Local Open Scope Q_scope.

(** Yahoo answers the first call and raises from then on; every other
    provider is down.  The external world records whether the first call
    was made. *)
Definition yahoo_once : upstream bool :=
  {| clock := fun _ => tuesday_10am;
     sleep := fun _ e => e;
     random_uniform := fun a _ e => (a, e);
     yf_history := fun _ (served : bool) =>
       if served then (YfRaise "Too Many Requests", true)
       else (YfFrame [mk_row 2800 2820 2790; mk_row 2842 2850 2800], true);
     nse_home := fun e => (false, e);
     nse_quote := fun _ e => (NseRaise, e);
     groww_search := fun _ e => (false, e);
     google_quote := fun _ e => (None, e) |}.

(** The NSE quote API answers; Yahoo is down. *)
Definition nse_up : upstream unit :=
  {| clock := fun _ => tuesday_10am;
     sleep := fun _ e => e;
     random_uniform := fun a _ e => (a, e);
     yf_history := fun _ e => (YfRaise "Too Many Requests", e);
     nse_home := fun e => (true, e);
     nse_quote := fun _ e =>
       (NseResponse 200
          (Some (mk_price_info (JNumber 2850) (JNumber (3 # 2)) (JNumber 3000)
                               (JNumber 2500))), e);
     groww_search := fun _ e => (false, e);
     google_quote := fun _ e => (None, e) |}.

End OutageFixtures.

(* ===================================================================== *)
(** * [fetch_movers_and_highlow]: movers and market breadth *)
(* ===================================================================== *)

Module Movers.
Import Stats StockFetcher.
Local Open Scope Q_scope.

(** One step of a stable sort by [pChange], largest first: [x] goes before
    the first record whose change is not larger. *)
Fixpoint insert_desc (x : stock_data) (l : list stock_data) : list stock_data :=
  match l with
  | [] => [x]
  | y :: ys =>
      if Qle_bool (pChange y) (pChange x) then x :: l
      else y :: insert_desc x ys
  end.

(** [stock_list.sort(key=lambda s: s['pChange'], reverse=True)]: stable,
    records with equal change keep their order. *)
Definition sort_by_change (stock_list : list stock_data) : list stock_data :=
  fold_right insert_desc [] stock_list.

Inductive bias := Bullish | Bearish | NeutralBias.

(** What [fetch_movers_and_highlow] derives from the fetched records. *)
Record movers_report := mk_report {
  top_gainers : list stock_data;
  top_losers : list stock_data;
  advances : Z;
  declines : Z;
  unchanged : Z;
  breadth_bias : bias
}.

Definition count_if {A} (f : A -> bool) (l : list A) : Z :=
  Z.of_nat (length (List.filter f l)).

Definition movers (fetched : list stock_data) : movers_report :=
  let stock_list := sort_by_change fetched in
  let advances := count_if (fun s => Qltb 0 (pChange s)) stock_list in
  let declines := count_if (fun s => Qltb (pChange s) 0) stock_list in
  {| top_gainers := firstn 5 stock_list;
     top_losers := rev (skipn (length stock_list - 5) stock_list);
     advances := advances;
     declines := declines;
     unchanged := (Z.of_nat (length stock_list) - advances - declines)%Z;
     breadth_bias :=
       if (declines <? advances)%Z then Bullish
       else if (advances <? declines)%Z then Bearish
       else NeutralBias |}.

End Movers.

(* ===================================================================== *)
(** * [NiftyOIAnalyzer]: put-call ratio and open-interest analysis *)
(* ===================================================================== *)

(** Open interest is an integer, or [None] where the feed has a null;
    strikes, spot prices and ratios are numbers.  The [pcr_history] table
    of the SQLite file is the list of its rows in insertion order, and a
    timestamp is ASCII text, or [None] for NULL. *)

Module OIAnalyzer.
Import Stats.
Local Open Scope Q_scope.

(** [round(x, 4)] *)
Definition round4 (q : Q) : Q := inject_Z (round_half_even (q * 10000)) / 10000.

Definition calculate_pcr_correct (call_oi put_oi : Z) : Q :=
  if (call_oi =? 0)%Z then 0
  else round4 (inject_Z put_oi / inject_Z call_oi).

Record strike_row := mk_strike {
  strike : Q;
  ce_oi : option Z;
  pe_oi : option Z
}.

Record snapshot := mk_snapshot {
  timestamp : option string;
  spot_price : Q;
  total_call_oi : Z;
  total_put_oi : Z;
  pcr : Q;
  nearest_expiry : string;
  strikes_data : list strike_row
}.

(** [x or 0] *)
Definition or_0 (oi : option Z) : Z :=
  match oi with
  | Some v => v
  | None => 0%Z
  end.

(** One step of a stable sort by strike, smallest first. *)
Fixpoint insert_by_strike (x : strike_row) (l : list strike_row) : list strike_row :=
  match l with
  | [] => [x]
  | y :: ys =>
      if Qle_bool (strike x) (strike y) then x :: l
      else y :: insert_by_strike x ys
  end.

(** [sorted(strikes, key=lambda x: x['strike'])] *)
Definition sort_by_strike (strikes : list strike_row) : list strike_row :=
  fold_right insert_by_strike [] strikes.

(** ** [parse_option_chain] *)

(** [sum(s[...] for s in strikes)]: adding a null raises. *)
Fixpoint sum_oi (l : list (option Z)) : option Z :=
  match l with
  | [] => Some 0%Z
  | None :: _ => None
  | Some v :: rest =>
      match sum_oi rest with
      | Some total => Some (v + total)%Z
      | None => None
      end
  end.

Inductive scrape_source := moneycontrol | groww.

(** The normalized structure of the MoneyControl and Groww scrapers. *)
Record scraped := mk_scraped {
  sc_source : scrape_source;
  sc_strikes : list strike_row;
  sc_spot_price : Q;
  sc_timestamp : string
}.

Definition src_name (s : scrape_source) : string :=
  match s with
  | groww => "Groww"
  | moneycontrol => "MC Scrape"
  end.

(** The branch for [source in ('moneycontrol', 'groww')]; an exception
    inside it makes the function return [None]. *)
Definition parse_scraped (raw_data : scraped) : option snapshot :=
  match sum_oi (map ce_oi (sc_strikes raw_data)),
        sum_oi (map pe_oi (sc_strikes raw_data)) with
  | Some total_ce_oi, Some total_pe_oi =>
      Some {| timestamp :=
                Some (src_name (sc_source raw_data) ++ " ("
                      ++ sc_timestamp raw_data ++ ")")%string;
              spot_price := sc_spot_price raw_data;
              total_call_oi := total_ce_oi;
              total_put_oi := total_pe_oi;
              pcr := calculate_pcr_correct total_ce_oi total_pe_oi;
              nearest_expiry := "Near";
              strikes_data := sort_by_strike (sc_strikes raw_data) |}
  | _, _ => None
  end.

(** One entry of [records.data] of the NSE reply; the open interests are
    what [item.get('CE', {}).get('openInterest', 0)] and its PE twin
    give. *)
Record chain_item := mk_item {
  expiryDate : string;
  strikePrice : Q;
  ce_openInterest : option Z;
  pe_openInterest : option Z
}.

Record nse_records := mk_records {
  rec_data : list chain_item;
  expiryDates : list string;
  rec_timestamp : option string;
  underlyingValue : Q
}.

(** [if oi: total += oi] over the chain. *)
Definition add_if_truthy (total : Z) (oi : option Z) : Z :=
  match oi with
  | Some v => if (v =? 0)%Z then total else (total + v)%Z
  | None => total
  end.

(** The branch for the NSE JSON reply. *)
Definition parse_nse_records (records : nse_records) : option snapshot :=
  match expiryDates records with
  | [] => None
  | nearest_expiry :: _ =>
      let chain_data :=
        List.filter (fun d => String.eqb (expiryDate d) nearest_expiry)
                    (rec_data records) in
      let total_ce_oi :=
        fold_left add_if_truthy (map ce_openInterest chain_data) 0%Z in
      let total_pe_oi :=
        fold_left add_if_truthy (map pe_openInterest chain_data) 0%Z in
      let strikes :=
        map (fun item => mk_strike (strikePrice item)
                                   (ce_openInterest item)
                                   (pe_openInterest item)) chain_data in
      let pcr := calculate_pcr_correct total_ce_oi total_pe_oi in
      Some {| timestamp := rec_timestamp records;
              spot_price := underlyingValue records;
              total_call_oi := total_ce_oi;
              total_put_oi := total_pe_oi;
              pcr := round4 pcr;
              nearest_expiry := nearest_expiry;
              strikes_data := sort_by_strike strikes |}
  end.

(** ** [save_pcr_snapshot] and [get_intraday_pcr] *)

Record pcr_row := mk_row {
  row_timestamp : option string;
  row_spot_price : Q;
  row_total_call_oi : Z;
  row_total_put_oi : Z;
  row_pcr : Q
}.

(** [insert_ok] tells whether the INSERT goes through; a database error is
    printed and the table stays as it was. *)
Definition save_pcr_snapshot (insert_ok : bool) (snapshot : option snapshot)
    (pcr_history : list pcr_row) : list pcr_row :=
  match snapshot with
  | None => pcr_history
  | Some snapshot =>
      if Qle_bool (pcr snapshot) (1 # 100) then pcr_history
      else if insert_ok then
        pcr_history ++ [mk_row (timestamp snapshot) (spot_price snapshot)
                               (total_call_oi snapshot) (total_put_oi snapshot)
                               (pcr snapshot)]
      else pcr_history
  end.

Definition is_digit (c : ascii) : bool :=
  ((48 <=? nat_of_ascii c) && (nat_of_ascii c <=? 57))%nat.

Definition is_colon (c : ascii) : bool := Ascii.eqb c ":".

(** [\d{2}:\d{2}:\d{2}] matched at the start of [s]. *)
Definition time_at (s : string) : option string :=
  match s with
  | String a (String b (String c (String d (String e (String f
      (String g (String h _))))))) =>
      if is_digit a && is_digit b && is_colon c && is_digit d && is_digit e
         && is_colon f && is_digit g && is_digit h
      then Some (String a (String b (String c (String d (String e (String f
                   (String g (String h EmptyString))))))))
      else None
  | _ => None
  end.

(** [re.search(r'(\d{2}:\d{2}:\d{2})', s)]: the leftmost match. *)
Fixpoint search_time (s : string) : option string :=
  match time_at s with
  | Some t => Some t
  | None =>
      match s with
      | EmptyString => None
      | String _ rest => search_time rest
      end
  end.

Fixpoint contains (c : ascii) (s : string) : bool :=
  match s with
  | EmptyString => false
  | String a rest => Ascii.eqb a c || contains c rest
  end.

(** [s.split(c)] *)
Fixpoint split (c : ascii) (s : string) : list string :=
  match s with
  | EmptyString => [EmptyString]
  | String a rest =>
      if Ascii.eqb a c then EmptyString :: split c rest
      else match split c rest with
           | [] => [String a EmptyString]
           | part :: parts => String a part :: parts
           end
  end.

(** The time shown for a stored timestamp. *)
Definition time_val (ts_str : string) : string :=
  match search_time ts_str with
  | Some t => t
  | None =>
      if contains " " ts_str then
        let parts := split " " ts_str in
        if (1 <? length parts)%nat && contains ":" (List.last parts EmptyString)
        then List.last parts EmptyString
        else if (1 <? length parts)%nat then nth 1 parts EmptyString
        else ts_str
      else ts_str
  end.

Record pcr_point := mk_point {
  point_time : string;
  point_pcr : Q;
  point_spot : Q
}.

(** The loop over the rows; [None] when the pattern search raises on a
    NULL timestamp. *)
Fixpoint intraday_points (rows : list pcr_row) : option (list pcr_point) :=
  match rows with
  | [] => Some []
  | r :: rest =>
      if Qle_bool (row_pcr r) (1 # 100) then intraday_points rest
      else
        match row_timestamp r with
        | None => None
        | Some ts_str =>
            match intraday_points rest with
            | Some results =>
                Some (mk_point (time_val ts_str) (row_pcr r) (row_spot_price r)
                      :: results)
            | None => None
            end
        end
  end.

(** [SELECT ... ORDER BY rowid DESC LIMIT 20] *)
Definition last_rows (pcr_history : list pcr_row) : list pcr_row :=
  firstn 20 (rev pcr_history).

Definition get_intraday_pcr (pcr_history : list pcr_row) : list pcr_point :=
  match intraday_points (rev (last_rows pcr_history)) with
  | Some results => results
  | None => []
  end.

(** ** [generate_oi_analysis] *)

(** [min(iterable, key=key)]: the first element whose key is minimal. *)
Definition py_min_by {A : Type} (key : A -> Q) (first : A) (others : list A) : A :=
  fold_left (fun best x => if Qltb (key x) (key best) then x else best)
            others first.

(** [l[::step]] from the element [k] places ahead. *)
Fixpoint stride_from {A : Type} (k step : nat) (l : list A) : list A :=
  match l with
  | [] => []
  | x :: xs =>
      match k with
      | O => x :: stride_from (step - 1) step xs
      | S k' => stride_from k' step xs
      end
  end.

Definition downsample (relevant_strikes : list strike_row) : list strike_row :=
  if (20 <? length relevant_strikes)%nat then
    stride_from 0 (length relevant_strikes / 20 + 1) relevant_strikes
  else relevant_strikes.

Inductive sentiment := bearish | bullish | neutral.

Definition sentiment_of (pcr_val : Q) : sentiment :=
  if Qltb pcr_val (75 # 100) then bearish
  else if Qltb (125 # 100) pcr_val then bullish
  else neutral.

(** The figures of the analysis; the sentences of [analysis_points] are
    represented by the values they quote. *)
Record oi_analysis := mk_analysis {
  an_spot_price : Q;
  an_total_call_oi : Z;
  an_total_put_oi : Z;
  an_pcr : Q;
  key_resistance : Q;
  key_support : Q;
  max_ce_oi_val : option Z;
  max_pe_oi_val : option Z;
  an_strikes : list strike_row;
  an_timestamp : option string;
  an_sentiment : sentiment
}.

Inductive analysis_result :=
  | EmptyAnalysis                 (* [{}] for a missing snapshot *)
  | RaisesValueError              (* [max()] of an empty sequence *)
  | Analysis (a : oi_analysis).

Definition atm_strike (snapshot : snapshot) (first : strike_row)
    (others : list strike_row) : Q :=
  strike (py_min_by (fun x => Qabs (strike x - spot_price snapshot)) first others).

Definition generate_oi_analysis (snapshot : option snapshot) : analysis_result :=
  match snapshot with
  | None => EmptyAnalysis
  | Some snapshot =>
      match strikes_data snapshot with
      | [] => RaisesValueError
      | first :: others =>
          let strikes := first :: others in
          let max_ce := py_max_by (fun x => inject_Z (or_0 (ce_oi x))) first others in
          let max_pe := py_max_by (fun x => inject_Z (or_0 (pe_oi x))) first others in
          let atm_strike := atm_strike snapshot first others in
          let relevant_strikes :=
            List.filter (fun s => Qle_bool (Qabs (strike s - atm_strike)) 800)
                        strikes in
          Analysis {| an_spot_price := spot_price snapshot;
                      an_total_call_oi := total_call_oi snapshot;
                      an_total_put_oi := total_put_oi snapshot;
                      an_pcr := pcr snapshot;
                      key_resistance := strike max_ce;
                      key_support := strike max_pe;
                      max_ce_oi_val := ce_oi max_ce;
                      max_pe_oi_val := pe_oi max_pe;
                      an_strikes := downsample relevant_strikes;
                      an_timestamp := timestamp snapshot;
                      an_sentiment := sentiment_of (pcr snapshot) |}
      end
  end.

(** ** [generate_demo_snapshot] *)

(** What the synthetic chain draws from outside: [random.randint] and
    the last close of the index, [None] when that lookup raises. *)
Record demo_env (E : Type) := mk_demo_env {
  randint : Z -> Z -> E -> Z * E;
  nsei_last_close : E -> option Q * E
}.
Arguments randint {E}.
Arguments nsei_last_close {E}.

(** One pass of the loop: the strike [k] with the call and put open
    interest drawn for it. *)
Definition demo_strike {E} (env : demo_env E) (spot : Q) (k : Z) (e : E)
  : (Z * Z * Z) * E :=
  if Qltb spot (inject_Z k) then
    let '(ce, e1) := randint env 100000 300000 e in
    let '(pe, e2) := randint env 20000 100000 e1 in
    ((k, ce, pe), e2)
  else if Qltb (inject_Z k) spot then
    let '(ce, e1) := randint env 20000 100000 e in
    let '(pe, e2) := randint env 100000 300000 e1 in
    ((k, ce, pe), e2)
  else
    let '(ce, e1) := randint env 100000 200000 e in
    let '(pe, e2) := randint env 100000 200000 e1 in
    ((k, ce, pe), e2).

Fixpoint demo_strikes {E} (env : demo_env E) (spot : Q) (start_strike : Z)
    (indices : list Z) (e : E) : list (Z * Z * Z) * E :=
  match indices with
  | [] => ([], e)
  | i :: rest =>
      let '(row, e1) := demo_strike env spot (start_strike + i * 100) e in
      let '(rows, e2) := demo_strikes env spot start_strike rest e1 in
      (row :: rows, e2)
  end.

(** [range(30)] *)
Definition range30 : list Z := map Z.of_nat (seq 0 30).

Definition demo_row (r : Z * Z * Z) : strike_row :=
  let '(k, ce, pe) := r in mk_strike (inject_Z k) (Some ce) (Some pe).

(** The spot the chain is built around: the known one, else the last
    close of the index, else 25800. *)
Definition demo_spot {E} (env : demo_env E) (known_spot : option Q) (e : E)
  : Q * E :=
  let lookup :=
    let '(close, e') := nsei_last_close env e in
    (match close with Some c => c | None => 25800 end, e') in
  match known_spot with
  | Some s => if Qeq_bool s 0 then lookup else (s, e)
  | None => lookup
  end.

(** [now_text] is [datetime.now().strftime('%Y-%m-%d %H:%M:%S')]. *)
Definition generate_demo_snapshot {E} (env : demo_env E) (now_text : string)
    (known_spot : option Q) (e : E) : snapshot * E :=
  let '(spot, e0) := demo_spot env known_spot e in
  let base_strike := (round_half_even (spot / 100) * 100)%Z in
  let start_strike := (base_strike - 1500)%Z in
  let '(strikes, e1) := demo_strikes env spot start_strike range30 e0 in
  let total_ce := fold_left Z.add (map (fun s => snd (fst s)) strikes) 0%Z in
  let total_pe := fold_left Z.add (map snd strikes) 0%Z in
  ({| timestamp := Some ("Synthetic Data (" ++ now_text ++ ")")%string;
      spot_price := spot;
      total_call_oi := total_ce;
      total_put_oi := total_pe;
      pcr := calculate_pcr_correct total_ce total_pe;
      nearest_expiry := "Demo";
      strikes_data := map demo_row strikes |}, e1).

End OIAnalyzer.

(** Sample data of the analyzer used to exercise the statements about it. *)
Module OIFixtures.
Import OIAnalyzer.
Local Open Scope Q_scope.

(** A scraped chain of three strikes, out of order. *)
Definition sample_scraped : scraped :=
  {| sc_source := groww;
     sc_strikes := [mk_strike 25900 (Some 120000%Z) (Some 40000%Z);
                    mk_strike 25800 (Some 90000%Z) (Some 95000%Z);
                    mk_strike 25700 (Some 30000%Z) (Some 150000%Z)];
     sc_spot_price := 25810;
     sc_timestamp := "2026-01-05 10:15:00" |}.

(** A history of two stored rows. *)
Definition sample_history : list pcr_row :=
  [mk_row (Some "2026-01-05 09:45:00"%string) 25790 250000 270000 (108 # 100);
   mk_row (Some "2026-01-05 10:00:00"%string) 25800 245000 280000 (11429 # 10000)].

(** A snapshot as the Groww scraper yields it. *)
Definition sample_snapshot : snapshot :=
  {| timestamp := Some "Groww (2026-01-05 10:15:00)"%string;
     spot_price := 25810;
     total_call_oi := 240000;
     total_put_oi := 285000;
     pcr := 11875 # 10000;
     nearest_expiry := "Near";
     strikes_data := [mk_strike 25700 (Some 30000%Z) (Some 150000%Z);
                      mk_strike 25800 (Some 90000%Z) (Some 95000%Z);
                      mk_strike 25900 (Some 120000%Z) (Some 40000%Z)] |}.

(** A random source that always draws the lower end of the range, and an
    index lookup that raises. *)
Definition lowest_draw : demo_env unit :=
  {| randint := fun a _ e => (a, e);
     nsei_last_close := fun e => (None, e) |}.

End OIFixtures.

(* ===================================================================== *)
(** * [AntiGravityVIXFetcher]: the four adapters and [get_india_vix] *)
(* ===================================================================== *)

(** What an adapter receives from the network is an argument, [None]
    when the request or the parsing of the reply raises; the adapter
    catches every exception and returns [None]. *)

Module VIXSources.
Import Calendar Stats VIX.
Local Open Scope Q_scope.

(** [hist] is the five-day history of the index, oldest row first: the
    time stamp of each row with its close. *)
Definition fetch_vix_yahoo_finance (hist : option (list (datetime * Q)))
  : option reading :=
  match hist with
  | None => None
  | Some rows =>
      match rev rows with
      | [] => None                       (* [hist.empty] *)
      | [_] => None                      (* [iloc[-2]] raises *)
      | (vix_date, vix_value) :: (_, vix_prev) :: _ =>
          let change := vix_value - vix_prev in
          Some {| value := round2 vix_value;
                  change := Some (round2 change);
                  timestamp := vix_date;
                  source := "Yahoo Finance";
                  confidence := "HIGH";
                  validated := None;
                  num_sources := None |}
      end
  end.

(** One entry of the [data] list of the all-indices reply: its name,
    [index.get('last', 0)] and its change, [None] for a null. *)
Record index_entry := mk_index {
  index_name : string;
  last : Q;
  index_change : option Q
}.

Record indices_response := mk_indices {
  status_code : Z;
  data : list index_entry
}.

Definition fetch_vix_nse_official (now : datetime)
    (response : option indices_response) : option reading :=
  match response with
  | None => None
  | Some response =>
      if negb (status_code response =? 200)%Z then None
      else
        match find (fun index => String.eqb (index_name index) "INDIA VIX")
                   (data response) with
        | Some index =>
            let vix_value := last index in
            let change := match index_change index with
                          | Some c => c
                          | None => 0
                          end in
            if Qeq_bool vix_value 0 then None
            else Some {| value := round2 vix_value;
                         change := Some (round2 change);
                         timestamp := now;
                         source := "NSE Official";
                         confidence := "HIGH";
                         validated := None;
                         num_sources := None |}
        | None => None
        end
  end.

(** [response] is the status code of the reply. *)
Definition fetch_vix_groww (response : option Z) : option reading :=
  match response with
  | None => None
  | Some status_code =>
      if negb (status_code =? 200)%Z then None
      else None
  end.

(** The page of MoneyControl as the scraper reads it: the number in the
    price element, if the element is there, and the number in the change
    element, if there is one. *)
Record quote_page := mk_page {
  page_status_code : Z;
  price_div : option Q;
  chg_div : option Q
}.

Definition fetch_vix_moneycontrol (now : datetime) (response : option quote_page)
  : option reading :=
  match response with
  | None => None
  | Some response =>
      if negb (page_status_code response =? 200)%Z then None
      else
        match price_div response with
        | Some vix_value =>
            let change := match chg_div response with
                          | Some c => c
                          | None => 0
                          end in
            Some {| value := round2 vix_value;
                    change := Some (round2 change);
                    timestamp := now;
                    source := "MoneyControl";
                    confidence := "MEDIUM";
                    validated := None;
                    num_sources := None |}
        | None => None
        end
  end.

(** What the four requests of one run bring back, and the clock when the
    NSE and the MoneyControl adapter read it. *)
Record vix_feeds := mk_feeds {
  yahoo_hist : option (list (datetime * Q));
  nse_reply : option indices_response;
  nse_clock : datetime;
  groww_reply : option Z;
  moneycontrol_reply : option quote_page;
  moneycontrol_clock : datetime
}.

Definition fetched_sources (feeds : vix_feeds) : list (string * option reading) :=
  [("yahoo_finance"%string, fetch_vix_yahoo_finance (yahoo_hist feeds));
   ("nse_official"%string, fetch_vix_nse_official (nse_clock feeds) (nse_reply feeds));
   ("groww"%string, fetch_vix_groww (groww_reply feeds));
   ("moneycontrol"%string,
    fetch_vix_moneycontrol (moneycontrol_clock feeds) (moneycontrol_reply feeds))].

(** [get_india_vix()]; [None] stands for the exception it raises. *)
Definition get_india_vix (self : fetcher) (now : datetime) (feeds : vix_feeds)
  : option reading :=
  cross_validate_sources self now (fetched_sources feeds).

End VIXSources.

(** A run in which only the NSE answers. *)
Module VIXSourceFixtures.
Import Calendar VIX VIXSources Fixtures.
Local Open Scope Q_scope.

Definition nse_only : vix_feeds :=
  {| yahoo_hist := None;
     nse_reply :=
       Some {| status_code := 200;
               data := [mk_index "NIFTY 50" 25810 (Some 42);
                        mk_index "INDIA VIX" (1234 # 100) None] |};
     nse_clock := tuesday_10am;
     groww_reply := Some 200%Z;
     moneycontrol_reply := None;
     moneycontrol_clock := tuesday_10am |}.

End VIXSourceFixtures.

(* ===================================================================== *)
(** * Python floats at the level of IEEE 754 doubles *)
(* ===================================================================== *)

(** Where a property depends on the last bit of a result, on a tie of
    [round], or on a value that is not a number, floats are not read as
    rationals but as doubles: a finite double is the rational it stands
    for, an operation returns the double nearest to its exact result
    (ties to the even significand, 53 significant bits, gradual underflow
    below 2^-1022, overflow to infinity above the largest double), and
    NaN and the two infinities are values of their own.  The sign of zero
    is not represented. *)

Module Binary64.
Import Stats.
Local Open Scope Q_scope.

Inductive pyfloat :=
| Finite (q : Q)
| PosInf
| NegInf
| NaN.

(** The exponent of the leading bit of a positive rational: the [k] with
    [2^k <= q < 2^(k+1)]. *)
Definition ilog2 (q : Q) : Z :=
  let k := (Z.log2 (Qnum q) - Z.log2 (Zpos (Qden q)))%Z in
  if Qle_bool (2 ^ k) q then k else (k - 1)%Z.

(** The exponent of the last place of the double nearest to [q]. *)
Definition ulp_exponent (q : Q) : Z := Z.max (ilog2 (Qabs q) - 52) (-1074).

(** Rounding to the nearest multiple of the last place, ties to even. *)
Definition round_to_double (q : Q) : Q :=
  if Qeq_bool q 0 then 0
  else
    let e := ulp_exponent q in
    inject_Z (round_half_even (q / 2 ^ e)) * 2 ^ e.

(** The largest double, [(2^53 - 1) * 2^971]. *)
Definition max_double : Q := inject_Z ((2 ^ 53 - 1) * 2 ^ 971).

(** The float an operation returns whose exact result is [q]. *)
Definition of_Q (q : Q) : pyfloat :=
  let r := round_to_double q in
  if Qltb max_double r then PosInf
  else if Qltb r (- max_double) then NegInf
  else Finite r.

Definition is_zero (x : pyfloat) : bool :=
  match x with
  | Finite q => Qeq_bool q 0
  | _ => false
  end.

(** [x < y]; a comparison with NaN is false. *)
Definition flt (x y : pyfloat) : bool :=
  match x, y with
  | NaN, _ | _, NaN => false
  | Finite a, Finite b => Qltb a b
  | NegInf, NegInf => false
  | NegInf, _ => true
  | _, NegInf => false
  | PosInf, _ => false
  | Finite _, PosInf => true
  end.

(** [x > y] *)
Definition fgt (x y : pyfloat) : bool := flt y x.

(** [x == y] *)
Definition feq (x y : pyfloat) : bool :=
  match x, y with
  | Finite a, Finite b => Qeq_bool a b
  | PosInf, PosInf | NegInf, NegInf => true
  | _, _ => false
  end.

(** [x <= y] *)
Definition fle (x y : pyfloat) : bool := flt x y || feq x y.

(** [x != y]; true of NaN and anything. *)
Definition fne (x y : pyfloat) : bool := negb (feq x y).

(** [-x] *)
Definition fneg (x : pyfloat) : pyfloat :=
  match x with
  | Finite q => Finite (- q)
  | PosInf => NegInf
  | NegInf => PosInf
  | NaN => NaN
  end.

(** [abs(x)] *)
Definition fabs (x : pyfloat) : pyfloat :=
  match x with
  | Finite q => Finite (Qabs q)
  | PosInf | NegInf => PosInf
  | NaN => NaN
  end.

(** [x + y] *)
Definition fadd (x y : pyfloat) : pyfloat :=
  match x, y with
  | NaN, _ | _, NaN => NaN
  | Finite a, Finite b => of_Q (a + b)
  | PosInf, NegInf | NegInf, PosInf => NaN
  | PosInf, _ | _, PosInf => PosInf
  | NegInf, _ | _, NegInf => NegInf
  end.

(** [x - y] *)
Definition fsub (x y : pyfloat) : pyfloat := fadd x (fneg y).

(** The infinity of the sign of [a * b], or NaN when a factor is zero. *)
Definition signed_inf (positive : bool) : pyfloat :=
  if positive then PosInf else NegInf.

Definition is_negative (x : pyfloat) : bool := flt x (Finite 0).

(** [x * y] *)
Definition fmul (x y : pyfloat) : pyfloat :=
  match x, y with
  | NaN, _ | _, NaN => NaN
  | Finite a, Finite b => of_Q (a * b)
  | _, _ =>
      if is_zero x || is_zero y then NaN
      else signed_inf (Bool.eqb (is_negative x) (is_negative y))
  end.

(** [x / y] for a divisor that is not zero. *)
Definition quotient (x y : pyfloat) : pyfloat :=
  match x, y with
  | NaN, _ | _, NaN => NaN
  | Finite a, Finite b => of_Q (a / b)
  | Finite _, _ => Finite 0
  | _, Finite _ => signed_inf (Bool.eqb (is_negative x) (is_negative y))
  | _, _ => NaN
  end.

(** [x / y]; [None] is the [ZeroDivisionError] of a zero divisor. *)
Definition fdiv (x y : pyfloat) : option pyfloat :=
  if is_zero y then None else Some (quotient x y).

(** [round(x, 2)]: the double nearest to the decimal with two places
    nearest to [x], ties between decimals to the even one; what is not
    finite rounds to itself. *)
Definition round2 (x : pyfloat) : pyfloat :=
  match x with
  | Finite q => of_Q (Stats.round2 q)
  | _ => x
  end.

(** The float a decimal literal denotes. *)
Definition literal (q : Q) : pyfloat := of_Q q.

(** The values of a list that are finite, and those that are not. *)
Definition finite_values (data : list pyfloat) : list Q :=
  flat_map (fun x => match x with Finite q => [q] | _ => [] end) data.

Definition non_finite (data : list pyfloat) : list pyfloat :=
  List.filter (fun x => match x with Finite _ => false | _ => true end) data.

(** [statistics.mean] of a non-empty list of floats: the exact sum of the
    values divided by their number, rounded once; with values that are
    not finite, the float sum of those alone. *)
Definition mean (data : list pyfloat) : pyfloat :=
  match non_finite data with
  | [] => of_Q (Stats.mean (finite_values data))
  | x :: xs => fold_left fadd xs x
  end.

Fixpoint insert_sorted (x : pyfloat) (l : list pyfloat) : list pyfloat :=
  match l with
  | [] => [x]
  | y :: ys => if flt y x then y :: insert_sorted x ys else x :: l
  end.

(** [sorted(data)] for data without NaN; with a NaN the order Python
    gives depends on its sorting algorithm, and is not what is computed
    here. *)
Definition sorted (data : list pyfloat) : list pyfloat :=
  fold_right insert_sorted [] data.

(** [statistics.median] of a non-empty list. *)
Definition median (data : list pyfloat) : pyfloat :=
  let data := sorted data in
  let n := length data in
  if Nat.odd n then nth (n / 2) data NaN
  else
    let i := (n / 2)%nat in
    quotient (fadd (nth (i - 1) data NaN) (nth i data NaN)) (Finite 2).

(** [max(iterable)] of a non-empty iterable: an item replaces the
    maximum so far when it is greater. *)
Definition py_max (l : list pyfloat) : pyfloat :=
  match l with
  | [] => NaN
  | x :: xs => fold_left (fun m v => if fgt v m then v else m) xs x
  end.

End Binary64.

(* ===================================================================== *)
(** * [cross_validate_sources] at the level of doubles *)
(* ===================================================================== *)

(** The validator of values and the consensus engine once more, with the
    values and changes of the readings as doubles, and with the clock
    read afresh for each reading whose freshness is checked, as
    [validate_freshness] does.  The freshness check itself compares
    whole microseconds and is the one of [VIX]. *)

Module VIX64.
Import Calendar Stats Binary64.
Local Open Scope Q_scope.

Record reading := mk_reading {
  value : pyfloat;
  change : option pyfloat;
  timestamp : datetime;
  source : string;
  confidence : string;
  validated : option bool;
  num_sources : option nat
}.

Definition validate_vix_value (vix_value : pyfloat) : bool * VIX.range_reason :=
  if fle vix_value (Finite 0) then (false, VIX.ZeroOrNegative)
  else if flt vix_value (Finite (fst VIX.historical_vix_range))
       then (false, VIX.UnusuallyLow)
  else if fgt vix_value (Finite (snd VIX.historical_vix_range))
       then (false, VIX.UnusuallyHigh)
  else (true, VIX.WithinNormalRange).

(** The values the three comparisons of [validate_vix_value] let
    through. *)
Definition passes_range_check (v : pyfloat) : Prop :=
  match v with
  | Finite q => 8 <= q <= 40
  | NaN => True
  | PosInf | NegInf => False
  end.

(** The loop that fills [valid_sources].  [clock k] is what the call
    number [k] of [datetime.now()] returns; [reads] calls were made
    before. *)
Fixpoint valid_sources (self : VIX.fetcher) (clock : nat -> datetime)
    (reads : nat) (sources : list (string * option reading)) : list reading :=
  match sources with
  | [] => []
  | (name, None) :: rest => valid_sources self clock reads rest
  | (name, Some data) :: rest =>
      if fst (validate_vix_value (value data)) then
        if fst (VIX.validate_freshness self (clock reads) (timestamp data))
        then data :: valid_sources self clock (S reads) rest
        else valid_sources self clock (S reads) rest
      else valid_sources self clock reads rest
  end.

(** [abs(v - mean_value) / mean_value * 100 for v in values]; [None] when
    the division raises. *)
Fixpoint deviations (mean_value : pyfloat) (values : list pyfloat)
  : option (list pyfloat) :=
  match values with
  | [] => Some []
  | v :: rest =>
      match fdiv (fabs (fsub v mean_value)) mean_value with
      | None => None
      | Some d =>
          match deviations mean_value rest with
          | None => None
          | Some ds => Some (fmul d (Finite 100) :: ds)
          end
      end
  end.

Definition max_deviation (mean_value : pyfloat) (values : list pyfloat)
  : option pyfloat :=
  match deviations mean_value values with
  | Some ds => Some (py_max ds)
  | None => None
  end.

(** [[s.get('change', 0) for s in valid_sources if s.get('change') != 0]] *)
Definition changes (valid : list reading) : list pyfloat :=
  flat_map (fun s =>
              match change s with
              | None => [Finite 0]
              | Some c => if fne c (Finite 0) then [c] else []
              end) valid.

Definition consensus_change (valid : list reading) : pyfloat :=
  match changes valid with
  | [] => Finite 0
  | cs => mean cs
  end.

Definition confidence_key (x : reading) : Q :=
  if String.eqb (confidence x) "HIGH" then 1 else 1 # 2.

Definition best_source (first : reading) (others : list reading) : reading :=
  py_max_by confidence_key first others.

(** How a call ends. *)
Inductive outcome :=
| ZeroDivisionError
| Returns (result : option reading).

(** What [cross_validate_sources] does with [valid_sources] once the loop
    has filled it. *)
Definition consensus (self : VIX.fetcher) (valid : list reading) : outcome :=
  match valid with
  | [] => Returns None
  | first :: others =>
      if (1 <? length valid)%nat then
        let values := map value valid in
        let mean_value := mean values in
        match max_deviation mean_value values with
        | None => ZeroDivisionError
        | Some max_deviation =>
            let consensus_value :=
              if fgt max_deviation (Finite (VIX.tolerance_percent self))
              then median values
              else mean_value in
            let best := best_source first others in
            Returns (Some {| value := round2 consensus_value;
                             change := Some (round2 (consensus_change valid));
                             timestamp := timestamp best;
                             source := source best;
                             confidence := confidence best;
                             validated := Some true;
                             num_sources := Some (length valid) |})
        end
      else
        Returns (Some {| value := value first;
                         change := change first;
                         timestamp := timestamp first;
                         source := source first;
                         confidence := confidence first;
                         validated := Some true;
                         num_sources := Some 1%nat |})
  end.

Definition cross_validate_sources (self : VIX.fetcher) (clock : nat -> datetime)
    (sources : list (string * option reading)) : outcome :=
  match sources with
  | [] => Returns None
  | _ => consensus self (valid_sources self clock 0 sources)
  end.

End VIX64.

(** Readings to exercise the statements about doubles. *)
Module Fixtures64.
Import Calendar Binary64 VIX64 Fixtures.
Local Open Scope Q_scope.

(** A reading with the float of the literal [v], taken at
    [tuesday_10am]. *)
Definition quote64 (v : Q) (src conf : string) : reading :=
  {| value := literal v;
     change := Some (Finite 0);
     timestamp := tuesday_10am;
     source := src;
     confidence := conf;
     validated := None;
     num_sources := None |}.

(** A reading whose value is not a number, as [round(float(close), 2)]
    gives for a missing close. *)
Definition nan_quote : reading :=
  {| value := NaN;
     change := Some (Finite 0);
     timestamp := tuesday_10am;
     source := "Yahoo Finance";
     confidence := "HIGH";
     validated := None;
     num_sources := None |}.

(** A clock that stands at [tuesday_10am]. *)
Definition at_10am : nat -> datetime := fun _ => tuesday_10am.

(** What the three live adapters deliver for three values. *)
Definition three_sources (a b c : Q) : list (string * option reading) :=
  [("yahoo_finance"%string, Some (quote64 a "Yahoo Finance" "HIGH"));
   ("nse_official"%string, Some (quote64 b "NSE Official" "HIGH"));
   ("groww"%string, None);
   ("moneycontrol"%string, Some (quote64 c "MoneyControl" "MEDIUM"))].

End Fixtures64.

(* ===================================================================== *)
(** * Properties *)
(* ===================================================================== *)

Module CalendarFacts.
Import Calendar.
Local Open Scope Z_scope.

Lemma weekday_range d : 0 <= weekday d < 7.
Proof. unfold weekday. apply Z.mod_pos_bound. lia. Qed.

(** A weekday (Monday to Friday) is never more than two days back. *)
Lemma weekday_within_three d :
  weekday d < 5 \/ weekday (d - 1) < 5 \/ weekday (d - 2) < 5.
Proof.
  unfold weekday.
  pose proof (Z.mod_pos_bound (d + 6) 7 ltac:(lia)) as H0.
  pose proof (Z.div_mod (d + 6) 7 ltac:(lia)) as E0.
  pose proof (Z.mod_pos_bound (d - 1 + 6) 7 ltac:(lia)) as H1.
  pose proof (Z.div_mod (d - 1 + 6) 7 ltac:(lia)) as E1.
  pose proof (Z.mod_pos_bound (d - 2 + 6) 7 ltac:(lia)) as H2.
  pose proof (Z.div_mod (d - 2 + 6) 7 ltac:(lia)) as E2.
  lia.
Qed.

Example jan_24_2026_is_saturday : weekday (date 2026 1 24) = 5.
Proof. reflexivity. Qed.

Example jan_26_2026_is_monday : weekday (date 2026 1 26) = 0.
Proof. reflexivity. Qed.

Example date_2026_1_1 : date 2026 1 1 = 739617.
Proof. reflexivity. Qed.


End CalendarFacts.

(* ===================================================================== *)
(** ** The trading calendar *)
(* ===================================================================== *)

Module TradingDayFacts.
Import Calendar CalendarFacts TradingDay.
Local Open Scope Z_scope.

(** Every listed holiday lies in 2026. *)
Lemma in_holidays_bounds d :
  in_holidays d = true -> date 2026 1 1 <= d <= date 2026 12 31.
Proof.
  unfold in_holidays. rewrite existsb_exists.
  intros [h [Hin Heq]]. apply Z.eqb_eq in Heq. subst h.
  vm_compute in Hin.
  repeat (destruct Hin as [<- | Hin]; [vm_compute; split; discriminate |]).
  contradiction.
Qed.

(** Outside 2026 only the weekend closes the market. *)
Lemma weekday_outside_2026 d :
  d < date 2026 1 1 \/ date 2026 12 31 < d ->
  weekday d < 5 -> is_holiday_or_weekend d = false.
Proof.
  intros Hout Hwd. unfold is_holiday_or_weekend.
  destruct (Z.leb_spec 5 (weekday d)) as [H5 | _]; [lia |].
  destruct (in_holidays d) eqn:Hh; [| reflexivity].
  apply in_holidays_bounds in Hh. lia.
Qed.

(** Around 2026, by enumeration: a trading day at most three days back. *)
Lemma trading_day_near_2026 :
  forallb (fun n =>
             existsb (fun k =>
                        negb (is_holiday_or_weekend
                                (date 2026 1 1 + Z.of_nat n - Z.of_nat k)))
                     (seq 0 4))
          (seq 0 375) = true.
Proof. vm_compute. reflexivity. Qed.

(** From any date, a trading day is at most three days back. *)
Lemma trading_day_within_three d :
  exists k, 0 <= k <= 3 /\ is_holiday_or_weekend (d - k) = false.
Proof.
  destruct (Z_lt_le_dec d (date 2026 1 1)) as [Hlo | Hlo].
  - (* before 2026 *)
    destruct (weekday_within_three d) as [H | [H | H]].
    + exists 0. split; [lia |]. rewrite Z.sub_0_r.
      apply weekday_outside_2026; [lia | exact H].
    + exists 1. split; [lia |]. apply weekday_outside_2026; [lia | exact H].
    + exists 2. split; [lia |]. apply weekday_outside_2026; [lia | exact H].
  - destruct (Z_lt_le_dec (date 2026 12 31 + 2) d) as [Hhi | Hhi].
    + (* the third of January 2027 or later *)
      destruct (weekday_within_three d) as [H | [H | H]].
      * exists 0. split; [lia |]. rewrite Z.sub_0_r.
        apply weekday_outside_2026; [lia | exact H].
      * exists 1. split; [lia |]. apply weekday_outside_2026; [lia | exact H].
      * exists 2. split; [lia |]. apply weekday_outside_2026; [lia | exact H].
    + (* 2026 and the two days after it *)
      pose proof trading_day_near_2026 as Hall.
      rewrite forallb_forall in Hall.
      assert (Hd : date 2026 12 31 = date 2026 1 1 + 364) by reflexivity.
      specialize (Hall (Z.to_nat (d - date 2026 1 1))).
      rewrite Z2Nat.id in Hall by lia.
      replace (date 2026 1 1 + (d - date 2026 1 1)) with d in Hall by lia.
      destruct (proj1 (existsb_exists _ _) (Hall ltac:(apply in_seq; lia)))
        as [k [Hk Hneg]].
      apply in_seq in Hk. apply negb_true_iff in Hneg.
      exists (Z.of_nat k). split; [lia | exact Hneg].
Qed.

(** The backward search stops on a trading day whenever one lies within
    its reach. *)
Lemma step_back_finds n : forall d k,
  0 <= k <= Z.of_nat n ->
  is_holiday_or_weekend (d - k) = false ->
  is_holiday_or_weekend (step_back n d) = false.
Proof.
  induction n as [| n IH]; intros d k Hk Hfree.
  - simpl. replace k with 0 in Hfree by lia.
    now rewrite Z.sub_0_r in Hfree.
  - simpl. destruct (is_holiday_or_weekend d) eqn:Hd; [| exact Hd].
    assert (k <> 0) by (intros ->; rewrite Z.sub_0_r in Hfree; congruence).
    apply (IH (minus_days d 1) (k - 1)); [lia |].
    unfold minus_days. replace (d - 1 - (k - 1)) with (d - k) by lia.
    exact Hfree.
Qed.

(** C10. For every current datetime, [get_last_trading_day] returns a date
    that is neither a weekend day nor a listed holiday: the search of at
    most ten steps back always reaches a trading day, since the 2026
    holiday table never closes the market for more than three days in a
    row. *)
Theorem get_last_trading_day_is_trading_day (now : datetime) :
  is_holiday_or_weekend (get_last_trading_day now) = false.
Proof.
  unfold get_last_trading_day.
  match goal with |- context [step_back 10 ?start] =>
    destruct (trading_day_within_three start) as [k [Hk Hfree]];
    apply (step_back_finds 10 start k); [simpl; lia | exact Hfree]
  end.
Qed.

(** Monday 26 January 2026, 10:00: Republic Day, then the weekend; the
    last trading day is Friday 23 January. *)
Example republic_day_morning :
  get_last_trading_day (mk_datetime (date 2026 1 26) 10 0 0 0) = date 2026 1 23.
Proof. reflexivity. Qed.

End TradingDayFacts.

(* ===================================================================== *)
(** ** Rational comparisons *)
(* ===================================================================== *)

Module StatsFacts.
Import Stats.
Local Open Scope Q_scope.

Lemma Qltb_lt a b : Qltb a b = true <-> a < b.
Proof.
  unfold Qltb. rewrite negb_true_iff.
  split.
  - intros H. apply Qnot_le_lt. intros Hle.
    apply Qle_bool_iff in Hle. congruence.
  - intros H. destruct (Qle_bool b a) eqn:Hb; [| reflexivity].
    apply Qle_bool_iff in Hb. exfalso. apply (Qlt_not_le _ _ H Hb).
Qed.

Lemma Qltb_ge a b : Qltb a b = false <-> b <= a.
Proof.
  unfold Qltb. rewrite negb_false_iff. apply Qle_bool_iff.
Qed.

End StatsFacts.

(* ===================================================================== *)
(** ** The validator *)
(* ===================================================================== *)

Module ValidatorFacts.
Import Calendar CalendarFacts Stats StatsFacts VIX.
Local Open Scope Q_scope.

(** The range check accepts exactly the values of the plausible range. *)
Lemma validate_vix_value_true v :
  fst (validate_vix_value v) = true <-> 8 <= v <= 40.
Proof.
  unfold validate_vix_value, historical_vix_range. simpl fst. simpl snd.
  destruct (Qle_bool v 0) eqn:H0.
  - apply Qle_bool_iff in H0. simpl. split; [discriminate |].
    intros [H8 _]. exfalso. lra.
  - destruct (Qltb v 8) eqn:H8.
    + apply Qltb_lt in H8. simpl. split; [discriminate |].
      intros [H _]. exfalso. lra.
    + apply Qltb_ge in H8. destruct (Qltb 40 v) eqn:H40.
      * apply Qltb_lt in H40. simpl. split; [discriminate |].
        intros [_ H]. exfalso. lra.
      * apply Qltb_ge in H40. simpl. split; [intros _; split; assumption | reflexivity].
Qed.

Lemma validate_freshness_true self now ts :
  fst (validate_freshness self now ts) = true
  <-> age_minutes now ts <= max_age self now.
Proof.
  unfold validate_freshness.
  destruct (Qltb (max_age self now) (age_minutes now ts)) eqn:H; simpl.
  - apply Qltb_lt in H. split; [discriminate |].
    intros Hle. exfalso. apply (Qlt_not_le _ _ H Hle).
  - apply Qltb_ge in H. split; [intros _; exact H | reflexivity].
Qed.

(** C3. The freshness ceiling is 72 hours on Saturday, on Sunday and on
    Monday before 9; otherwise 16 hours before 9 and the configured
    maximum (30 minutes by default) from 9 on.  Whatever the current time
    and the reading's timestamp, a reading older than the ceiling is
    rejected as too old, and one within it is accepted. *)
Theorem freshness_ceiling_by_time_and_weekday
    (self : fetcher) (now ts : datetime) :
  let wd := weekday (dt_date now) in
  let bridging := (wd = 5 \/ wd = 6 \/ (wd = 0 /\ hour now < 9))%Z in
  (bridging -> max_age self now = 72 * 60) /\
  (~ bridging -> (hour now < 9)%Z -> max_age self now = 16 * 60) /\
  (~ bridging -> (9 <= hour now)%Z -> max_age self now = max_age_minutes self) /\
  max_age_minutes default_fetcher = 30 /\
  (max_age self now < age_minutes now ts ->
   validate_freshness self now ts
   = (false, TooOld (age_minutes now ts) (max_age self now))) /\
  (age_minutes now ts <= max_age self now ->
   validate_freshness self now ts = (true, Fresh (age_minutes now ts))).
Proof.
  intros wd bridging.
  pose proof (weekday_range (dt_date now)) as Hwd. fold wd in Hwd.
  assert (Hceil : max_age self now =
                  if ((5 <=? wd) || ((wd =? 0) && (hour now <? 9)))%Z
                  then 72 * 60
                  else if (hour now <? 9)%Z then 16 * 60
                       else max_age_minutes self) by reflexivity.
  assert (Hb : ((5 <=? wd) || ((wd =? 0) && (hour now <? 9)))%Z = true
               <-> bridging).
  { unfold bridging. rewrite orb_true_iff, andb_true_iff.
    rewrite Z.leb_le, Z.eqb_eq, Z.ltb_lt. lia. }
  split; [| split; [| split; [| split; [reflexivity | split]]]].
  - intros Hbr. apply Hb in Hbr. now rewrite Hceil, Hbr.
  - intros Hn H9. rewrite Hceil.
    destruct ((5 <=? wd) || ((wd =? 0) && (hour now <? 9)))%Z eqn:Hc.
    + exfalso. apply Hn, Hb. reflexivity.
    + apply Z.ltb_lt in H9. now rewrite H9.
  - intros Hn H9. rewrite Hceil.
    destruct ((5 <=? wd) || ((wd =? 0) && (hour now <? 9)))%Z eqn:Hc.
    + exfalso. apply Hn, Hb. reflexivity.
    + apply Z.ltb_ge in H9. now rewrite H9.
  - intros Hold. unfold validate_freshness.
    apply Qltb_lt in Hold. now rewrite Hold.
  - intros Hyoung. unfold validate_freshness.
    apply Qltb_ge in Hyoung. now rewrite Hyoung.
Qed.

(** Across the weekend: Friday's close is fresh on Monday at 08:00, when
    the ceiling is 72 hours, and too old at 09:00, when it is 30 minutes. *)
Example friday_close_on_monday_morning :
  fst (validate_freshness default_fetcher Fixtures.monday_8am Fixtures.friday_close)
  = true
  /\ max_age default_fetcher Fixtures.monday_8am = 72 * 60
  /\ fst (validate_freshness default_fetcher Fixtures.monday_9am Fixtures.friday_close)
     = false
  /\ max_age default_fetcher Fixtures.monday_9am = 30.
Proof. repeat split. Qed.

(** Before the open on a Tuesday the ceiling is 16 hours. *)
Example tuesday_pre_open_ceiling :
  max_age default_fetcher (mk_datetime (date 2026 11 3) 8 0 0 0) = 16 * 60.
Proof. reflexivity. Qed.

End ValidatorFacts.

(* ===================================================================== *)
(** ** The consensus engine *)
(* ===================================================================== *)

Module ConsensusFacts.
Import Calendar Stats StatsFacts VIX ValidatorFacts Fixtures.
Local Open Scope Q_scope.

(** A reading enters [valid_sources] exactly when it was offered and
    passes both checks. *)
Lemma in_valid_sources self now sources r :
  In r (valid_sources self now sources)
  <-> (exists name, In (name, Some r) sources)
      /\ fst (validate_vix_value (value r)) = true
      /\ fst (validate_freshness self now (timestamp r)) = true.
Proof.
  induction sources as [| [name [data |]] rest IH]; simpl.
  - split; [contradiction | intros [[? []] _]].
  - destruct (fst (validate_vix_value (value data))) eqn:Hv;
      [destruct (fst (validate_freshness self now (timestamp data))) eqn:Hf |].
    + simpl. rewrite IH. split.
      * intros [-> | [[n Hn] Hok]].
        -- split; [exists name; now left | now split].
        -- split; [exists n; now right | exact Hok].
      * intros [[n [Heq | Hn]] Hok].
        -- left. congruence.
        -- right. split; [exists n; exact Hn | exact Hok].
    + rewrite IH. split.
      * intros [[n Hn] Hok]. split; [exists n; now right | exact Hok].
      * intros [[n [Heq | Hn]] Hok].
        -- exfalso. assert (data = r) by congruence. subst.
           destruct Hok as [_ Hok]. congruence.
        -- split; [exists n; exact Hn | exact Hok].
    + rewrite IH. split.
      * intros [[n Hn] Hok]. split; [exists n; now right | exact Hok].
      * intros [[n [Heq | Hn]] Hok].
        -- exfalso. assert (data = r) by congruence. subst.
           destruct Hok as [Hok _]. congruence.
        -- split; [exists n; exact Hn | exact Hok].
  - rewrite IH. split.
    + intros [[n Hn] Hok]. split; [exists n; now right | exact Hok].
    + intros [[n [Heq | Hn]] Hok]; [discriminate |].
      split; [exists n; exact Hn | exact Hok].
Qed.

(** Concrete comparisons of rationals. *)
Ltac q_decide :=
  vm_compute;
  first [ reflexivity
        | discriminate
        | let H := fresh in intros H; discriminate H ].

(** The result for two or more valid readings, written out. *)
Lemma consensus_many self first second rest :
  let valid := first :: second :: rest in
  consensus self valid
  = Some {| value := round2 (consensus_value self (map value valid));
            change := Some (round2 (consensus_change valid));
            timestamp := timestamp (best_source first (second :: rest));
            source := source (best_source first (second :: rest));
            confidence := confidence (best_source first (second :: rest));
            validated := Some true;
            num_sources := Some (length valid) |}.
Proof. reflexivity. Qed.

(** A HIGH reading is never displaced. *)
Lemma best_source_high first others :
  String.eqb (confidence first) "HIGH" = true ->
  best_source first others = first.
Proof.
  intros Hhigh. unfold best_source, py_max_by.
  induction others as [| x xs IH]; simpl; [reflexivity |].
  replace (Qltb (confidence_key first) (confidence_key x)) with false;
    [exact IH |].
  unfold confidence_key. rewrite Hhigh.
  destruct (String.eqb (confidence x) "HIGH"); reflexivity.
Qed.

(** [max] with the code's key picks the first HIGH reading, and the first
    reading when none is HIGH. *)
Lemma best_source_find first others :
  best_source first others
  = match find (fun r => String.eqb (confidence r) "HIGH") (first :: others) with
    | Some h => h
    | None => first
    end.
Proof.
  simpl find.
  destruct (String.eqb (confidence first) "HIGH") eqn:Hfirst.
  - now apply best_source_high.
  - induction others as [| x xs IH]; simpl; [reflexivity |].
    assert (Hk : confidence_key first = 1 # 2)
      by (unfold confidence_key; now rewrite Hfirst).
    unfold best_source, py_max_by. simpl. rewrite Hk.
    destruct (String.eqb (confidence x) "HIGH") eqn:Hx.
    + assert (Hkx : confidence_key x = 1)
        by (unfold confidence_key; now rewrite Hx).
      rewrite Hkx. change (Qltb (1 # 2) 1) with true. cbv iota.
      now apply best_source_high.
    + assert (Hkx : confidence_key x = 1 # 2)
        by (unfold confidence_key; now rewrite Hx).
      rewrite Hkx. change (Qltb (1 # 2) (1 # 2)) with false. cbv iota.
      exact IH.
Qed.

End ConsensusFacts.

(* ===================================================================== *)
(** ** The stock fetcher: what each step does to cache and trace *)
(* ===================================================================== *)

Module StockFetcherFrames.
Import Calendar Stats StockFetcher.

Section Frames.
Context {E : Type} (up : upstream E).

Lemma new_events_app (w w' : world E) l :
  trace w' = trace w ++ l -> new_events w w' = l.
Proof.
  intros H. unfold new_events. rewrite H. apply drop_app_length.
Qed.

Lemma calls_to_app c l1 l2 :
  calls_to c (l1 ++ l2) = (calls_to c l1 + calls_to c l2)%nat.
Proof. unfold calls_to. now rewrite List.filter_app, length_app. Qed.

Lemma calls_to_repeat_yahoo t n : calls_to Yahoo (repeat (YfHistory t) n) = n.
Proof.
  unfold calls_to. induction n as [| n IH]; simpl; [reflexivity |].
  now rewrite IH.
Qed.

(** The retry loop calls Yahoo once per iteration, stops at the first
    attempt that yields data, and touches nothing else. *)
Lemma yahoo_attempts_frame t : forall remaining attempt (w : world E),
  exists n,
    (n <= remaining)%nat
    /\ (remaining <> 0%nat -> (1 <= n)%nat)
    /\ cache (snd (yahoo_attempts up remaining attempt t w)) = cache w
    /\ trace (snd (yahoo_attempts up remaining attempt t w))
       = trace w ++ repeat (YfHistory t) n
    /\ (fst (yahoo_attempts up remaining attempt t w) = None -> n = remaining).
Proof.
  induction remaining as [| k IH]; intros attempt w.
  - exists 0%nat. simpl. rewrite app_nil_r. repeat split; auto. congruence.
  - cbn [yahoo_attempts]. unfold bind.
    set (w0 := snd ((if (0 <? attempt)%nat
                     then pause up (3 * inject_Z (2 ^ Z.of_nat attempt))
                     else fun w =>
                            let '(d, e1) := random_uniform up 1 2 (ext w) in
                            pause up d (mk_world e1 (cache w) (trace w))) w)).
    assert (Hw0 : cache w0 = cache w /\ trace w0 = trace w).
    { unfold w0. destruct (0 <? attempt)%nat; unfold pause; simpl.
      - split; reflexivity.
      - destruct (random_uniform up 1 2 (ext w)). simpl. split; reflexivity. }
    destruct Hw0 as [Hc0 Ht0].
    replace ((if (0 <? attempt)%nat
              then pause up (3 * inject_Z (2 ^ Z.of_nat attempt))
              else fun w =>
                     let '(d, e1) := random_uniform up 1 2 (ext w) in
                     pause up d (mk_world e1 (cache w) (trace w))) w)
      with (tt, w0)
      by (unfold w0; destruct (_ w) as [[] ?]; reflexivity).
    unfold io. destruct (yf_history up t (ext w0)) as [r e1].
    set (w1 := mk_world e1 (cache w0) (trace w0 ++ [YfHistory t])).
    assert (Hretry :
      exists n,
        (n <= S k)%nat /\ (S k <> 0%nat -> (1 <= n)%nat)
        /\ cache (snd (yahoo_attempts up k (S attempt) t w1)) = cache w
        /\ trace (snd (yahoo_attempts up k (S attempt) t w1))
           = trace w ++ repeat (YfHistory t) n
        /\ (fst (yahoo_attempts up k (S attempt) t w1) = None -> n = S k)).
    { destruct (IH (S attempt) w1) as [n (Hn & _ & Hc & Ht & Hnone)].
      exists (S n). split; [lia |]. split; [lia |].
      split; [rewrite Hc; exact Hc0 |].
      split; [| intros H; rewrite (Hnone H); reflexivity].
      rewrite Ht. unfold w1. cbn [trace]. rewrite Ht0, <- app_assoc.
      reflexivity. }
    destruct r as [msg | hist]; [exact Hretry |].
    destruct (yahoo_quote t hist) as [data |]; [| exact Hretry].
    exists 1%nat. unfold ret. cbn [fst snd]. unfold w1. cbn [cache trace].
    split; [lia |]. split; [lia |]. split; [exact Hc0 |].
    split; [now rewrite Ht0 | discriminate].
Qed.

Lemma fetch_yahoo_frame t (w : world E) :
  exists n,
    (1 <= n <= 3)%nat
    /\ cache (snd (_fetch_yahoo up t w)) = cache w
    /\ trace (snd (_fetch_yahoo up t w)) = trace w ++ repeat (YfHistory t) n
    /\ (fst (_fetch_yahoo up t w) = None -> n = 3%nat).
Proof.
  destruct (yahoo_attempts_frame t max_retries 0 w) as [n (H1 & H2 & H3 & H4 & H5)].
  exists n. unfold _fetch_yahoo. unfold max_retries in *.
  repeat split; auto; lia.
Qed.

Lemma fetch_nse_frame t (w : world E) :
  exists l,
    (l = [NseHome] \/ l = [NseHome; NseQuote (remove_NS t)])
    /\ cache (snd (_fetch_nse up t w)) = cache w
    /\ trace (snd (_fetch_nse up t w)) = trace w ++ l.
Proof.
  unfold _fetch_nse, bind, io, ret.
  destruct (nse_home up (ext w)) as [ok e1]. destruct ok.
  - cbn [ext cache trace].
    destruct (nse_quote up (remove_NS t) e1) as [r e2].
    exists [NseHome; NseQuote (remove_NS t)]. cbn [snd cache trace].
    split; [now right |]. split; [reflexivity |].
    now rewrite <- app_assoc.
  - exists [NseHome]. cbn [snd cache trace]. split; [now left |].
    split; reflexivity.
Qed.

Lemma fetch_groww_frame t (w : world E) :
  exists l,
    (l = [GrowwSearch (remove_NS t)]
     \/ l = [GrowwSearch (remove_NS t); GoogleQuote (remove_NS t)])
    /\ cache (snd (_fetch_groww up t w)) = cache w
    /\ trace (snd (_fetch_groww up t w)) = trace w ++ l.
Proof.
  unfold _fetch_groww, bind, io, ret.
  destruct (groww_search up (remove_NS t) (ext w)) as [ok e1]. destruct ok.
  - cbn [ext cache trace].
    destruct (google_quote up (remove_NS t) e1) as [p e2].
    exists [GrowwSearch (remove_NS t); GoogleQuote (remove_NS t)].
    cbn [snd cache trace].
    split; [now right |]. split; [reflexivity |].
    now rewrite <- app_assoc.
  - exists [GrowwSearch (remove_NS t)]. cbn [snd cache trace].
    split; [now left |]. split; reflexivity.
Qed.

(** [fetch_stock], one source after the other. *)
Lemma fetch_stock_cases t (w : world E) :
  exists r1 w1,
    _fetch_yahoo up t w = (r1, w1)
    /\ match r1 with
       | Some d =>
           fetch_stock up t w
           = (Some d, snd (update_cache up t d "Yahoo Finance" w1))
       | None =>
           exists r2 w2,
             _fetch_nse up t w1 = (r2, w2)
             /\ match r2 with
                | Some d =>
                    fetch_stock up t w
                    = (Some d, snd (update_cache up t d "NSE Official" w2))
                | None =>
                    exists r3 w3,
                      _fetch_groww up t w2 = (r3, w3)
                      /\ match r3 with
                         | Some d =>
                             fetch_stock up t w
                             = (Some d, snd (update_cache up t d "Groww" w3))
                         | None =>
                             fetch_stock up t w = get_cached_data up t w3
                         end
                end
       end.
Proof.
  unfold fetch_stock, bind.
  destruct (_fetch_yahoo up t w) as [r1 w1]. exists r1, w1.
  split; [reflexivity |]. destruct r1 as [d1 |]; [reflexivity |].
  destruct (_fetch_nse up t w1) as [r2 w2]. exists r2, w2.
  split; [reflexivity |]. destruct r2 as [d2 |]; [reflexivity |].
  destruct (_fetch_groww up t w2) as [r3 w3]. exists r3, w3.
  split; [reflexivity |]. destruct r3 as [d3 |]; [reflexivity |].
  destruct (get_cached_data up t w3) as [[c |] w4]; reflexivity.
Qed.

Lemma existsb_repeat (f : event -> bool) x n :
  f x = false -> existsb f (repeat x n) = false.
Proof.
  intros Hx. induction n as [| n IH]; simpl; [reflexivity |].
  now rewrite Hx, IH.
Qed.

Lemma calls_to_repeat_other c t n :
  c <> Yahoo -> calls_to c (repeat (YfHistory t) n) = 0%nat.
Proof.
  intros Hc. unfold calls_to.
  induction n as [| n IH]; simpl; [reflexivity |].
  destruct c; simpl; try exact IH. congruence.
Qed.

Lemma Forall_repeat_yahoo t n :
  Forall (fun ev => component_of ev = Yahoo) (repeat (YfHistory t) n).
Proof. induction n; simpl; constructor; auto. Qed.

Lemma nse_calls_component t l :
  nse_calls t l -> Forall (fun ev => component_of ev = NSE) l.
Proof. intros [-> | ->]; repeat constructor. Qed.

Lemma groww_calls_component t l :
  groww_calls t l -> Forall (fun ev => component_of ev = Groww) l.
Proof. intros [-> | ->]; repeat constructor. Qed.

(** Every run of [fetch_stock] is of one of four kinds: data from Yahoo,
    from NSE, from Groww (each written to the cache), or a cache lookup
    after all three failed. *)
Lemma fetch_stock_shape t (w : world E) :
  let run := fetch_stock up t w in
  exists n ns gs,
    (1 <= n <= 3)%nat
    /\ ((exists d w1,
           _fetch_yahoo up t w = (Some d, w1)
           /\ fst run = Some d
           /\ cache (snd run)
              = <[t := mk_entry (Some d) (Some (clock up (ext w1)))
                         "Yahoo Finance"]> (cache w)
           /\ new_events w (snd run)
              = repeat (YfHistory t) n ++ [CacheWrite t "Yahoo Finance"])
        \/ (exists d w1 w2,
              _fetch_yahoo up t w = (None, w1)
              /\ _fetch_nse up t w1 = (Some d, w2)
              /\ n = 3%nat /\ nse_calls t ns
              /\ fst run = Some d
              /\ cache (snd run)
                 = <[t := mk_entry (Some d) (Some (clock up (ext w2)))
                            "NSE Official"]> (cache w)
              /\ new_events w (snd run)
                 = repeat (YfHistory t) n ++ ns
                   ++ [CacheWrite t "NSE Official"])
        \/ (exists d w1 w2 w3,
              _fetch_yahoo up t w = (None, w1)
              /\ _fetch_nse up t w1 = (None, w2)
              /\ _fetch_groww up t w2 = (Some d, w3)
              /\ n = 3%nat /\ nse_calls t ns /\ groww_calls t gs
              /\ fst run = Some d
              /\ cache (snd run)
                 = <[t := mk_entry (Some d) (Some (clock up (ext w3)))
                            "Groww"]> (cache w)
              /\ new_events w (snd run)
                 = repeat (YfHistory t) n ++ ns ++ gs
                   ++ [CacheWrite t "Groww"])
        \/ (exists w1 w2 w3,
              _fetch_yahoo up t w = (None, w1)
              /\ _fetch_nse up t w1 = (None, w2)
              /\ _fetch_groww up t w2 = (None, w3)
              /\ n = 3%nat /\ nse_calls t ns /\ groww_calls t gs
              /\ fst run = fst (get_cached_data up t w3)
              /\ cache w3 = cache w
              /\ cache (snd run) = cache w
              /\ new_events w (snd run)
                 = repeat (YfHistory t) n ++ ns ++ gs ++ [CacheRead t])).
Proof.
  intros run. subst run.
  destruct (fetch_stock_cases t w) as (r1 & w1 & Hy & Hrest).
  destruct (fetch_yahoo_frame t w) as (n & Hn & Hyc & Hyt & Hyn).
  rewrite Hy in Hyc, Hyt, Hyn. cbn [fst snd] in Hyc, Hyt, Hyn.
  destruct r1 as [d |].
  { exists n, [], []. split; [exact Hn |]. left. exists d, w1.
    rewrite Hrest. cbn [fst snd update_cache cache trace].
    repeat (split; [first [reflexivity | assumption] |]).
    split; [now rewrite Hyc |].
    apply new_events_app. cbn [trace]. now rewrite Hyt, <- app_assoc. }
  specialize (Hyn eq_refl). subst n.
  destruct Hrest as (r2 & w2 & Hnse & Hrest).
  destruct (fetch_nse_frame t w1) as (ns & Hns & Hnc & Hnt).
  rewrite Hnse in Hnc, Hnt. cbn [snd] in Hnc, Hnt.
  destruct r2 as [d |].
  { exists 3%nat, ns, []. split; [lia |]. right. left. exists d, w1, w2.
    rewrite Hrest. cbn [fst snd update_cache cache trace].
    repeat (split; [first [reflexivity | assumption] |]).
    split; [now rewrite Hnc, Hyc |].
    apply new_events_app. cbn [trace].
    now rewrite Hnt, Hyt, <- !app_assoc. }
  destruct Hrest as (r3 & w3 & Hgr & Hrest).
  destruct (fetch_groww_frame t w2) as (gs & Hgs & Hgc & Hgt).
  rewrite Hgr in Hgc, Hgt. cbn [snd] in Hgc, Hgt.
  destruct r3 as [d |].
  { exists 3%nat, ns, gs. split; [lia |]. right. right. left.
    exists d, w1, w2, w3.
    rewrite Hrest. cbn [fst snd update_cache cache trace].
    repeat (split; [first [reflexivity | assumption] |]).
    split; [now rewrite Hgc, Hnc, Hyc |].
    apply new_events_app. cbn [trace].
    now rewrite Hgt, Hnt, Hyt, <- !app_assoc. }
  exists 3%nat, ns, gs. split; [lia |]. right. right. right.
  exists w1, w2, w3. rewrite Hrest.
  repeat (split; [first [reflexivity | assumption] |]).
  split; [now rewrite Hgc, Hnc, Hyc |].
  unfold get_cached_data. cbn [snd cache trace].
  split; [now rewrite Hgc, Hnc, Hyc |].
  apply new_events_app. cbn [trace].
  now rewrite Hgt, Hnt, Hyt, <- !app_assoc.
Qed.

End Frames.
End StockFetcherFrames.

(* ===================================================================== *)
(** ** The stock fetcher: cache store *)
(* ===================================================================== *)

Module CacheFacts.
Import Calendar Stats StockFetcher StockFetcherFrames StockFixtures.

(** [get_cached_data] serves an entry exactly when it is there, carries a
    timestamp less than 24 hours old, and has data. *)
Lemma get_cached_data_some {E} (up : upstream E) t (w : world E) d :
  fst (get_cached_data up t w) = Some d
  <-> exists entry stored_at,
        cache w !! t = Some entry
        /\ ce_timestamp entry = Some stored_at
        /\ (to_microseconds (clock up (ext w)) - to_microseconds stored_at
            < timedelta_hours 24)%Z
        /\ ce_data entry = Some d.
Proof.
  unfold get_cached_data. cbn [fst].
  destruct (cache w !! t) as [entry |] eqn:Hlook.
  - destruct (ce_timestamp entry) as [ts |] eqn:Hts.
    + destruct (Z.ltb_spec (to_microseconds (clock up (ext w)) - to_microseconds ts)
                           (timedelta_hours 24)) as [Hlt | Hge].
      * split.
        -- intros Hd. exists entry, ts. repeat split; assumption.
        -- intros (e & s & He & Hs & _ & Hd).
           assert (e = entry) by congruence. subst e. exact Hd.
      * split; [discriminate |].
        intros (e & s & He & Hs & Hlt & _).
        assert (e = entry) by congruence. subst e.
        assert (s = ts) by congruence. subst s. lia.
    + split; [discriminate |].
      intros (e & s & He & Hs & _). congruence.
  - split; [discriminate |].
    intros (e & s & He & _). congruence.
Qed.

(** C2, as amended.  [get_cached_data] returns the cached data only if the
    entry's age is strictly less than 24 hours.  When all three live
    sources fail, [fetch_stock] returns the cached data if the cache holds
    an entry for the ticker with now - stored_at < 24h, and fails (returns
    nothing) otherwise; an entry aged 24 hours or more is never returned. *)
Theorem cache_fallback_only_when_younger_than_ttl
    {E} (up : upstream E) (t : string) (w w1 w2 w3 : world E) :
  _fetch_yahoo up t w = (None, w1) ->
  _fetch_nse up t w1 = (None, w2) ->
  _fetch_groww up t w2 = (None, w3) ->
  let now := clock up (ext w3) in
  let served d :=
    exists entry stored_at,
      cache w !! t = Some entry
      /\ ce_timestamp entry = Some stored_at
      /\ (to_microseconds now - to_microseconds stored_at
          < timedelta_hours 24)%Z
      /\ ce_data entry = Some d in
  (forall d, fst (fetch_stock up t w) = Some d <-> served d)
  /\ (fst (fetch_stock up t w) = None <-> ~ exists d, served d)
  /\ (forall entry stored_at,
        cache w !! t = Some entry ->
        ce_timestamp entry = Some stored_at ->
        (timedelta_hours 24
         <= to_microseconds now - to_microseconds stored_at)%Z ->
        fst (fetch_stock up t w) = None).
Proof.
  intros Hy Hn Hg now served.
  destruct (fetch_stock_shape up t w) as (n & ns & gs & _ & Hshape).
  assert (Hrun : fst (fetch_stock up t w) = fst (get_cached_data up t w3)
                 /\ cache w3 = cache w).
  { destruct Hshape as [(d & x1 & H & _)
                       | [(d & x1 & x2 & H1 & H2 & _)
                         | [(d & x1 & x2 & x3 & H1 & H2 & H3 & _)
                           | (x1 & x2 & x3 & H1 & H2 & H3 & _ & _ & _ & Hr & Hc & _)]]].
    - congruence.
    - congruence.
    - congruence.
    - assert (x1 = w1) by congruence. subst x1.
      assert (x2 = w2) by congruence. subst x2.
      assert (x3 = w3) by congruence. subst x3. now split. }
  destruct Hrun as [Hrun Hcache].
  assert (Hserved : forall d, fst (fetch_stock up t w) = Some d <-> served d).
  { intros d. rewrite Hrun, get_cached_data_some. unfold served, now.
    rewrite Hcache. reflexivity. }
  assert (Hdec : fst (fetch_stock up t w) = None
                 \/ exists d, fst (fetch_stock up t w) = Some d)
    by (destruct (fst (fetch_stock up t w)); eauto).
  split; [exact Hserved | split].
  - split.
    + intros Hnone [d Hd]. apply Hserved in Hd. congruence.
    + intros Hno. destruct Hdec as [Hr | [d Hr]]; [exact Hr |].
      exfalso. apply Hno. exists d. now apply Hserved.
  - intros entry stored_at He Hs Hold.
    destruct Hdec as [Hr | [d Hr]]; [exact Hr |].
    apply Hserved in Hr. destruct Hr as (e & s & He' & Hs' & Hlt & _).
    assert (e = entry) by congruence. subst e.
    assert (s = stored_at) by congruence. subst s. lia.
Qed.

(** With every provider down and an entry stored 23 hours ago, that entry
    is served. *)
Lemma cache_fallback_witness :
  fst (fetch_stock all_down "RELIANCE.NS" (start (cached_at monday_11am)))
  = Some reliance.
Proof.
  apply (proj1 (cache_fallback_only_when_younger_than_ttl
                  all_down "RELIANCE.NS" (start (cached_at monday_11am))
                  _ _ _ eq_refl eq_refl eq_refl)).
  exists (mk_entry (Some reliance) (Some monday_11am) "Yahoo Finance"),
         monday_11am.
  split; [reflexivity |]. split; [reflexivity |].
  split; [vm_compute; reflexivity | reflexivity].
Defined.

(** The claim as first stated fails at the boundary: with every provider
    down, an entry stored exactly 24 hours ago (now - stored_at <= ttl) is
    not returned. *)
Lemma entry_aged_exactly_ttl_is_not_served :
  let w := start (cached_at monday_10am) in
  cache w !! "RELIANCE.NS"%string
  = Some (mk_entry (Some reliance) (Some monday_10am) "Yahoo Finance")
  /\ (to_microseconds (clock all_down (ext w)) - to_microseconds monday_10am
      <= timedelta_hours 24)%Z
  /\ fst (get_cached_data all_down "RELIANCE.NS" w) = None
  /\ fst (fetch_stock all_down "RELIANCE.NS" w) = None.
Proof.
  split; [reflexivity |]. split; [vm_compute; discriminate |].
  split; reflexivity.
Qed.

(** Reading the counts and tests off an explicit list of events. *)
Ltac events_simpl :=
  repeat first
    [ rewrite existsb_app
    | rewrite calls_to_app
    | rewrite calls_to_repeat_yahoo
    | rewrite calls_to_repeat_other by discriminate
    | rewrite existsb_repeat by reflexivity ];
  cbn [existsb is_cache_read is_cache_write orb].

Ltac calls_cases :=
  repeat match goal with
         | H : nse_calls _ _ |- _ => destruct H as [-> | ->]
         | H : groww_calls _ _ |- _ => destruct H as [-> | ->]
         end.

(** C9.  [update_cache] overwrites the ticker's entry whatever was there
    and leaves the other entries alone.  In a run of [fetch_stock] the
    cache is written only when a live source returned data, with that data
    under the ticker: a run that consults the cache, whether it serves the
    entry or finds it expired, and a run that fails, leave the cache as it
    was; no run removes an entry, and no lookup changes the cache. *)
Theorem cache_written_only_on_live_success
    {E} (up : upstream E) (t : string) (w : world E) :
  (forall d src (w0 : world E),
     cache (snd (update_cache up t d src w0)) !! t
     = Some (mk_entry (Some d) (Some (clock up (ext w0))) src)
     /\ forall k, k <> t ->
          cache (snd (update_cache up t d src w0)) !! k = cache w0 !! k)
  /\ (let run := fetch_stock up t w in
      let new := new_events w (snd run) in
      (existsb is_cache_read new = true ->
       cache (snd run) = cache w /\ existsb is_cache_write new = false)
      /\ (fst run = None -> cache (snd run) = cache w)
      /\ (existsb is_cache_write new = false -> cache (snd run) = cache w)
      /\ (existsb is_cache_write new = true ->
          existsb is_cache_read new = false
          /\ exists d src stored_at,
               fst run = Some d
               /\ last new = Some (CacheWrite t src)
               /\ cache (snd run)
                  = <[t := mk_entry (Some d) (Some stored_at) src]> (cache w))
      /\ (forall k, is_Some (cache w !! k) -> is_Some (cache (snd run) !! k))
      /\ (forall k, k <> t -> cache (snd run) !! k = cache w !! k))
  /\ (forall w0 : world E, cache (snd (get_cached_data up t w0)) = cache w0).
Proof.
  split; [| split; [| reflexivity]].
  - intros d src w0. unfold update_cache. cbn [snd cache]. split.
    + apply lookup_insert_eq.
    + intros k Hk. now apply lookup_insert_ne.
  - intros run new. subst run new.
    destruct (fetch_stock_shape up t w) as (n & ns & gs & Hn & Hshape).
    destruct Hshape as [(d & w1 & Hy & Hr & Hc & Hnew)
                       | [(d & w1 & w2 & Hy & Hnse & _ & Hns & Hr & Hc & Hnew)
                         | [(d & w1 & w2 & w3 & Hy & Hnse & Hgr & _ & Hns & Hgs
                             & Hr & Hc & Hnew)
                           | (w1 & w2 & w3 & Hy & Hnse & Hgr & _ & Hns & Hgs
                              & Hr & _ & Hc & Hnew)]]];
      rewrite Hnew, Hc.
    + split; [events_simpl; discriminate |].
      split; [congruence |].
      split; [events_simpl; discriminate |].
      split; [| split].
      * intros _. split; [events_simpl; reflexivity |].
        exists d, "Yahoo Finance"%string, (clock up (ext w1)).
        split; [exact Hr |]. split; [apply last_snoc | reflexivity].
      * intros k Hk. destruct (decide (t = k)) as [-> | Hne].
        -- rewrite lookup_insert_eq. eauto.
        -- now rewrite lookup_insert_ne.
      * intros k Hk. now apply lookup_insert_ne.
    + split; [calls_cases; events_simpl; discriminate |].
      split; [congruence |].
      split; [calls_cases; events_simpl; discriminate |].
      split; [| split].
      * intros _. split; [calls_cases; events_simpl; reflexivity |].
        exists d, "NSE Official"%string, (clock up (ext w2)).
        split; [exact Hr |]. split; [| reflexivity].
        rewrite app_assoc. apply last_snoc.
      * intros k Hk. destruct (decide (t = k)) as [-> | Hne].
        -- rewrite lookup_insert_eq. eauto.
        -- now rewrite lookup_insert_ne.
      * intros k Hk. now apply lookup_insert_ne.
    + split; [calls_cases; events_simpl; discriminate |].
      split; [congruence |].
      split; [calls_cases; events_simpl; discriminate |].
      split; [| split].
      * intros _. split; [calls_cases; events_simpl; reflexivity |].
        exists d, "Groww"%string, (clock up (ext w3)).
        split; [exact Hr |]. split; [| reflexivity].
        rewrite !app_assoc. apply last_snoc.
      * intros k Hk. destruct (decide (t = k)) as [-> | Hne].
        -- rewrite lookup_insert_eq. eauto.
        -- now rewrite lookup_insert_ne.
      * intros k Hk. now apply lookup_insert_ne.
    + split; [intros _; split; [reflexivity |];
              calls_cases; events_simpl; reflexivity |].
      split; [reflexivity |].
      split; [reflexivity |].
      split; [calls_cases; events_simpl; discriminate |].
      split; [auto | reflexivity].
Qed.

End CacheFacts.

(* ===================================================================== *)
(** ** Cascade mode *)
(* ===================================================================== *)

Module CascadeFacts.
Import Calendar Stats StockFetcher StockFetcherFrames CacheFacts StockFixtures.

(** The option-chain cascade invokes a prefix of its adapters, in order,
    and nothing after the first one that returns data. *)
Lemma fetch_nifty_data_shape {E D} (src : OptionChain.adapters E D)
    (backup_spot_price : option Q) (w : OptionChain.world E) :
  let run := OptionChain.fetch_nifty_data src backup_spot_price w in
  let new := skipn (length (OptionChain.invoked w))
                   (OptionChain.invoked (snd run)) in
  (1 <= length new <= 3)%nat
  /\ map fst new = firstn (length new) OptionChain.priority_order
  /\ (forall i a, new !! i = Some (a, true) -> S i = length new)
  /\ (fst run = None <-> map snd new = [false; false; false])
  /\ (is_Some (fst run) <-> last (map snd new) = Some true).
Proof.
  intros run new. subst run new.
  unfold OptionChain.fetch_nifty_data, OptionChain.invoke.
  cbn [OptionChain.ext OptionChain.invoked].
  destruct (OptionChain._fetch_from_nse src (OptionChain.ext w)) as [[d1 |] e1];
    cbn [OptionChain.ext OptionChain.invoked fst snd].
  { rewrite drop_app_length. cbn.
    repeat split; try lia; try discriminate; eauto.
    intros [| i] a; cbn; [reflexivity | discriminate]. }
  destruct (OptionChain._fetch_from_groww src backup_spot_price e1) as [[d2 |] e2];
    cbn [OptionChain.ext OptionChain.invoked fst snd].
  { rewrite <- app_assoc, drop_app_length. cbn.
    repeat split; try lia; try discriminate; eauto.
    intros [| [| i]] a; cbn; try reflexivity; discriminate. }
  destruct (OptionChain._fetch_from_moneycontrol src e2) as [[d3 |] e3];
    cbn [OptionChain.ext OptionChain.invoked fst snd].
  { rewrite <- !app_assoc, drop_app_length. cbn.
    repeat split; try lia; try discriminate; eauto.
    intros [| [| [| i]]] a; cbn; try reflexivity; discriminate. }
  rewrite <- !app_assoc, drop_app_length. cbn.
  repeat split; try lia; try discriminate; eauto.
  - intros [| [| [| i]]] a; cbn; discriminate.
  - intros [x Hx]. discriminate.
Qed.

(** C5.  In cascade mode the sources are consulted in strict priority
    order and the run stops at the first one that returns data.  For
    [fetch_stock]: the events of a run are calls to Yahoo, then to NSE,
    then to Groww, then the cache; once Yahoo has returned data neither NSE
    nor Groww nor the cache is consulted; once NSE has, neither Groww nor
    the cache; once Groww has, not the cache; the cache is read only after
    all three sources were called and failed, and a run fails only after
    reading the cache.  For [fetch_nifty_data]: the adapters invoked are a
    prefix of the priority order, no adapter is invoked after one that
    returned data, and the run fails exactly when all three failed. *)
Theorem cascade_stops_at_first_success
    {E D} (up : upstream E) (src : OptionChain.adapters E D)
    (t : string) (w : world E)
    (backup_spot_price : option Q) (ow : OptionChain.world E) :
  (let run := fetch_stock up t w in
   let new := new_events w (snd run) in
   (exists ys ns gs cs,
      new = ys ++ ns ++ gs ++ cs
      /\ ys <> []
      /\ Forall (fun ev => component_of ev = Yahoo) ys
      /\ Forall (fun ev => component_of ev = NSE) ns
      /\ Forall (fun ev => component_of ev = Groww) gs
      /\ Forall (fun ev => component_of ev = CacheStore) cs)
   /\ (forall d w1,
         _fetch_yahoo up t w = (Some d, w1) ->
         fst run = Some d
         /\ calls_to NSE new = 0%nat
         /\ calls_to Groww new = 0%nat
         /\ existsb is_cache_read new = false)
   /\ (forall d w1 w2,
         _fetch_yahoo up t w = (None, w1) ->
         _fetch_nse up t w1 = (Some d, w2) ->
         fst run = Some d
         /\ calls_to Groww new = 0%nat
         /\ existsb is_cache_read new = false)
   /\ (forall d w1 w2 w3,
         _fetch_yahoo up t w = (None, w1) ->
         _fetch_nse up t w1 = (None, w2) ->
         _fetch_groww up t w2 = (Some d, w3) ->
         fst run = Some d
         /\ existsb is_cache_read new = false)
   /\ (existsb is_cache_read new = true ->
       (exists w1 w2 w3,
          _fetch_yahoo up t w = (None, w1)
          /\ _fetch_nse up t w1 = (None, w2)
          /\ _fetch_groww up t w2 = (None, w3))
       /\ calls_to Yahoo new = 3%nat
       /\ (1 <= calls_to NSE new)%nat
       /\ (1 <= calls_to Groww new)%nat)
   /\ (fst run = None -> existsb is_cache_read new = true))
  /\ (let run := OptionChain.fetch_nifty_data src backup_spot_price ow in
      let new := skipn (length (OptionChain.invoked ow))
                       (OptionChain.invoked (snd run)) in
      (1 <= length new <= 3)%nat
      /\ map fst new = firstn (length new) OptionChain.priority_order
      /\ (forall i a, new !! i = Some (a, true) -> S i = length new)
      /\ (fst run = None <-> map snd new = [false; false; false])
      /\ (is_Some (fst run) <-> last (map snd new) = Some true)).
Proof.
  split; [| apply fetch_nifty_data_shape].
  intros run new. subst run new.
  destruct (fetch_stock_shape up t w) as (n & ns & gs & Hn & Hshape).
  destruct Hshape as [(d & w1 & Hy & Hr & Hc & Hnew)
                     | [(d & w1 & w2 & Hy & Hnse & Hn3 & Hns & Hr & Hc & Hnew)
                       | [(d & w1 & w2 & w3 & Hy & Hnse & Hgr & Hn3 & Hns & Hgs
                           & Hr & Hc & Hnew)
                         | (w1 & w2 & w3 & Hy & Hnse & Hgr & Hn3 & Hns & Hgs
                            & Hr & _ & Hc & Hnew)]]];
    rewrite Hnew.
  - split.
    { exists (repeat (YfHistory t) n), [], [], [CacheWrite t "Yahoo Finance"].
      split; [reflexivity |].
      split; [destruct n; [lia | discriminate] |].
      split; [apply Forall_repeat_yahoo |]. repeat constructor. }
    split.
    { intros d' w1' Hy'. assert (d' = d) by congruence. subst d'.
      split; [exact Hr |]. events_simpl. repeat split; reflexivity. }
    split; [intros; congruence |]. split; [intros; congruence |].
    split; [events_simpl; discriminate | congruence].
  - subst n. split.
    { exists (repeat (YfHistory t) 3), ns, [], [CacheWrite t "NSE Official"].
      split; [reflexivity |]. split; [discriminate |].
      split; [apply Forall_repeat_yahoo |].
      split; [now apply (nse_calls_component t) |]. repeat constructor. }
    split; [intros; congruence |].
    split.
    { intros d' w1' w2' Hy' Hnse'.
      assert (w1' = w1) by congruence. subst w1'.
      assert (d' = d) by congruence. subst d'.
      split; [exact Hr |]. calls_cases; events_simpl; split; reflexivity. }
    split; [intros; congruence |].
    split; [calls_cases; events_simpl; discriminate | congruence].
  - subst n. split.
    { exists (repeat (YfHistory t) 3), ns, gs, [CacheWrite t "Groww"].
      split; [reflexivity |]. split; [discriminate |].
      split; [apply Forall_repeat_yahoo |].
      split; [now apply (nse_calls_component t) |].
      split; [now apply (groww_calls_component t) |]. repeat constructor. }
    split; [intros; congruence |].
    split; [intros; congruence |].
    split.
    { intros d' w1' w2' w3' Hy' Hnse' Hgr'.
      assert (w1' = w1) by congruence. subst w1'.
      assert (w2' = w2) by congruence. subst w2'.
      assert (d' = d) by congruence. subst d'.
      split; [exact Hr |]. calls_cases; events_simpl; reflexivity. }
    split; [calls_cases; events_simpl; discriminate | congruence].
  - subst n. split.
    { exists (repeat (YfHistory t) 3), ns, gs, [CacheRead t].
      split; [reflexivity |]. split; [discriminate |].
      split; [apply Forall_repeat_yahoo |].
      split; [now apply (nse_calls_component t) |].
      split; [now apply (groww_calls_component t) |]. repeat constructor. }
    split; [intros; congruence |].
    split; [intros; congruence |].
    split; [intros; congruence |].
    split.
    { intros _. split; [exists w1, w2, w3; repeat split; assumption |].
      calls_cases; events_simpl; cbn; repeat split; lia. }
    intros _. calls_cases; events_simpl; reflexivity.
Qed.

(** Yahoo answers: one call, one cache write, nothing else. *)
Example yahoo_answers_first :
  trace (snd (fetch_stock yahoo_up "RELIANCE.NS" (start ∅)))
  = [YfHistory "RELIANCE.NS"; CacheWrite "RELIANCE.NS" "Yahoo Finance"].
Proof. reflexivity. Qed.

(** Everything down and nothing cached: three calls to Yahoo, the NSE home
    page, the Groww search, the cache, and no result. *)
Example all_sources_down :
  fetch_stock all_down "RELIANCE.NS" (start ∅)
  = (None,
     mk_world tt ∅
       [YfHistory "RELIANCE.NS"; YfHistory "RELIANCE.NS";
        YfHistory "RELIANCE.NS"; NseHome; GrowwSearch "RELIANCE";
        CacheRead "RELIANCE.NS"]).
Proof. reflexivity. Qed.

End CascadeFacts.

(* ===================================================================== *)
(** ** Retries *)
(* ===================================================================== *)

Module RetryFacts.
Import Calendar Stats StockFetcher StockFetcherFrames StockFixtures.

(** The request loop: one call per iteration, none after a status 200,
    and the last response received as result. *)
Lemma attempts_shape {E} (s : Requests.session E) url :
  forall remaining attempt response (w : Requests.world E),
    let run := Requests.attempts s remaining attempt url response w in
    exists new,
      Requests.calls (snd run) = Requests.calls w ++ new
      /\ (length new <= remaining)%nat
      /\ (forall i c, new !! i = Some c ->
            Requests.is_success (snd c) = true -> S i = length new)
      /\ (existsb (fun c => Requests.is_success (snd c)) new = false ->
          length new = remaining)
      /\ fst run = fold_left Requests.keep_response new response.
Proof.
  induction remaining as [| k IH]; intros attempt response w run; subst run.
  - exists []. cbn. rewrite app_nil_r. repeat split; auto.
    intros i c H. discriminate.
  - cbn [Requests.attempts].
    set (e0 := if (0 <? attempt)%nat then _ else _).
    destruct (Requests.session_get s url e0) as [r e1].
    set (w1 := Requests.mk_world e1 (Requests.calls w ++ [(url, r)])).
    assert (Hretry : forall response',
      response' = Requests.keep_response response (url, r) ->
      Requests.is_success r = false ->
      exists new,
        Requests.calls (snd (Requests.attempts s k (S attempt) url response' w1))
        = Requests.calls w ++ new
        /\ (length new <= S k)%nat
        /\ (forall i c, new !! i = Some c ->
              Requests.is_success (snd c) = true -> S i = length new)
        /\ (existsb (fun c => Requests.is_success (snd c)) new = false ->
            length new = S k)
        /\ fst (Requests.attempts s k (S attempt) url response' w1)
           = fold_left Requests.keep_response new response).
    { intros response' -> Hfail.
      destruct (IH (S attempt) (Requests.keep_response response (url, r)) w1)
        as (new & Hc & Hlen & Hstop & Hall & Hres).
      exists ((url, r) :: new). cbn [length fold_left].
      split; [rewrite Hc; unfold w1; cbn; now rewrite <- app_assoc |].
      split; [lia |].
      split; [| split; [| exact Hres]].
      - intros [| i] c; cbn.
        + intros [= <-]. cbn. congruence.
        + intros Hi Hok. f_equal. now apply (Hstop i c).
      - cbn. rewrite Hfail. cbn. intros H. now rewrite Hall. }
    destruct r as [| resp].
    + apply Hretry; reflexivity.
    + destruct (Z.eqb_spec (Requests.status_code resp) 200) as [H200 | Hnot].
      * exists [(url, Requests.Replied resp)]. cbn.
        split; [reflexivity |]. split; [lia |].
        split; [| split; [| reflexivity]].
        -- intros [| i] c; cbn; [reflexivity | discriminate].
        -- rewrite H200. discriminate.
      * apply Hretry; [reflexivity |].
        cbn. now apply Z.eqb_neq.
Qed.

(** Against a Yahoo that raises on every call the loop returns nothing. *)
Lemma yahoo_attempts_all_raise {E} (up : upstream E) t :
  (forall e, exists message, fst (yf_history up t e) = YfRaise message) ->
  forall remaining attempt (w : world E),
    fst (yahoo_attempts up remaining attempt t w) = None.
Proof.
  intros Hraise. induction remaining as [| k IH]; intros attempt w.
  - reflexivity.
  - cbn [yahoo_attempts]. unfold bind.
    match goal with
    | |- context [(if (0 <? attempt)%nat then ?a else ?b) w] =>
        destruct ((if (0 <? attempt)%nat then a else b) w) as [[] w0]
    end.
    unfold io. destruct (Hraise (ext w0)) as [message Hm].
    destruct (yf_history up t (ext w0)) as [r e1]. cbn in Hm. subst r.
    apply IH.
Qed.

(** C4, as amended.  The retry loops make no distinction between error
    classes: every attempt that does not succeed is followed by another
    until the attempts run out.  [make_request_with_retries] makes at most
    [max_retries] calls, none after a response with status 200, exactly
    [max_retries] when no call succeeds (whatever the outcomes: exceptions
    or statuses such as 401, 404, 429), and then returns the last response
    it received, or nothing when every call raised.  [_fetch_yahoo] makes
    between one and three calls, and exactly three when it returns
    nothing, as it does when every call raises. *)
Theorem retries_every_failure_until_exhausted
    {E} (s : Requests.session E) (up : upstream E)
    (url : string) (max_retries : nat) (rw : Requests.world E)
    (t : string) (w : world E) :
  (let run := Requests.make_request_with_retries s url max_retries rw in
   let new := Requests.new_calls rw (snd run) in
   (length new <= max_retries)%nat
   /\ (forall i c, new !! i = Some c ->
         Requests.is_success (snd c) = true -> S i = length new)
   /\ (existsb (fun c => Requests.is_success (snd c)) new = false ->
       length new = max_retries)
   /\ fst run = Requests.last_response new
   /\ (Forall (fun c => snd c = Requests.Raised) new ->
       length new = max_retries /\ fst run = None))
  /\ (let run := _fetch_yahoo up t w in
      let new := new_events w (snd run) in
      (1 <= calls_to Yahoo new <= 3)%nat
      /\ length new = calls_to Yahoo new
      /\ (fst run = None -> calls_to Yahoo new = StockFetcher.max_retries)
      /\ ((forall e, exists message, fst (yf_history up t e) = YfRaise message) ->
          fst run = None /\ calls_to Yahoo new = StockFetcher.max_retries)).
Proof.
  split.
  - intros run new. subst run new.
    unfold Requests.make_request_with_retries.
    destruct (attempts_shape s url max_retries 0%nat None rw)
      as (new & Hc & Hlen & Hstop & Hall & Hres).
    unfold Requests.new_calls. rewrite Hc, drop_app_length.
    split; [exact Hlen |]. split; [exact Hstop |]. split; [exact Hall |].
    split; [exact Hres |].
    intros Hraised.
    assert (Hnone : existsb (fun c => Requests.is_success (snd c)) new = false).
    { clear -Hraised. induction Hraised as [| c l Hcr _ IH]; [reflexivity |].
      cbn. rewrite Hcr. exact IH. }
    split; [now apply Hall |].
    rewrite Hres. clear -Hraised.
    induction Hraised as [| c l Hcr _ IH]; [reflexivity |].
    cbn. unfold Requests.keep_response at 2. rewrite Hcr. exact IH.
  - intros run new. subst run new.
    destruct (fetch_yahoo_frame up t w) as (n & Hn & _ & Ht & Hnone).
    rewrite (new_events_app _ _ _ Ht), calls_to_repeat_yahoo, repeat_length.
    split; [exact Hn |]. split; [reflexivity |]. split; [exact Hnone |].
    intros Hraise.
    assert (Hr : fst (_fetch_yahoo up t w) = None)
      by (apply yahoo_attempts_all_raise; exact Hraise).
    split; [exact Hr | now apply Hnone].
Qed.

(** The claim as first stated fails: a request answered 404 (not found, a
    terminal class) each time is made three times, not once, and so is a
    Yahoo history call that fails with a not-found error. *)
Lemma terminal_error_is_retried :
  let not_found := Requests.Replied (Requests.mk_response 404 "") in
  let run :=
    Requests.make_request_with_retries (Requests.always not_found)
      "https://groww.in/options/nifty" 3 (Requests.mk_world tt []) in
  option_map Requests.is_terminal (Requests.error_class not_found) = Some true
  /\ Requests.calls (snd run)
     = [("https://groww.in/options/nifty"%string, not_found);
        ("https://groww.in/options/nifty"%string, not_found);
        ("https://groww.in/options/nifty"%string, not_found)]
  /\ trace (snd (_fetch_yahoo (yahoo_failing "404 Not Found") "RELIANCE.NS"
                   (start ∅)))
     = [YfHistory "RELIANCE.NS"; YfHistory "RELIANCE.NS";
        YfHistory "RELIANCE.NS"].
Proof. repeat split. Qed.

End RetryFacts.

(* ===================================================================== *)
(** ** Fabricated figures on the Groww path *)
(* ===================================================================== *)

Module SyntheticDataFacts.
Import Calendar Stats StockFetcher StockFixtures.
Local Open Scope Q_scope.

(** Whatever the page says, the Groww path reports no change and a
    year range of 120% and 80% of the price. *)
Lemma fetch_groww_placeholders {E} (up : upstream E) t (w : world E) d :
  fst (_fetch_groww up t w) = Some d ->
  pChange d = 0
  /\ yearHigh d = lastPrice d * (12 # 10)
  /\ yearLow d = lastPrice d * (8 # 10).
Proof.
  unfold _fetch_groww, bind, io, ret.
  destruct (groww_search up (remove_NS t) (ext w)) as [[|] e1];
    [| discriminate].
  cbn [ext]. destruct (google_quote up (remove_NS t) e1) as [[price |] e2];
    cbn [fst]; [| discriminate].
  intros [= <-]. cbn. repeat split.
Qed.

(** C6, at the failing input.  With Yahoo and NSE down and a Google
    Finance page showing 100, [fetch_stock] returns a record whose change
    is 0 and whose year high and low are 120 and 80: figures no source
    reported, in a record that has no field to mark them, after writing
    them to the cache as data from Groww. *)
Theorem groww_fallback_returns_unlabeled_placeholders :
  let run := fetch_stock (google_only 100) "RELIANCE.NS" (start ∅) in
  fst run
  = Some {| symbol := "RELIANCE";
            lastPrice := 100;
            pChange := 0;
            yearHigh := 100 * (12 # 10);
            yearLow := 100 * (8 # 10) |}
  /\ 100 * (12 # 10) == 120
  /\ 100 * (8 # 10) == 80
  /\ last (trace (snd run)) = Some (CacheWrite "RELIANCE.NS" "Groww").
Proof.
  split; [reflexivity |]. split; [reflexivity |]. split; reflexivity.
Qed.

End SyntheticDataFacts.

(* ===================================================================== *)
(** ** Rounding and averages *)
(* ===================================================================== *)

Module RoundingFacts.
Import Stats StatsFacts.
Local Open Scope Q_scope.

(** Rounding to the nearest integer moves a number by at most a half. *)
Lemma round_half_even_error q :
  inject_Z (round_half_even q) - q <= 1 # 2
  /\ q - inject_Z (round_half_even q) <= 1 # 2.
Proof.
  unfold round_half_even.
  pose proof (Qfloor_le q) as Hlo.
  pose proof (Qlt_floor q) as Hhi.
  rewrite inject_Z_plus in Hhi. change (inject_Z 1) with 1 in Hhi.
  destruct (Qcompare (q - inject_Z (Qfloor q)) (1 # 2)) eqn:Hc.
  - apply Qeq_alt in Hc. destruct (Z.even (Qfloor q)).
    + lra.
    + rewrite inject_Z_plus. change (inject_Z 1) with 1. lra.
  - apply Qlt_alt in Hc. lra.
  - apply Qgt_alt in Hc. rewrite inject_Z_plus. change (inject_Z 1) with 1. lra.
Qed.

(** Rounding never crosses an integer bound. *)
Lemma round_half_even_bounds q (a b : Z) :
  inject_Z a <= q -> q <= inject_Z b ->
  (a <= round_half_even q <= b)%Z.
Proof.
  intros Ha Hb.
  assert (Hfa : (a <= Qfloor q)%Z).
  { rewrite <- (Qfloor_Z a). now apply Qfloor_resp_le. }
  assert (Hfb : (Qfloor q <= b)%Z).
  { rewrite <- (Qfloor_Z b). now apply Qfloor_resp_le. }
  unfold round_half_even.
  pose proof (Qfloor_le q) as Hlo.
  assert (Hstep : (Qfloor q = b)%Z -> q - inject_Z (Qfloor q) == 0).
  { intros Heq. rewrite Heq in Hlo |- *. apply Qle_antisym; lra. }
  destruct (Z.eq_dec (Qfloor q) b) as [Heq | Hne].
  - specialize (Hstep Heq).
    replace (Qcompare (q - inject_Z (Qfloor q)) (1 # 2)) with Lt.
    + lia.
    + symmetry. apply Qlt_alt. rewrite Hstep. reflexivity.
  - destruct (Qcompare (q - inject_Z (Qfloor q)) (1 # 2));
      [destruct (Z.even (Qfloor q)) | |]; lia.
Qed.


Lemma round2_bounds q (a b : Z) :
  inject_Z a / 100 <= q -> q <= inject_Z b / 100 ->
  inject_Z a / 100 <= round2 q /\ round2 q <= inject_Z b / 100.
Proof.
  unfold Qdiv. change (/ 100) with (1 # 100). intros Ha Hb.
  destruct (round_half_even_bounds (q * 100) a b) as [H1 H2]; [lra | lra |].
  unfold round2, Qdiv. change (/ 100) with (1 # 100).
  rewrite Zle_Qle in H1, H2.
  set (n := inject_Z (round_half_even (q * 100))) in *.
  split; lra.
Qed.

(** The running sum of bounded numbers. *)
Lemma sum_from_bounds lo hi : forall l acc,
  Forall (fun v => lo <= v <= hi) l ->
  acc + inject_Z (Z.of_nat (length l)) * lo <= fold_left Qplus l acc
  /\ fold_left Qplus l acc <= acc + inject_Z (Z.of_nat (length l)) * hi.
Proof.
  induction l as [| x xs IH]; intros acc Hall.
  - cbn [fold_left length]. change (inject_Z (Z.of_nat 0)) with 0.
    split; lra.
  - inversion Hall as [| ? ? [Hx1 Hx2] Hxs]; subst.
    destruct (IH (acc + x) Hxs) as [H1 H2].
    cbn [fold_left length]. rewrite Nat2Z.inj_succ, <- Z.add_1_r.
    rewrite inject_Z_plus. change (inject_Z 1) with 1.
    set (n := inject_Z (Z.of_nat (length xs))) in *.
    split; lra.
Qed.

(** The mean of bounded numbers is bounded alike. *)
Lemma mean_bounds lo hi l :
  l <> [] ->
  Forall (fun v => lo <= v <= hi) l ->
  lo <= mean l <= hi.
Proof.
  intros Hne Hall.
  destruct (sum_from_bounds lo hi l 0 Hall) as [H1 H2].
  unfold mean, sum.
  assert (Hn : 0 < inject_Z (Z.of_nat (length l))).
  { destruct l; [congruence |]. cbn [length].
    change 0 with (inject_Z 0). rewrite <- Zlt_Qlt. lia. }
  set (n := inject_Z (Z.of_nat (length l))) in *.
  set (s := fold_left Qplus l 0) in *.
  split.
  - apply Qle_shift_div_l; [exact Hn | lra].
  - apply Qle_shift_div_r; [exact Hn | lra].
Qed.

Lemma in_insert_sorted x y l :
  In y (insert_sorted x l) <-> y = x \/ In y l.
Proof.
  induction l as [| z zs IH]; cbn.
  - intuition congruence.
  - destruct (Qle_bool x z); cbn; [intuition congruence |].
    rewrite IH. intuition congruence.
Qed.

(** Sorting keeps the elements and their number. *)
Lemma in_sorted y l : In y (sorted l) <-> In y l.
Proof.
  unfold sorted. induction l as [| x xs IH]; cbn; [tauto |].
  rewrite in_insert_sorted, IH. intuition congruence.
Qed.

Lemma length_insert_sorted x l : length (insert_sorted x l) = S (length l).
Proof.
  induction l as [| z zs IH]; cbn; [reflexivity |].
  destruct (Qle_bool x z); cbn; [reflexivity | now rewrite IH].
Qed.

Lemma length_sorted l : length (sorted l) = length l.
Proof.
  unfold sorted. induction l as [| x xs IH]; cbn; [reflexivity |].
  now rewrite length_insert_sorted, IH.
Qed.

(** The median of bounded numbers is bounded alike. *)
Lemma median_bounds lo hi l :
  l <> [] ->
  Forall (fun v => lo <= v <= hi) l ->
  lo <= median l <= hi.
Proof.
  intros Hne Hall.
  assert (Hlen : (0 < length (sorted l))%nat).
  { rewrite length_sorted. destruct l; [congruence | cbn; lia]. }
  assert (Hnth : forall i, (i < length (sorted l))%nat ->
                           lo <= nth i (sorted l) 0 <= hi).
  { intros i Hi. rewrite List.Forall_forall in Hall.
    apply Hall. apply in_sorted. now apply nth_In. }
  unfold median.
  destruct (Nat.odd (length (sorted l))) eqn:Hodd.
  - apply Hnth. apply Nat.div_lt; lia.
  - assert (Heven : Nat.even (length (sorted l)) = true).
    { rewrite <- Nat.negb_odd, Hodd. reflexivity. }
    apply Nat.even_spec in Heven. destruct Heven as [k Hk].
    assert (Hdiv : (length (sorted l) / 2 = k)%nat).
    { rewrite Hk, Nat.mul_comm. apply Nat.div_mul. discriminate. }
    rewrite Hdiv.
    destruct (Hnth (k - 1)%nat ltac:(lia)) as [A1 A2].
    destruct (Hnth k ltac:(lia)) as [B1 B2].
    unfold Qdiv. change (/ 2) with (1 # 2).
    split; lra.
Qed.

End RoundingFacts.

(* ===================================================================== *)
(** ** The consensus engine: what its result can be *)
(* ===================================================================== *)

Module ConsensusBounds.
Import Calendar CalendarFacts Stats StatsFacts VIX ValidatorFacts
       ConsensusFacts RoundingFacts Fixtures.
Local Open Scope Q_scope.

(** X1.  The consensus value never leaves the span of the readings: if
    every value lies between [lo] and [hi], so does the mean or median
    chosen; in particular readings that all report the same value give
    that value. *)
Theorem consensus_value_within_span
    (self : fetcher) (lo hi : Q) (values : list Q) :
  values <> [] ->
  Forall (fun v => lo <= v <= hi) values ->
  lo <= consensus_value self values <= hi.
Proof.
  intros Hne Hall. unfold consensus_value.
  destruct (Qltb (tolerance_percent self) (max_deviation values)).
  - now apply median_bounds.
  - now apply mean_bounds.
Qed.

Lemma consensus_value_within_span_witness :
  (1234 # 100) <= consensus_value default_fetcher [1234 # 100; 1234 # 100]
               <= (1234 # 100).
Proof.
  apply (consensus_value_within_span default_fetcher (1234 # 100) (1234 # 100)).
  - discriminate.
  - repeat constructor; q_decide.
Defined.


End ConsensusBounds.

(* ===================================================================== *)
(** ** The freshness check as a function of the timestamp *)
(* ===================================================================== *)

Module FreshnessFacts.
Import Calendar CalendarFacts Stats StatsFacts VIX ValidatorFacts
       ConsensusFacts Fixtures.
Local Open Scope Q_scope.

Lemma inject_Z_sub (a b : Z) : inject_Z (a - b) == inject_Z a - inject_Z b.
Proof.
  unfold Z.sub, Qminus. now rewrite inject_Z_plus, inject_Z_opp.
Qed.

(** The age in minutes, as a quotient of integers. *)
Lemma age_minutes_quotient now ts :
  age_minutes now ts
  == inject_Z (to_microseconds now - to_microseconds ts) * (1 # 60000000).
Proof.
  unfold age_minutes, total_seconds, Qdiv.
  change (/ inject_Z 1000000) with (1 # 1000000).
  change (/ 60) with (1 # 60).
  set (d := inject_Z _). field.
Qed.

(** Comparing an age with a whole number of minutes. *)
Lemma age_minutes_gt now ts (m : Z) :
  inject_Z m < age_minutes now ts
  <-> (m * 60000000 < to_microseconds now - to_microseconds ts)%Z.
Proof.
  rewrite age_minutes_quotient, Zlt_Qlt, inject_Z_mult.
  change (inject_Z 60000000) with 60000000.
  set (d := inject_Z (_ - _)). set (k := inject_Z m). split; lra.
Qed.

Lemma max_age_nonneg self now :
  0 <= max_age_minutes self -> 0 <= max_age self now.
Proof.
  intros H. unfold max_age.
  repeat match goal with |- context [if ?c then _ else _] => destruct c end;
    try exact H; q_decide.
Qed.

(** X4.  The freshness check is monotone in the timestamp: at a given
    moment, a reading stamped no earlier than an accepted one is accepted
    too; and with a non-negative maximum age every reading stamped at or
    after the current time is accepted, however far in the future. *)
Theorem newer_readings_stay_fresh (self : fetcher) (now : datetime) :
  (forall ts1 ts2,
     (to_microseconds ts1 <= to_microseconds ts2)%Z ->
     fst (validate_freshness self now ts1) = true ->
     fst (validate_freshness self now ts2) = true)
  /\ (0 <= max_age_minutes self ->
      forall ts,
        (to_microseconds now <= to_microseconds ts)%Z ->
        fst (validate_freshness self now ts) = true).
Proof.
  split.
  - intros ts1 ts2 Hle. rewrite !validate_freshness_true.
    rewrite !age_minutes_quotient. rewrite Zle_Qle in Hle.
    rewrite !inject_Z_sub.
    set (a := inject_Z (to_microseconds ts1)) in *.
    set (b := inject_Z (to_microseconds ts2)) in *.
    set (n := inject_Z (to_microseconds now)).
    set (c := max_age self now). intros H. lra.
  - intros Hmax ts Hle. rewrite validate_freshness_true.
    pose proof (max_age_nonneg self now Hmax) as Hc.
    rewrite age_minutes_quotient. rewrite Zle_Qle in Hle.
    rewrite inject_Z_sub.
    set (b := inject_Z (to_microseconds ts)) in *.
    set (n := inject_Z (to_microseconds now)) in *.
    set (c := max_age self now) in *. lra.
Qed.

(** X5.  With the default settings, from Monday to Friday at 9:00 or
    later, a reading stamped at midnight of the current day or of an
    earlier one (as the last daily bar of a price history is) is rejected
    as too old: its age is at least nine hours and the ceiling 30
    minutes. *)
Theorem midnight_bar_is_stale_in_market_hours (now : datetime) (bar_date : Z) :
  (weekday (dt_date now) < 5)%Z ->
  (9 <= hour now)%Z ->
  (0 <= minute now)%Z -> (0 <= second now)%Z -> (0 <= microsecond now)%Z ->
  (bar_date <= dt_date now)%Z ->
  fst (validate_freshness default_fetcher now (mk_datetime bar_date 0 0 0 0))
  = false.
Proof.
  intros Hwd H9 Hm Hs Hus Hd.
  assert (Hceil : max_age default_fetcher now = inject_Z 30).
  { unfold max_age.
    destruct (Z.ltb_spec (hour now) 9); [lia |].
    destruct (Z.leb_spec 5 (weekday (dt_date now))); [lia |].
    rewrite andb_false_r. reflexivity. }
  unfold validate_freshness. rewrite Hceil.
  replace (Qltb (inject_Z 30)
             (age_minutes now (mk_datetime bar_date 0 0 0 0))) with true;
    [reflexivity |].
  symmetry. apply Qltb_lt, age_minutes_gt.
  unfold to_microseconds. cbn [dt_date hour minute second microsecond]. nia.
Qed.

Lemma midnight_bar_is_stale_in_market_hours_witness :
  fst (validate_freshness default_fetcher tuesday_10am
         (mk_datetime (date 2026 11 3) 0 0 0 0)) = false.
Proof.
  apply midnight_bar_is_stale_in_market_hours; vm_compute; congruence.
Defined.

End FreshnessFacts.

(* ===================================================================== *)
(** ** The most recent trading day and the last market close *)
(* ===================================================================== *)

Module MarketCloseFacts.
Import Calendar CalendarFacts TradingDay TradingDayFacts MarketUtils.
Local Open Scope Z_scope.

Lemma weekday_pred d :
  weekday (d - 1) = if weekday d =? 0 then 6 else weekday d - 1.
Proof.
  unfold weekday.
  pose proof (Z.mod_pos_bound (d + 6) 7 ltac:(lia)) as H0.
  pose proof (Z.div_mod (d + 6) 7 ltac:(lia)) as E0.
  pose proof (Z.mod_pos_bound (d - 1 + 6) 7 ltac:(lia)) as H1.
  pose proof (Z.div_mod (d - 1 + 6) 7 ltac:(lia)) as E1.
  destruct (Z.eqb_spec ((d + 6) mod 7) 0); lia.
Qed.

(** The backward search returns the nearest trading day at or before its
    starting date, as long as one lies within reach. *)
Lemma step_back_spec n : forall d,
  step_back n d <= d
  /\ d - step_back n d <= Z.of_nat n
  /\ (forall x, step_back n d < x <= d -> is_holiday_or_weekend x = true).
Proof.
  induction n as [| n IH]; intros d.
  - cbn. repeat split; try lia.
  - cbn [step_back]. destruct (is_holiday_or_weekend d) eqn:Hd.
    + destruct (IH (minus_days d 1)) as (H1 & H2 & H3). unfold minus_days in *.
      split; [lia |]. split; [lia |].
      intros x Hx. destruct (Z.eq_dec x d) as [-> | Hne]; [exact Hd |].
      apply H3. lia.
    + split; [lia |]. split; [lia |]. intros x Hx. lia.
Qed.

(** The date [get_last_trading_day] starts from. *)
Lemma get_last_trading_day_start now :
  exists start,
    get_last_trading_day now = step_back 10 start
    /\ start = (if (hour now <? 15) || ((hour now =? 15) && (minute now <? 30))
                then dt_date now - 1 else dt_date now).
Proof. eexists. split; reflexivity. Qed.

(** X6.  [get_last_trading_day] returns the most recent trading day: with
    the search starting today (from 15:30 on) or yesterday (before), every
    day after the result up to the starting day is a weekend day or a
    listed holiday, and the result is at most four days before today. *)
Theorem get_last_trading_day_is_most_recent (now : datetime) :
  let start :=
    if (hour now <? 15) || ((hour now =? 15) && (minute now <? 30))
    then dt_date now - 1 else dt_date now in
  let result := get_last_trading_day now in
  dt_date now - 4 <= result <= start
  /\ start <= dt_date now
  /\ (forall x, result < x <= start -> is_holiday_or_weekend x = true).
Proof.
  intros start result.
  assert (Hres : result = step_back 10 start) by reflexivity.
  destruct (step_back_spec 10 start) as (H1 & _ & H3).
  rewrite <- Hres in H1, H3.
  assert (Hstart : dt_date now - 1 <= start <= dt_date now).
  { unfold start. destruct (_ || _); lia. }
  split; [| split; [lia | exact H3]].
  split; [| exact H1].
  destruct (trading_day_within_three start) as [k [Hk Hfree]].
  destruct (Z_lt_le_dec result (start - k)) as [Hlt | Hge]; [| lia].
  rewrite (H3 (start - k)) in Hfree by lia. discriminate.
Qed.

Lemma back_over_weekend_from_weekday fuel dt :
  weekday (dt_date dt) < 5 -> back_over_weekend fuel dt = dt.
Proof.
  intros H. destruct fuel; [reflexivity |]. cbn.
  destruct (Z.leb_spec 5 (weekday (dt_date dt))); [lia | reflexivity].
Qed.

Lemma weekday_pred_cases d :
  (weekday d = 0 /\ weekday (d - 1) = 6)
  \/ (0 < weekday d /\ weekday (d - 1) = weekday d - 1).
Proof.
  pose proof (weekday_range d). rewrite weekday_pred.
  destruct (Z.eqb_spec (weekday d) 0); lia.
Qed.

(** Case analysis on the integer tests of a goal. *)
Ltac eqb_cases :=
  repeat match goal with
         | |- context [Z.eqb ?a ?b] => destruct (Z.eqb_spec a b)
         end;
  first [lia | exfalso; lia].

(** Two iterations take the loop past any weekend. *)
Lemma back_over_weekend_date fuel dt :
  (2 <= fuel)%nat ->
  dt_date (back_over_weekend fuel dt)
  = if weekday (dt_date dt) =? 6 then dt_date dt - 2
    else if weekday (dt_date dt) =? 5 then dt_date dt - 1
    else dt_date dt.
Proof.
  intros Hfuel. destruct fuel as [| [| fuel]]; [lia | lia |].
  pose proof (weekday_range (dt_date dt)) as Hwd.
  destruct (weekday_pred_cases (dt_date dt)) as [[Hp1 Hp1'] | [Hp1 Hp1']];
    destruct (weekday_pred_cases (dt_date dt - 1)) as [[Hp2 Hp2'] | [Hp2 Hp2']];
    cbn [back_over_weekend];
    (destruct (Z.leb_spec 5 (weekday (dt_date dt))) as [H5 | H5];
     [ cbn [minus_days_dt dt_date];
       destruct (Z.leb_spec 5 (weekday (dt_date dt - 1))) as [H5' | H5'];
       [ rewrite back_over_weekend_from_weekday;
         cbn [minus_days_dt dt_date]; [eqb_cases | lia]
       | cbn [minus_days_dt dt_date]; eqb_cases ]
     | eqb_cases ]).
Qed.

(** The date of the last market close, by the day of the week. *)
Lemma market_close_date now :
  let wd := weekday (dt_date now) in
  dt_date (get_last_market_close now)
  = if 5 <=? wd then dt_date now - (wd - 4)
    else if (hour now <? 15) || ((hour now =? 15) && (minute now <? 30))
         then (if wd =? 0 then dt_date now - 3 else dt_date now - 1)
         else dt_date now.
Proof.
  intros wd. unfold get_last_market_close. fold wd.
  pose proof (weekday_range (dt_date now)) as Hwd. fold wd in Hwd.
  destruct (Z.leb_spec 5 wd) as [H5 | H5]; [reflexivity |].
  destruct ((hour now <? 15) || ((hour now =? 15) && (minute now <? 30)));
    [| reflexivity].
  cbn [dt_date]. rewrite back_over_weekend_date by lia.
  cbn [minus_days_dt dt_date].
  pose proof (weekday_pred (dt_date now)) as Hp. fold wd in Hp.
  rewrite Hp.
  destruct (Z.eqb_spec wd 0) as [H0 | H0].
  - cbn. lia.
  - destruct (Z.eqb_spec (wd - 1) 6); [lia |].
    destruct (Z.eqb_spec (wd - 1) 5); [lia | reflexivity].
Qed.

(** Closed comparisons of integers. *)
Ltac zc := first [reflexivity | vm_compute; congruence | lia].

(** X7.  [get_last_market_close] always returns 15:30:00 of a day from
    Monday to Friday, at most three days before today; every day after it
    and before today is a weekend day; it is today's close exactly on a
    weekday from 15:30 on; and it is never later than the current time. *)
Theorem last_market_close_is_a_weekday_close (now : datetime) :
  let close := get_last_market_close now in
  weekday (dt_date close) < 5
  /\ (hour close, minute close, second close, microsecond close) = (15, 30, 0, 0)
  /\ dt_date now - 3 <= dt_date close <= dt_date now
  /\ (forall x, dt_date close < x < dt_date now -> 5 <= weekday x)
  /\ (dt_date close = dt_date now
      <-> weekday (dt_date now) < 5
          /\ ((hour now <? 15) || ((hour now =? 15) && (minute now <? 30)))
             = false)
  /\ (0 <= hour now -> 0 <= minute now -> 0 <= second now ->
      0 <= microsecond now ->
      to_microseconds close <= to_microseconds now).
Proof.
  intros close.
  pose proof (market_close_date now) as Hdate. cbv zeta in Hdate.
  fold close in Hdate.
  pose proof (weekday_range (dt_date now)) as Hwd.
  pose proof (weekday_pred (dt_date now)) as Hp1.
  pose proof (weekday_pred (dt_date now - 1)) as Hp2.
  pose proof (weekday_pred (dt_date now - 1 - 1)) as Hp3.
  assert (Hfields : (hour close, minute close, second close, microsecond close)
                    = (15, 30, 0, 0)) by reflexivity.
  assert (Hcases :
    (5 <= weekday (dt_date now)
     /\ dt_date close = dt_date now - (weekday (dt_date now) - 4))
    \/ (weekday (dt_date now) < 5
        /\ ((hour now <? 15) || ((hour now =? 15) && (minute now <? 30))) = true
        /\ dt_date close = (if weekday (dt_date now) =? 0
                            then dt_date now - 3 else dt_date now - 1))
    \/ (weekday (dt_date now) < 5
        /\ ((hour now <? 15) || ((hour now =? 15) && (minute now <? 30))) = false
        /\ dt_date close = dt_date now)).
  { destruct (Z.leb_spec 5 (weekday (dt_date now))) as [H5 | H5].
    - left. split; [lia | exact Hdate].
    - right.
      destruct ((hour now <? 15) || ((hour now =? 15) && (minute now <? 30)));
        [left | right]; repeat split; auto. }
  assert (Hday : forall k, weekday (dt_date now - k)
                           = (weekday (dt_date now) - k) mod 7).
  { intros k. unfold weekday.
    replace (dt_date now - k + 6) with (dt_date now + 6 - k) by lia.
    rewrite Zminus_mod_idemp_l. reflexivity. }
  assert (Htime :
    0 <= hour now -> 0 <= minute now -> 0 <= second now ->
    0 <= microsecond now ->
    to_microseconds close <= to_microseconds now).
  { intros Hh Hm Hs Hus.
    change (to_microseconds close)
      with ((((dt_date close * 24 + 15) * 60 + 30) * 60 + 0) * 1000000 + 0).
    unfold to_microseconds.
    destruct Hcases as [[H5 Hc] | [(H5 & Hb & Hc) | (H5 & Hb & Hc)]];
      rewrite Hc.
    - nia.
    - destruct (weekday (dt_date now) =? 0); nia.
    - apply orb_false_iff in Hb. destruct Hb as [Hb1 Hb2].
      apply Z.ltb_ge in Hb1. apply andb_false_iff in Hb2.
      destruct Hb2 as [Hb2 | Hb2].
      + apply Z.eqb_neq in Hb2. nia.
      + apply Z.ltb_ge in Hb2. nia. }
  split; [| split; [exact Hfields | split; [| split; [| split; [| exact Htime]]]]].
  - destruct Hcases as [[H5 Hc] | [(H5 & Hb & Hc) | (H5 & Hb & Hc)]]; rewrite Hc.
    + rewrite Hday.
      replace (weekday (dt_date now) - (weekday (dt_date now) - 4)) with 4 by lia.
      zc.
    + destruct (Z.eqb_spec (weekday (dt_date now)) 0) as [H0 | H0].
      * rewrite Hday, H0. zc.
      * rewrite Hp1. destruct (Z.eqb_spec (weekday (dt_date now)) 0); lia.
    + exact H5.
  - destruct Hcases as [[H5 Hc] | [(H5 & Hb & Hc) | (H5 & Hb & Hc)]]; rewrite Hc.
    + lia.
    + destruct (weekday (dt_date now) =? 0); lia.
    + lia.
  - intros x Hx.
    destruct Hcases as [[H5 Hc] | [(H5 & Hb & Hc) | (H5 & Hb & Hc)]];
      rewrite Hc in Hx.
    + (* Sunday: Saturday lies between *)
      assert (weekday (dt_date now) = 6 /\ x = dt_date now - 1) as [H6 ->] by lia.
      rewrite Hday, H6. zc.
    + destruct (Z.eqb_spec (weekday (dt_date now)) 0) as [H0 | H0]; [| lia].
      assert (x = dt_date now - 1 \/ x = dt_date now - 2) as [-> | ->] by lia.
      * rewrite Hday, H0. zc.
      * rewrite Hday, H0. zc.
    + lia.
  - destruct Hcases as [[H5 Hc] | [(H5 & Hb & Hc) | (H5 & Hb & Hc)]]; rewrite Hc.
    + split; [lia | intros [H _]; lia].
    + split.
      * destruct (weekday (dt_date now) =? 0); lia.
      * intros [_ H]. congruence.
    + split; [intros _; split; [exact H5 | exact Hb] | reflexivity].
Qed.

(** The date of the last market close, case by case. *)
Lemma market_close_cases now :
  let close := dt_date (get_last_market_close now) in
  let before :=
    (hour now <? 15) || ((hour now =? 15) && (minute now <? 30)) in
  (weekday (dt_date now) = 5 /\ close = dt_date now - 1)
  \/ (weekday (dt_date now) = 6 /\ close = dt_date now - 2)
  \/ (weekday (dt_date now) = 0 /\ before = true /\ close = dt_date now - 3)
  \/ (0 < weekday (dt_date now) < 5 /\ before = true
      /\ close = dt_date now - 1)
  \/ (weekday (dt_date now) < 5 /\ before = false /\ close = dt_date now).
Proof.
  intros close before.
  pose proof (market_close_date now) as Hdate. cbv zeta in Hdate.
  fold close before in Hdate. clearbody close.
  pose proof (weekday_range (dt_date now)) as Hwd.
  destruct (Z.leb_spec 5 (weekday (dt_date now))) as [H5 | H5].
  - assert (weekday (dt_date now) = 5 \/ weekday (dt_date now) = 6)
      as [H | H] by lia; [left | right; left]; split; lia.
  - right. right. destruct before.
    + destruct (Z.eqb_spec (weekday (dt_date now)) 0) as [H0 | H0].
      * left. auto.
      * right. left. repeat split; auto; lia.
    + right. right. auto.
Qed.

(** The close lies at or before the day the trading-day search starts
    from, with only weekend days in between. *)
Lemma close_date_before_start now :
  let start :=
    if (hour now <? 15) || ((hour now =? 15) && (minute now <? 30))
    then dt_date now - 1 else dt_date now in
  let close := dt_date (get_last_market_close now) in
  close <= start
  /\ weekday close < 5
  /\ (forall x, close < x <= start -> 5 <= weekday x).
Proof.
  intros start close.
  pose proof (market_close_cases now) as Hcases. cbv zeta in Hcases.
  fold close in Hcases. clearbody close.
  assert (Hday : forall k, weekday (dt_date now - k)
                           = (weekday (dt_date now) - k) mod 7).
  { intros k. unfold weekday.
    replace (dt_date now - k + 6) with (dt_date now + 6 - k) by lia.
    rewrite Zminus_mod_idemp_l. reflexivity. }
  assert (Hstart : start = dt_date now - 1 \/ start = dt_date now).
  { unfold start. destruct (_ || _); auto. }
  assert (Hbefore :
    ((hour now <? 15) || ((hour now =? 15) && (minute now <? 30)) = true
     -> start = dt_date now - 1)
    /\ ((hour now <? 15) || ((hour now =? 15) && (minute now <? 30)) = false
        -> start = dt_date now)).
  { unfold start. destruct (_ || _); split; congruence. }
  destruct Hbefore as [Hbt Hbf]. clearbody start.
  destruct Hcases as [[H ->] | [[H ->] | [(H & Hb & ->) | [(H & Hb & ->)
                     | (H & Hb & ->)]]]].
  - split; [lia |]. split; [rewrite Hday, H; zc |]. intros x Hx.
    assert (x = dt_date now) as -> by lia. lia.
  - split; [lia |]. split; [rewrite Hday, H; zc |]. intros x Hx.
    assert (x = dt_date now \/ x = dt_date now - 1) as [-> | ->] by lia.
    + lia.
    + rewrite Hday, H; zc.
  - rewrite (Hbt Hb). split; [lia |]. split; [rewrite Hday, H; zc |].
    intros x Hx.
    assert (x = dt_date now - 1 \/ x = dt_date now - 2) as [-> | ->] by lia;
      rewrite Hday, H; zc.
  - rewrite (Hbt Hb). split; [lia |].
    split; [| intros x Hx; lia].
    destruct (weekday_pred_cases (dt_date now)) as [[? ?] | [? ?]]; lia.
  - rewrite (Hbf Hb). split; [lia |]. split; [exact H | intros x Hx; lia].
Qed.

(** X8.  The two calendars agree up to holidays: the day
    [get_last_trading_day] returns is never after the day of
    [get_last_market_close], and it is that very day exactly when that day
    is not a listed holiday ([get_last_market_close] knows weekends
    only). *)
Theorem trading_day_agrees_with_market_close_up_to_holidays (now : datetime) :
  let close := dt_date (get_last_market_close now) in
  get_last_trading_day now <= close
  /\ (get_last_trading_day now = close <-> in_holidays close = false).
Proof.
  intros close.
  destruct (close_date_before_start now) as (Hcs & Hwc & Hbetween).
  fold close in Hcs, Hwc, Hbetween.
  destruct (get_last_trading_day_start now) as (start & Hres & Hstart).
  rewrite <- Hstart in Hcs, Hbetween.
  destruct (step_back_spec 10 start) as (H1 & _ & H3).
  rewrite <- Hres in H1, H3.
  assert (Htrading : is_holiday_or_weekend (get_last_trading_day now) = false).
  { rewrite Hres.
    destruct (trading_day_within_three start) as [k [Hk Hfree]].
    apply (step_back_finds 10 start k); [cbn; lia | exact Hfree]. }
  assert (Hweekend : forall x, 5 <= weekday x -> is_holiday_or_weekend x = true).
  { intros x Hx. unfold is_holiday_or_weekend.
    destruct (Z.leb_spec 5 (weekday x)); [reflexivity | lia]. }
  assert (Hclose : is_holiday_or_weekend close = in_holidays close).
  { unfold is_holiday_or_weekend.
    destruct (Z.leb_spec 5 (weekday close)); [lia |].
    destruct (in_holidays close); reflexivity. }
  assert (Hle : get_last_trading_day now <= close).
  { destruct (Z_lt_le_dec close (get_last_trading_day now)) as [Hlt | Hge];
      [| exact Hge].
    assert (Hin : close < get_last_trading_day now <= start) by lia.
    rewrite (Hweekend _ (Hbetween _ Hin)) in Htrading. discriminate. }
  split; [exact Hle |]. split.
  - intros Heq. rewrite <- Hclose, <- Heq. exact Htrading.
  - intros Hfree. rewrite <- Hclose in Hfree.
    destruct (Z.eq_dec (get_last_trading_day now) close) as [Heq | Hne];
      [exact Heq |].
    assert (Hin : get_last_trading_day now < close <= start) by lia.
    rewrite (H3 close Hin) in Hfree. discriminate.
Qed.

(** On Republic Day 2026, a Monday, after the close the two differ:
    Friday 23 January against Monday 26 January. *)
Example republic_day_evening :
  get_last_trading_day (mk_datetime (date 2026 1 26) 16 0 0 0) = date 2026 1 23
  /\ dt_date (get_last_market_close (mk_datetime (date 2026 1 26) 16 0 0 0))
     = date 2026 1 26.
Proof. split; reflexivity. Qed.

End MarketCloseFacts.

(* ===================================================================== *)
(** ** The market-mood zones *)
(* ===================================================================== *)

Module MoodFacts.
Import Stats StatsFacts MarketUtils.
Local Open Scope Q_scope.

(** The zone, by the interval the value falls in. *)
Lemma mmi_zone_spec v :
  (v < 30 /\ mmi_zone v = ExtremeFear)
  \/ (30 <= v /\ v < 50 /\ mmi_zone v = Fear)
  \/ (50 <= v /\ v < 55 /\ mmi_zone v = Neutral)
  \/ (55 <= v /\ v < 70 /\ mmi_zone v = Greed)
  \/ (70 <= v /\ mmi_zone v = ExtremeGreed).
Proof.
  unfold mmi_zone.
  destruct (Qltb v 30) eqn:H30;
    [apply Qltb_lt in H30; now left | apply Qltb_ge in H30].
  assert (H30b : Qle_bool 30 v = true) by now apply Qle_bool_iff.
  rewrite H30b. cbn [andb].
  destruct (Qltb v 50) eqn:H50;
    [apply Qltb_lt in H50; right; left; auto | apply Qltb_ge in H50].
  assert (H50b : Qle_bool 50 v = true) by now apply Qle_bool_iff.
  rewrite H50b. cbn [andb].
  destruct (Qltb v 55) eqn:H55;
    [apply Qltb_lt in H55; right; right; left; auto | apply Qltb_ge in H55].
  assert (H55b : Qle_bool 55 v = true) by now apply Qle_bool_iff.
  rewrite H55b. cbn [andb].
  destruct (Qltb v 70) eqn:H70;
    [apply Qltb_lt in H70; right; right; right; left; auto
    | apply Qltb_ge in H70; right; right; right; right; auto].
Qed.

(** X9.  The zones of [interpret_mmi] follow the value: a higher reading
    never lands in a more fearful zone, so the five zones are five
    consecutive intervals, cut at 30, 50, 55 and 70. *)
Theorem mmi_zone_is_monotone (a b : Q) (previous : option Q) :
  a <= b ->
  (zone_rank (fst (interpret_mmi a previous))
   <= zone_rank (fst (interpret_mmi b previous)))%nat.
Proof.
  intros Hab. cbn [interpret_mmi fst].
  destruct (mmi_zone_spec a) as [[A1 ->] | [(A1 & A2 & ->) | [(A1 & A2 & ->)
                               | [(A1 & A2 & ->) | [A1 ->]]]]];
    destruct (mmi_zone_spec b) as [[B1 ->] | [(B1 & B2 & ->) | [(B1 & B2 & ->)
                                 | [(B1 & B2 & ->) | [B1 ->]]]]];
    cbn [zone_rank]; solve [lia | exfalso; lra].
Qed.

Lemma mmi_zone_is_monotone_witness :
  (zone_rank (fst (interpret_mmi (299 # 10) None))
   <= zone_rank (fst (interpret_mmi 30 None)))%nat.
Proof.
  apply mmi_zone_is_monotone. vm_compute. discriminate.
Defined.

Lemma Qeq_bool_false a b : ~ a == b -> Qeq_bool a b = false.
Proof.
  intros H. destruct (Qeq_bool a b) eqn:E; [| reflexivity].
  apply Qeq_bool_eq in E. contradiction.
Qed.

Lemma simulated_mmi_range pct : 0 <= simulated_mmi pct <= 100.
Proof.
  unfold simulated_mmi.
  destruct (Qltb (50 + pct * 10) 100) eqn:H100.
  - apply Qltb_lt in H100.
    destruct (Qltb 0 (50 + pct * 10)) eqn:H0.
    + apply Qltb_lt in H0. split; lra.
    + split; lra.
  - change (Qltb 0 100) with true. cbv iota. split; lra.
Qed.

(** X10.  The market-mood figure [fetch_indices] derives from the day's
    percentage change always lies between 0 and 100, and the movement it
    reports is never "unchanged", "improved to" or "declined to": it is a
    slight improvement when the index rose and a slight decline otherwise,
    a flat day included. *)
Theorem simulated_mood_moves_slightly (pct chg : Q) :
  0 <= simulated_mmi pct <= 100
  /\ fst (fetch_indices_mmi pct chg) = mmi_zone (simulated_mmi pct)
  /\ snd (fetch_indices_mmi pct chg)
     = Some (if Qltb 0 chg then SlightImprovement else SlightDecline).
Proof.
  split; [apply simulated_mmi_range | split; [reflexivity |]].
  unfold fetch_indices_mmi, interpret_mmi, mmi_movement. cbn [snd].
  set (m := simulated_mmi pct).
  destruct (Qltb 0 chg).
  - assert (Hd : m - (m - 1) == 1) by ring.
    replace (Qle_bool 5 (Qabs (m - (m - 1)))) with false.
    + replace (Qeq_bool (m - (m - 1)) 0) with false.
      * replace (Qltb 0 (m - (m - 1))) with true; [reflexivity |].
        symmetry. apply Qltb_lt. rewrite Hd. reflexivity.
      * symmetry. apply Qeq_bool_false. rewrite Hd. discriminate.
    + symmetry. apply not_true_is_false. intros H.
      apply Qle_bool_iff in H. rewrite Hd in H. vm_compute in H. congruence.
  - assert (Hd : m - (m - - (1)) == - (1)) by ring.
    replace (Qle_bool 5 (Qabs (m - (m - - (1))))) with false.
    + replace (Qeq_bool (m - (m - - (1))) 0) with false.
      * replace (Qltb 0 (m - (m - - (1)))) with false; [reflexivity |].
        symmetry. apply Qltb_ge. rewrite Hd. discriminate.
      * symmetry. apply Qeq_bool_false. rewrite Hd. discriminate.
    + symmetry. apply not_true_is_false. intros H.
      apply Qle_bool_iff in H. rewrite Hd in H. vm_compute in H. congruence.
Qed.

End MoodFacts.

(* ===================================================================== *)
(** ** The stock fetcher: what the data it returns can be *)
(* ===================================================================== *)

Module StockDataFacts.
Import Calendar Stats StatsFacts RoundingFacts StockFetcher StockFetcherFrames
       CacheFacts StockFixtures OutageFixtures.
Local Open Scope Q_scope.

(** Rounding to the nearest integer is monotone. *)
Lemma round_half_even_monotone a b :
  a <= b -> (round_half_even a <= round_half_even b)%Z.
Proof.
  intros Hab.
  pose proof (Qfloor_resp_le _ _ Hab) as Hf.
  pose proof (Qfloor_le a) as Ha1. pose proof (Qlt_floor a) as Ha2.
  pose proof (Qfloor_le b) as Hb1. pose proof (Qlt_floor b) as Hb2.
  rewrite inject_Z_plus in Ha2, Hb2. change (inject_Z 1) with 1 in Ha2, Hb2.
  destruct (Z.eq_dec (Qfloor a) (Qfloor b)) as [Heq | Hne].
  - unfold round_half_even. rewrite <- Heq.
    destruct (Qcompare (a - inject_Z (Qfloor a)) (1 # 2)) eqn:Ca;
      destruct (Qcompare (b - inject_Z (Qfloor a)) (1 # 2)) eqn:Cb;
      first [apply Qeq_alt in Ca | apply Qlt_alt in Ca | apply Qgt_alt in Ca];
      first [apply Qeq_alt in Cb | apply Qlt_alt in Cb | apply Qgt_alt in Cb];
      try (destruct (Z.even (Qfloor a)));
      first [lia | exfalso; lra].
  - assert (Hlt : (Qfloor a + 1 <= Qfloor b)%Z) by lia.
    assert (Hra : (round_half_even a <= Qfloor a + 1)%Z).
    { unfold round_half_even.
      destruct (Qcompare _ _); [destruct (Z.even _) | |]; lia. }
    assert (Hrb : (Qfloor b <= round_half_even b)%Z).
    { unfold round_half_even.
      destruct (Qcompare _ _); [destruct (Z.even _) | |]; lia. }
    lia.
Qed.

Lemma round2_monotone a b : a <= b -> round2 a <= round2 b.
Proof.
  intros Hab.
  assert (H : (round_half_even (a * 100) <= round_half_even (b * 100))%Z)
    by (apply round_half_even_monotone; lra).
  rewrite Zle_Qle in H.
  unfold round2, Qdiv. change (/ 100) with (1 # 100).
  set (x := inject_Z (round_half_even (a * 100))) in *.
  set (y := inject_Z (round_half_even (b * 100))) in *. lra.
Qed.

(** The running maximum is at least its start and every element. *)
Lemma fold_max_ge : forall l m,
  m <= fold_left (fun m v => if Qltb m v then v else m) l m
  /\ Forall (fun x => x <= fold_left (fun m v => if Qltb m v then v else m) l m) l.
Proof.
  induction l as [| x xs IH]; intros m; cbn [fold_left].
  - split; [lra | constructor].
  - destruct (Qltb m x) eqn:Hc.
    + apply Qltb_lt in Hc. destruct (IH x) as [H1 H2].
      split; [lra |]. constructor; assumption.
    + apply Qltb_ge in Hc. destruct (IH m) as [H1 H2].
      split; [exact H1 |]. constructor; [lra | assumption].
Qed.

Lemma fold_min_le : forall l m,
  fold_left (fun m v => if Qltb v m then v else m) l m <= m
  /\ Forall (fun x => fold_left (fun m v => if Qltb v m then v else m) l m <= x) l.
Proof.
  induction l as [| x xs IH]; intros m; cbn [fold_left].
  - split; [lra | constructor].
  - destruct (Qltb x m) eqn:Hc.
    + apply Qltb_lt in Hc. destruct (IH x) as [H1 H2].
      split; [lra |]. constructor; assumption.
    + apply Qltb_ge in Hc. destruct (IH m) as [H1 H2].
      split; [exact H1 |]. constructor; [lra | assumption].
Qed.

Lemma py_max_ge l x : In x l -> x <= py_max l.
Proof.
  destruct l as [| m xs]; [contradiction |]. cbn [py_max].
  destruct (fold_max_ge xs m) as [H1 H2].
  intros [<- | Hin]; [exact H1 |].
  rewrite List.Forall_forall in H2. now apply H2.
Qed.

Lemma py_min_le l x : In x l -> py_min l <= x.
Proof.
  destruct l as [| m xs]; [contradiction |]. cbn [py_min].
  destruct (fold_min_le xs m) as [H1 H2].
  intros [<- | Hin]; [exact H1 |].
  rewrite List.Forall_forall in H2. now apply H2.
Qed.

(** X11.  When every row of the history is consistent (low <= close <=
    high), the quote built from it is consistent too: the last price lies
    between the year low and the year high it reports. *)
Theorem yahoo_quote_price_within_year_range
    (ticker : string) (hist : list row) (d : stock_data) :
  yahoo_quote ticker hist = Some d ->
  Forall (fun r => Low r <= Close r <= High r) hist ->
  yearLow d <= lastPrice d <= yearHigh d.
Proof.
  unfold yahoo_quote. intros Hq Hall.
  destruct (rev hist) as [| last before] eqn:Hrev; [discriminate |].
  assert (Hin : In last hist).
  { apply in_rev. rewrite Hrev. now left. }
  rewrite List.Forall_forall in Hall. destruct (Hall last Hin) as [Hlo Hhi].
  assert (Hmax : High last <= py_max (map High hist))
    by (apply py_max_ge, in_map, Hin).
  assert (Hmin : py_min (map Low hist) <= Low last)
    by (apply py_min_le, in_map, Hin).
  destruct (match before with
            | [] => Some 0
            | prev_row :: _ =>
                if Qeq_bool (Close prev_row) 0 then None
                else Some ((Close last - Close prev_row) / Close prev_row * 100)
            end) as [pct |]; [| discriminate].
  injection Hq as <-. cbn [yearLow lastPrice yearHigh].
  split; apply round2_monotone; lra.
Qed.

Lemma yahoo_quote_price_within_year_range_witness :
  exists d,
    yahoo_quote "RELIANCE.NS" [mk_row 2800 2820 2790; mk_row 2842 2850 2800]
    = Some d
    /\ yearLow d <= lastPrice d <= yearHigh d.
Proof.
  eexists. split; [reflexivity |].
  apply (yahoo_quote_price_within_year_range "RELIANCE.NS"
           [mk_row 2800 2820 2790; mk_row 2842 2850 2800]).
  - reflexivity.
  - repeat constructor; vm_compute; discriminate.
Defined.

Lemma yahoo_quote_symbol t hist d :
  yahoo_quote t hist = Some d -> symbol d = remove_NS t.
Proof.
  unfold yahoo_quote. destruct (rev hist) as [| last before]; [discriminate |].
  destruct (match before with [] => _ | _ :: _ => _ end); [| discriminate].
  now intros [= <-].
Qed.

Lemma yahoo_attempts_symbol {E} (up : upstream E) t :
  forall remaining attempt (w : world E) d,
    fst (yahoo_attempts up remaining attempt t w) = Some d ->
    symbol d = remove_NS t.
Proof.
  induction remaining as [| k IH]; intros attempt w d; [discriminate |].
  cbn [yahoo_attempts]. unfold bind.
  match goal with
  | |- context [(if (0 <? attempt)%nat then ?a else ?b) w] =>
      destruct ((if (0 <? attempt)%nat then a else b) w) as [[] w0]
  end.
  unfold io. destruct (yf_history up t (ext w0)) as [[msg | hist] e1].
  - apply IH.
  - destruct (yahoo_quote t hist) as [data |] eqn:Hq; [| apply IH].
    cbn. intros [= <-]. now apply (yahoo_quote_symbol t hist).
Qed.

Lemma nse_parse_some sym r d :
  nse_parse sym r = Some d ->
  symbol d = sym
  /\ exists info,
       r = NseResponse 200 (Some info)
       /\ truthy (pi_lastPrice info) = true
       /\ to_float (pi_lastPrice info) = Some (lastPrice d)
       /\ to_float (pi_pChange info) = Some (pChange d)
       /\ to_float (pi_weekHigh52 info) = Some (yearHigh d)
       /\ to_float (pi_weekLow52 info) = Some (yearLow d).
Proof.
  unfold nse_parse. destruct r as [| status body]; [discriminate |].
  destruct (Z.eqb_spec status 200) as [-> | _]; [| discriminate].
  destruct body as [info |]; [| discriminate].
  destruct (truthy (pi_lastPrice info)) eqn:Ht; [| discriminate].
  destruct (to_float (pi_lastPrice info)) as [lp |] eqn:Hl; [| discriminate].
  destruct (to_float (pi_pChange info)) as [pc |] eqn:Hc; [| discriminate].
  destruct (to_float (pi_weekHigh52 info)) as [yh |] eqn:Hh; [| discriminate].
  destruct (to_float (pi_weekLow52 info)) as [yl |] eqn:Hw; [| discriminate].
  intros [= <-]. cbn. split; [reflexivity |].
  exists info. repeat split; assumption.
Qed.

(** X12.  Data that [_fetch_nse] returns is what the quote API sent and
    nothing else: the reply had status 200, its last price was truthy,
    and the record's four figures are what [float] makes of the reply's
    four figures.  So a last price sent as a number is not zero; one sent
    as text is only not empty, and the text [0] comes back as a last
    price of 0.0. *)
Theorem nse_data_is_the_api_reply
    {E} (up : upstream E) (t : string) (w : world E) (d : stock_data) :
  fst (_fetch_nse up t w) = Some d ->
  symbol d = remove_NS t
  /\ (exists e info,
        fst (nse_quote up (remove_NS t) e) = NseResponse 200 (Some info)
        /\ truthy (pi_lastPrice info) = true
        /\ to_float (pi_lastPrice info) = Some (lastPrice d)
        /\ to_float (pi_pChange info) = Some (pChange d)
        /\ to_float (pi_weekHigh52 info) = Some (yearHigh d)
        /\ to_float (pi_weekLow52 info) = Some (yearLow d)
        /\ (forall q, pi_lastPrice info = JNumber q -> ~ lastPrice d == 0))
  /\ nse_parse "SBIN"
       (NseResponse 200
          (Some (mk_price_info (JString "0" (Some 0)) (JNumber 0)
                               (JNumber 900) (JNumber 600))))
     = Some (mk_stock "SBIN" 0 0 900 600).
Proof.
  intros Hd. split; [| split; [| reflexivity]]; revert Hd.
  all: unfold _fetch_nse, bind, io, ret.
  all: destruct (nse_home up (ext w)) as [[|] e1]; [| discriminate].
  all: cbn [ext]; destruct (nse_quote up (remove_NS t) e1) as [r e2] eqn:Hq.
  all: cbn [fst]; intros Hp; apply nse_parse_some in Hp.
  all: destruct Hp as (Hs & info & -> & Ht & Hl & Hc & Hh & Hw).
  - exact Hs.
  - exists e1, info. rewrite Hq. repeat split; try assumption.
    intros q Hq' Hzero. rewrite Hq' in Ht, Hl. cbn in Ht, Hl.
    injection Hl as Hl. rewrite <- Hl in Hzero.
    apply Qeq_bool_iff in Hzero. rewrite Hzero in Ht. discriminate.
Qed.

Lemma nse_data_is_the_api_reply_witness :
  exists d,
    fst (_fetch_nse nse_up "RELIANCE.NS" (start ∅)) = Some d
    /\ symbol d = "RELIANCE"%string.
Proof.
  eexists. split; [reflexivity |].
  apply (proj1 (nse_data_is_the_api_reply nse_up "RELIANCE.NS" (start ∅) _
                  eq_refl)).
Defined.

Lemma fetch_nse_symbol {E} (up : upstream E) t (w : world E) d :
  fst (_fetch_nse up t w) = Some d -> symbol d = remove_NS t.
Proof.
  unfold _fetch_nse, bind, io, ret.
  destruct (nse_home up (ext w)) as [[|] e1]; [| discriminate].
  cbn [ext]. destruct (nse_quote up (remove_NS t) e1) as [r e2].
  cbn [fst]. intros Hp. apply nse_parse_some in Hp. tauto.
Qed.

Lemma fetch_groww_symbol {E} (up : upstream E) t (w : world E) d :
  fst (_fetch_groww up t w) = Some d -> symbol d = remove_NS t.
Proof.
  unfold _fetch_groww, bind, io, ret.
  destruct (groww_search up (remove_NS t) (ext w)) as [[|] e1];
    [| discriminate].
  cbn [ext]. destruct (google_quote up (remove_NS t) e1) as [[price |] e2];
    cbn [fst]; [| discriminate].
  now intros [= <-].
Qed.

(** X13.  If every cached record carries the symbol of the ticker it is
    stored under, then so does every record after a run of [fetch_stock],
    and whatever the run returns, live or from the cache, carries the
    symbol of the ticker asked for. *)
Theorem fetch_stock_keeps_symbols
    {E} (up : upstream E) (t : string) (w : world E) :
  (forall k e d, cache w !! k = Some e -> ce_data e = Some d ->
                 symbol d = remove_NS k) ->
  (forall d, fst (fetch_stock up t w) = Some d -> symbol d = remove_NS t)
  /\ (forall k e d,
        cache (snd (fetch_stock up t w)) !! k = Some e ->
        ce_data e = Some d -> symbol d = remove_NS k).
Proof.
  intros Hinv.
  assert (Hins : forall d stored_at src,
            symbol d = remove_NS t ->
            forall k e d',
              <[t := mk_entry (Some d) (Some stored_at) src]> (cache w) !! k
              = Some e ->
              ce_data e = Some d' -> symbol d' = remove_NS k).
  { intros d stored_at src Hd k e d' Hk Hdata.
    destruct (decide (t = k)) as [<- | Hne].
    - rewrite lookup_insert_eq in Hk. injection Hk as <-.
      cbn in Hdata. congruence.
    - rewrite lookup_insert_ne in Hk by exact Hne. eapply Hinv; eauto. }
  destruct (fetch_stock_shape up t w) as (n & ns & gs & _ & Hshape).
  destruct Hshape as [(d & w1 & Hy & Hr & Hc & _)
                     | [(d & w1 & w2 & Hy & Hnse & _ & _ & Hr & Hc & _)
                       | [(d & w1 & w2 & w3 & Hy & Hnse & Hgr & _ & _ & _
                           & Hr & Hc & _)
                         | (w1 & w2 & w3 & Hy & Hnse & Hgr & _ & _ & _
                            & Hr & Hc3 & Hc & _)]]].
  - assert (Hd : symbol d = remove_NS t).
    { apply (yahoo_attempts_symbol up t max_retries 0%nat w).
      unfold _fetch_yahoo in Hy. now rewrite Hy. }
    split; [intros d' Hd'; congruence |]. rewrite Hc. now apply Hins.
  - assert (Hd : symbol d = remove_NS t).
    { apply (fetch_nse_symbol up t w1). now rewrite Hnse. }
    split; [intros d' Hd'; congruence |]. rewrite Hc. now apply Hins.
  - assert (Hd : symbol d = remove_NS t).
    { apply (fetch_groww_symbol up t w2). now rewrite Hgr. }
    split; [intros d' Hd'; congruence |]. rewrite Hc. now apply Hins.
  - split; [| rewrite Hc; exact Hinv].
    intros d Hd. rewrite Hr in Hd.
    apply get_cached_data_some in Hd.
    destruct Hd as (e & s & He & _ & _ & Hdata).
    rewrite Hc3 in He. eapply Hinv; eauto.
Qed.

Lemma fetch_stock_keeps_symbols_witness :
  exists d,
    fst (fetch_stock yahoo_up "RELIANCE.NS" (start ∅)) = Some d
    /\ symbol d = "RELIANCE"%string.
Proof.
  eexists. split; [reflexivity |].
  refine (proj1 (fetch_stock_keeps_symbols yahoo_up "RELIANCE.NS" (start ∅) _)
                _ eq_refl).
  intros k e d H. cbn in H. rewrite lookup_empty in H. discriminate H.
Defined.

(** X14.  What a live fetch stored is what an outage serves: after a run
    of [fetch_stock] that returned live data [d], a later run in which all
    three sources fail returns the same [d] as long as less than 24 hours
    have passed since it was stored, and nothing once 24 hours have
    passed. *)
Theorem cached_data_survives_an_outage
    {E} (up : upstream E) (t : string) (w w1 wy wn wg : world E)
    (d : stock_data) :
  fetch_stock up t w = (Some d, w1) ->
  existsb is_cache_write (new_events w w1) = true ->
  _fetch_yahoo up t w1 = (None, wy) ->
  _fetch_nse up t wy = (None, wn) ->
  _fetch_groww up t wn = (None, wg) ->
  exists stored_at src,
    cache w1 !! t = Some (mk_entry (Some d) (Some stored_at) src)
    /\ ((to_microseconds (clock up (ext wg)) - to_microseconds stored_at
         < timedelta_hours 24)%Z ->
        fst (fetch_stock up t w1) = Some d)
    /\ ((timedelta_hours 24
         <= to_microseconds (clock up (ext wg)) - to_microseconds stored_at)%Z ->
        fst (fetch_stock up t w1) = None).
Proof.
  intros Hrun Hwrite Hy Hn Hg.
  assert (Hstored : exists stored_at src,
            cache w1 = <[t := mk_entry (Some d) (Some stored_at) src]> (cache w)).
  { destruct (fetch_stock_shape up t w) as (n & ns & gs & _ & Hshape).
    rewrite Hrun in Hshape. cbn [fst snd] in Hshape.
    destruct Hshape as [(d' & x1 & _ & Hr & Hc & _)
                       | [(d' & x1 & x2 & _ & _ & _ & _ & Hr & Hc & _)
                         | [(d' & x1 & x2 & x3 & _ & _ & _ & _ & _ & _
                             & Hr & Hc & _)
                           | (x1 & x2 & x3 & _ & _ & _ & _ & Hns & Hgs
                              & _ & _ & _ & Hnew)]]].
    - injection Hr as <-. eauto.
    - injection Hr as <-. eauto.
    - injection Hr as <-. eauto.
    - rewrite Hnew in Hwrite. exfalso. revert Hwrite.
      calls_cases; events_simpl; discriminate. }
  destruct Hstored as (stored_at & src & Hcache).
  exists stored_at, src.
  assert (Hlook : cache w1 !! t
                  = Some (mk_entry (Some d) (Some stored_at) src)).
  { rewrite Hcache. apply lookup_insert_eq. }
  split; [exact Hlook |].
  assert (Hsecond : fst (fetch_stock up t w1) = fst (get_cached_data up t wg)
                    /\ cache wg = cache w1).
  { destruct (fetch_stock_shape up t w1) as (n & ns & gs & _ & Hshape).
    destruct Hshape as [(d' & x1 & H & _)
                       | [(d' & x1 & x2 & H1 & H2 & _)
                         | [(d' & x1 & x2 & x3 & H1 & H2 & H3 & _)
                           | (x1 & x2 & x3 & H1 & H2 & H3 & _ & _ & _
                              & Hr & Hc & _)]]].
    - congruence.
    - congruence.
    - congruence.
    - assert (x1 = wy) by congruence. subst x1.
      assert (x2 = wn) by congruence. subst x2.
      assert (x3 = wg) by congruence. subst x3. now split. }
  destruct Hsecond as [Hres Hcg]. rewrite Hres.
  unfold get_cached_data. cbn [fst]. rewrite Hcg, Hlook. cbn [ce_timestamp ce_data].
  split; intros Hage.
  - apply Z.ltb_lt in Hage. now rewrite Hage.
  - apply Z.ltb_ge in Hage. now rewrite Hage.
Qed.

Lemma cached_data_survives_an_outage_witness :
  exists d,
    fst (fetch_stock yahoo_once "RELIANCE.NS" (mk_world false ∅ [])) = Some d
    /\ fst (fetch_stock yahoo_once "RELIANCE.NS"
              (snd (fetch_stock yahoo_once "RELIANCE.NS" (mk_world false ∅ []))))
       = Some d.
Proof.
  eexists. split; [reflexivity |].
  set (first_run := fetch_stock yahoo_once "RELIANCE.NS" (mk_world false ∅ [])).
  destruct (cached_data_survives_an_outage yahoo_once "RELIANCE.NS"
              (mk_world false ∅ []) (snd first_run)
              (snd (_fetch_yahoo yahoo_once "RELIANCE.NS" (snd first_run)))
              (snd (_fetch_nse yahoo_once "RELIANCE.NS"
                      (snd (_fetch_yahoo yahoo_once "RELIANCE.NS"
                              (snd first_run)))))
              (snd (_fetch_groww yahoo_once "RELIANCE.NS"
                      (snd (_fetch_nse yahoo_once "RELIANCE.NS"
                              (snd (_fetch_yahoo yahoo_once "RELIANCE.NS"
                                      (snd first_run)))))))
              _ eq_refl eq_refl eq_refl eq_refl eq_refl)
    as (stored_at & src & Hlook & Hfresh & _).
  apply Hfresh.
  apply (f_equal (fun o => match o with
                           | Some e => ce_timestamp e
                           | None => None
                           end)) in Hlook.
  vm_compute in Hlook. injection Hlook as <-. reflexivity.
Defined.

(** X15.  A run of [fetch_stock] makes between one and seven calls to the
    sources and then exactly one cache operation, which ends the run: a
    write after a source returned data, or a read after at least five
    failed calls. *)
Theorem fetch_stock_call_budget {E} (up : upstream E) (t : string) (w : world E) :
  let new := new_events w (snd (fetch_stock up t w)) in
  exists calls ev,
    new = calls ++ [ev]
    /\ component_of ev = CacheStore
    /\ Forall (fun e => component_of e <> CacheStore) calls
    /\ (1 <= length calls <= 7)%nat
    /\ (is_cache_read ev = true -> (5 <= length calls)%nat).
Proof.
  intros new. subst new.
  assert (Hrep : forall n,
            Forall (fun e => component_of e <> CacheStore)
                   (repeat (YfHistory t) n)).
  { intros n. apply List.Forall_forall. intros e He.
    apply repeat_spec in He. subst e. discriminate. }
  assert (Hnse : forall l, nse_calls t l ->
            Forall (fun e => component_of e <> CacheStore) l
            /\ (1 <= length l <= 2)%nat).
  { intros l [-> | ->]; split; cbn; try lia; repeat constructor; discriminate. }
  assert (Hgr : forall l, groww_calls t l ->
            Forall (fun e => component_of e <> CacheStore) l
            /\ (1 <= length l <= 2)%nat).
  { intros l [-> | ->]; split; cbn; try lia; repeat constructor; discriminate. }
  destruct (fetch_stock_shape up t w) as (n & ns & gs & Hn & Hshape).
  destruct Hshape as [(d & w1 & _ & _ & _ & Hnew)
                     | [(d & w1 & w2 & _ & _ & Hn3 & Hns & _ & _ & Hnew)
                       | [(d & w1 & w2 & w3 & _ & _ & _ & Hn3 & Hns & Hgs
                           & _ & _ & Hnew)
                         | (w1 & w2 & w3 & _ & _ & _ & Hn3 & Hns & Hgs
                            & _ & _ & _ & Hnew)]]];
    rewrite Hnew.
  - exists (repeat (YfHistory t) n), (CacheWrite t "Yahoo Finance").
    split; [reflexivity |]. split; [reflexivity |]. split; [apply Hrep |].
    rewrite repeat_length. split; [lia | discriminate].
  - destruct (Hnse ns Hns) as [Fn Ln].
    exists (repeat (YfHistory t) n ++ ns), (CacheWrite t "NSE Official").
    split; [now rewrite <- app_assoc |]. split; [reflexivity |].
    split; [apply Forall_app; split; [apply Hrep | exact Fn] |].
    rewrite length_app, repeat_length. split; [lia | discriminate].
  - destruct (Hnse ns Hns) as [Fn Ln]. destruct (Hgr gs Hgs) as [Fg Lg].
    exists (repeat (YfHistory t) n ++ ns ++ gs), (CacheWrite t "Groww").
    split; [now rewrite <- !app_assoc |]. split; [reflexivity |].
    split; [repeat (apply Forall_app; split); auto |].
    rewrite !length_app, repeat_length. split; [lia | discriminate].
  - destruct (Hnse ns Hns) as [Fn Ln]. destruct (Hgr gs Hgs) as [Fg Lg].
    exists (repeat (YfHistory t) n ++ ns ++ gs), (CacheRead t).
    split; [now rewrite <- !app_assoc |]. split; [reflexivity |].
    split; [repeat (apply Forall_app; split); auto |].
    rewrite !length_app, repeat_length. split; [lia | intros _; lia].
Qed.

(** A character other than the dot is kept. *)
Lemma remove_NS_cons c rest :
  c <> "."%char -> remove_NS (String c rest) = String c (remove_NS rest).
Proof.
  intros Hc.
  destruct c as [[] [] [] [] [] [] [] []]; try reflexivity.
  exfalso. apply Hc. reflexivity.
Qed.

(** X16.  For a symbol without a dot, [remove_NS] turns the ticker
    [SYMBOL.NS] back into [SYMBOL], and leaves [SYMBOL] itself alone. *)
Theorem remove_NS_strips_the_exchange_suffix (sym : string) :
  (forall c, In c (list_ascii_of_string sym) -> c <> "."%char) ->
  remove_NS (sym ++ ".NS") = sym /\ remove_NS sym = sym.
Proof.
  induction sym as [| c rest IH]; intros Hdot.
  - split; reflexivity.
  - assert (Hc : c <> "."%char) by (apply Hdot; now left).
    destruct IH as [IH1 IH2]; [intros x Hx; apply Hdot; now right |].
    split.
    + change (String c rest ++ ".NS")%string
        with (String c (rest ++ ".NS")%string).
      rewrite remove_NS_cons by exact Hc. now rewrite IH1.
    + rewrite remove_NS_cons by exact Hc. now rewrite IH2.
Qed.

Lemma remove_NS_strips_the_exchange_suffix_witness :
  remove_NS ("BAJAJ-AUTO" ++ ".NS") = "BAJAJ-AUTO"%string
  /\ remove_NS "BAJAJ-AUTO" = "BAJAJ-AUTO"%string.
Proof.
  apply remove_NS_strips_the_exchange_suffix.
  intros c Hc. cbn in Hc.
  repeat (destruct Hc as [<- | Hc]; [discriminate |]). contradiction.
Defined.

End StockDataFacts.

(* ===================================================================== *)
(** ** Movers and market breadth *)
(* ===================================================================== *)

Module MoversFacts.
Import Stats StatsFacts StockFetcher Movers.
Local Open Scope Q_scope.

Lemma insert_desc_perm x l : Permutation (insert_desc x l) (x :: l).
Proof.
  induction l as [| y ys IH]; cbn; [reflexivity |].
  destruct (Qle_bool (pChange y) (pChange x)); [reflexivity |].
  rewrite IH. apply perm_swap.
Qed.

Lemma sort_by_change_perm l : Permutation (sort_by_change l) l.
Proof.
  unfold sort_by_change. induction l as [| x xs IH]; cbn; [reflexivity |].
  rewrite insert_desc_perm. now constructor.
Qed.

(** X17.  Market breadth accounts for every record once: advances,
    declines and unchanged add up to the number of records fetched;
    unchanged is the number of records whose change is neither above nor
    below zero, and so never negative; and the bias is neutral exactly
    when advances and declines are equal, bullish exactly when the
    advances are more, bearish exactly when the declines are more. *)
Theorem breadth_counts_every_stock_once (fetched : list stock_data) :
  let r := movers fetched in
  (advances r + declines r + unchanged r = Z.of_nat (length fetched))%Z
  /\ unchanged r
     = count_if (fun s => negb (Qltb 0 (pChange s))
                          && negb (Qltb (pChange s) 0)) fetched
  /\ (0 <= unchanged r)%Z
  /\ (breadth_bias r = NeutralBias <-> advances r = declines r)
  /\ (breadth_bias r = Bullish <-> (declines r < advances r)%Z)
  /\ (breadth_bias r = Bearish <-> (advances r < declines r)%Z).
Proof.
  intros r.
  assert (Hlen : length (sort_by_change fetched) = length fetched)
    by apply Permutation_length, sort_by_change_perm.
  assert (Hparts : forall l : list stock_data,
            (count_if (fun s => Qltb 0 (pChange s)) l
             + count_if (fun s => Qltb (pChange s) 0) l
             + count_if (fun s => negb (Qltb 0 (pChange s))
                                  && negb (Qltb (pChange s) 0)) l
             = Z.of_nat (length l))%Z).
  { unfold count_if. induction l as [| x xs IH]; [reflexivity |].
    cbn [List.filter length].
    destruct (Qltb 0 (pChange x)) eqn:Hpos;
      destruct (Qltb (pChange x) 0) eqn:Hneg;
      cbn [negb andb length]; try lia.
    exfalso. apply Qltb_lt in Hpos, Hneg. lra. }
  assert (Hcount : forall (f : stock_data -> bool) l l',
            Permutation l l' -> count_if f l = count_if f l').
  { intros f l l' Hp. unfold count_if. f_equal.
    induction Hp; cbn; repeat (destruct (f _)); cbn; congruence. }
  pose proof (Hparts (sort_by_change fetched)) as Hsum.
  pose proof (Hcount (fun s => negb (Qltb 0 (pChange s))
                               && negb (Qltb (pChange s) 0)) _ _
                (sort_by_change_perm fetched)) as Hz.
  assert (Hnonneg : (0 <= count_if (fun s => negb (Qltb 0 (pChange s))
                                            && negb (Qltb (pChange s) 0))
                                   fetched)%Z)
    by (unfold count_if; lia).
  subst r. unfold movers. cbn [advances declines unchanged breadth_bias].
  set (a := count_if (fun s => Qltb 0 (pChange s)) (sort_by_change fetched)) in *.
  set (d := count_if (fun s => Qltb (pChange s) 0) (sort_by_change fetched)) in *.
  rewrite Hlen in *.
  split; [lia |]. split; [lia |]. split; [lia |].
  destruct (Z.ltb_spec d a); [| destruct (Z.ltb_spec a d)];
    repeat split; intros; try discriminate; try lia; try reflexivity.
Qed.

(** X19.  With at most five records the losers are the gainers in reverse
    order, and with fewer than ten some record is listed both as a gainer
    and as a loser; only from ten records on are the two lists taken from
    separate ends of the ranking. *)
Theorem movers_overlap_below_ten (fetched : list stock_data) :
  let r := movers fetched in
  ((length fetched <= 5)%nat -> top_losers r = rev (top_gainers r))
  /\ ((0 < length fetched < 10)%nat ->
      exists s, In s (top_gainers r) /\ In s (top_losers r))
  /\ ((10 <= length fetched)%nat ->
      exists middle,
        sort_by_change fetched
        = top_gainers r ++ middle ++ rev (top_losers r)).
Proof.
  intros r. subst r. unfold movers. cbn [top_gainers top_losers].
  assert (Hlen : length (sort_by_change fetched) = length fetched)
    by apply Permutation_length, sort_by_change_perm.
  set (l := sort_by_change fetched) in *. rewrite <- Hlen.
  split; [| split].
  - intros H5. replace (length l - 5)%nat with 0%nat by lia.
    cbn [skipn]. now rewrite firstn_all2 by lia.
  - intros Hn.
    (* the record at position [length l - 5], or the first one *)
    destruct (nth_error l (length l - 5)) as [s |] eqn:Hs.
    + exists s. split.
      * assert (Hin : nth_error (firstn 5 l) (length l - 5) = Some s).
        { rewrite nth_error_firstn.
          destruct (Nat.ltb_spec (length l - 5) 5); [exact Hs | lia]. }
        now apply nth_error_In in Hin.
      * apply in_rev. rewrite rev_involutive.
        assert (Hin : nth_error (skipn (length l - 5) l) 0 = Some s).
        { rewrite nth_error_skipn. now rewrite Nat.add_0_r. }
        now apply nth_error_In in Hin.
    + apply nth_error_None in Hs. lia.
  - intros H10. exists (firstn (length l - 10) (skipn 5 l)).
    rewrite rev_involutive.
    rewrite <- (firstn_skipn 5 l) at 1. f_equal.
    rewrite <- (firstn_skipn (length l - 10) (skipn 5 l)) at 1. f_equal.
    rewrite skipn_skipn. f_equal. lia.
Qed.

End MoversFacts.

(* ===================================================================== *)
(** ** Put-call ratio and its history *)
(* ===================================================================== *)

Module PCRFacts.
Import Stats StatsFacts RoundingFacts StockDataFacts OIAnalyzer OIFixtures.
Local Open Scope Q_scope.


Lemma round4_monotone a b : a <= b -> round4 a <= round4 b.
Proof.
  intros Hab.
  assert (H : (round_half_even (a * 10000) <= round_half_even (b * 10000))%Z)
    by (apply round_half_even_monotone; lra).
  rewrite Zle_Qle in H.
  unfold round4, Qdiv. change (/ 10000) with (1 # 10000).
  set (x := inject_Z (round_half_even (a * 10000))) in *.
  set (y := inject_Z (round_half_even (b * 10000))) in *. lra.
Qed.

(** Rounding leaves an integer alone. *)
Lemma round_half_even_Z q (n : Z) : q == inject_Z n -> round_half_even q = n.
Proof.
  intros Hq. unfold round_half_even.
  assert (Hf : Qfloor q = n) by (rewrite Hq; apply Qfloor_Z).
  rewrite Hf.
  replace (Qcompare (q - inject_Z n) (1 # 2)) with Lt; [reflexivity |].
  symmetry. apply (proj1 (Qlt_alt _ _)). lra.
Qed.

Lemma round4_idempotent q : round4 (round4 q) = round4 q.
Proof.
  assert (H : round_half_even (round4 q * 10000) = round_half_even (q * 10000)).
  { apply round_half_even_Z. unfold round4, Qdiv.
    change (/ 10000) with (1 # 10000). lra. }
  unfold round4 at 1. rewrite H. reflexivity.
Qed.

(** Rounding a put-call ratio a second time changes nothing. *)
Lemma round4_idempotent' call_oi put_oi :
  round4 (calculate_pcr_correct call_oi put_oi)
  == calculate_pcr_correct call_oi put_oi.
Proof.
  unfold calculate_pcr_correct. destruct (call_oi =? 0)%Z.
  - reflexivity.
  - now rewrite round4_idempotent.
Qed.

Lemma fold_add_start (l : list Z) (a : Z) :
  fold_left Z.add l a = (a + fold_left Z.add l 0)%Z.
Proof.
  revert a. induction l as [| x xs IH]; intros a; cbn; [lia |].
  rewrite (IH (a + x)%Z), (IH (0 + x)%Z). lia.
Qed.

Lemma fold_add_perm (l l' : list Z) :
  Permutation l l' -> fold_left Z.add l 0%Z = fold_left Z.add l' 0%Z.
Proof.
  induction 1 as [| x l l' _ IH | x y l | l l' l'' _ IH1 _ IH2]; cbn.
  - reflexivity.
  - rewrite (fold_add_start l), (fold_add_start l'). now rewrite IH.
  - f_equal. lia.
  - congruence.
Qed.

Lemma insert_by_strike_perm x l : Permutation (insert_by_strike x l) (x :: l).
Proof.
  induction l as [| y ys IH]; cbn; [reflexivity |].
  destruct (Qle_bool (strike x) (strike y)); [reflexivity |].
  rewrite IH. apply perm_swap.
Qed.

Lemma sort_by_strike_perm l : Permutation (sort_by_strike l) l.
Proof.
  unfold sort_by_strike. induction l as [| x xs IH]; cbn; [reflexivity |].
  rewrite insert_by_strike_perm. now constructor.
Qed.

Lemma sort_by_strike_sorted l :
  StronglySorted (fun a b => strike a <= strike b) (sort_by_strike l).
Proof.
  unfold sort_by_strike. induction l as [| x xs IH]; cbn; [constructor |].
  revert IH. generalize (fold_right insert_by_strike [] xs). clear xs.
  intros l. induction l as [| y ys IHl]; intros Hs; cbn.
  - constructor; constructor.
  - inversion Hs as [| ? ? Hys Hy]; subst.
    destruct (Qle_bool (strike x) (strike y)) eqn:Hc.
    + apply Qle_bool_iff in Hc. constructor; [exact Hs |].
      constructor; [exact Hc |].
      rewrite List.Forall_forall in Hy |- *. intros z Hz.
      specialize (Hy z Hz). lra.
    + assert (Hlt : strike y < strike x).
      { apply Qnot_le_lt. intros Hle. apply Qle_bool_iff in Hle. congruence. }
      constructor; [now apply IHl |].
      rewrite List.Forall_forall in Hy |- *. intros z Hz.
      apply (Permutation_in _ (insert_by_strike_perm x ys)) in Hz.
      destruct Hz as [<- | Hz]; [lra | now apply Hy].
Qed.

(** Skipping nulls and zeros adds up to the same total as reading a null
    as zero. *)
Lemma fold_add_if_truthy (l : list (option Z)) (a : Z) :
  fold_left add_if_truthy l a = fold_left Z.add (map or_0 l) a.
Proof.
  revert a. induction l as [| [v |] xs IH]; intros a; cbn; [reflexivity | |].
  - destruct (Z.eqb_spec v 0) as [-> | _]; rewrite IH; f_equal; lia.
  - rewrite IH. f_equal. lia.
Qed.

Lemma sum_oi_some (l : list (option Z)) (total : Z) :
  sum_oi l = Some total -> total = fold_left Z.add (map or_0 l) 0%Z.
Proof.
  revert total. induction l as [| [v |] xs IH]; intros total; cbn.
  - now intros [= <-].
  - destruct (sum_oi xs) as [t |]; [| discriminate].
    intros [= <-]. rewrite (fold_add_start _ v), <- (IH t eq_refl). reflexivity.
  - discriminate.
Qed.

(** The totals of the open interest over a reordered chain. *)
Lemma oi_total_perm (f : strike_row -> option Z) (l l' : list strike_row) :
  Permutation l l' ->
  fold_left Z.add (map (fun r => or_0 (f r)) l) 0%Z
  = fold_left Z.add (map (fun r => or_0 (f r)) l') 0%Z.
Proof. intros Hp. apply fold_add_perm. now apply Permutation_map. Qed.



(** X21.  A snapshot parsed from a scraped chain or from the NSE reply
    is consistent: its ratio is the put-call ratio of its two totals, each
    total is the open interest of its strikes added up with a null read
    as zero, and its strikes are in ascending order. *)
Theorem parsed_snapshot_is_consistent (s : snapshot) :
  (exists raw_data, parse_scraped raw_data = Some s)
  \/ (exists records, parse_nse_records records = Some s) ->
  pcr s == calculate_pcr_correct (total_call_oi s) (total_put_oi s)
  /\ total_call_oi s
     = fold_left Z.add (map (fun r => or_0 (ce_oi r)) (strikes_data s)) 0%Z
  /\ total_put_oi s
     = fold_left Z.add (map (fun r => or_0 (pe_oi r)) (strikes_data s)) 0%Z
  /\ StronglySorted (fun a b => strike a <= strike b) (strikes_data s).
Proof.
  intros [[raw Hraw] | [records Hrec]].
  - unfold parse_scraped in Hraw.
    destruct (sum_oi (map ce_oi (sc_strikes raw))) as [tc |] eqn:Hc;
      [| discriminate].
    destruct (sum_oi (map pe_oi (sc_strikes raw))) as [tp |] eqn:Hp;
      [| discriminate].
    injection Hraw as <-. cbn.
    apply sum_oi_some in Hc, Hp. rewrite map_map in Hc, Hp.
    split; [reflexivity |].
    split; [| split].
    + rewrite Hc. symmetry. apply oi_total_perm, sort_by_strike_perm.
    + rewrite Hp. symmetry. apply oi_total_perm, sort_by_strike_perm.
    + apply sort_by_strike_sorted.
  - unfold parse_nse_records in Hrec.
    destruct (expiryDates records) as [| nearest rest]; [discriminate |].
    injection Hrec as <-. cbn.
    set (chain := List.filter _ (rec_data records)).
    split; [now rewrite round4_idempotent' |].
    split; [| split].
    + rewrite fold_add_if_truthy, map_map.
      rewrite (oi_total_perm ce_oi _ _ (sort_by_strike_perm _)).
      now rewrite map_map.
    + rewrite fold_add_if_truthy, map_map.
      rewrite (oi_total_perm pe_oi _ _ (sort_by_strike_perm _)).
      now rewrite map_map.
    + apply sort_by_strike_sorted.
Qed.

(** The statement at a scraped chain of three strikes. *)
Lemma parsed_snapshot_is_consistent_witness :
  exists s,
    parse_scraped sample_scraped = Some s
    /\ pcr s == calculate_pcr_correct (total_call_oi s) (total_put_oi s).
Proof.
  eexists. split; [reflexivity |].
  apply parsed_snapshot_is_consistent.
  left. exists sample_scraped. reflexivity.
Defined.

Lemma last_rows_rev (pcr_history : list pcr_row) :
  rev (last_rows pcr_history)
  = skipn (length pcr_history - 20) pcr_history.
Proof. unfold last_rows. now rewrite firstn_rev, rev_involutive. Qed.

(** What the loop over the rows yields when it does not raise. *)
Lemma intraday_points_some (rows : list pcr_row) (points : list pcr_point) :
  intraday_points rows = Some points ->
  (length points <= length rows)%nat
  /\ Forall (fun p => 1 # 100 < point_pcr p) points
  /\ map (fun p => (point_pcr p, point_spot p)) points
     = map (fun r => (row_pcr r, row_spot_price r))
           (List.filter (fun r => negb (Qle_bool (row_pcr r) (1 # 100))) rows).
Proof.
  revert points. induction rows as [| r rest IH]; intros points; cbn.
  - intros [= <-]. repeat split; constructor.
  - destruct (Qle_bool (row_pcr r) (1 # 100)) eqn:Hr; cbn.
    + intros H. destruct (IH _ H) as (H1 & H2 & H3). repeat split; auto.
    + destruct (row_timestamp r) as [ts |]; [| discriminate].
      destruct (intraday_points rest) as [pts |]; [| discriminate].
      intros [= <-]. destruct (IH _ eq_refl) as (H1 & H2 & H3).
      repeat split; cbn; [lia | | now rewrite H3].
      constructor; [| exact H2]. cbn.
      apply Qnot_le_lt. intros Hle. apply Qle_bool_iff in Hle. congruence.
Qed.

(** The loop raises exactly when a row that is not skipped has no
    timestamp. *)
Lemma intraday_points_none (rows : list pcr_row) :
  intraday_points rows = None
  <-> exists r, In r rows /\ 1 # 100 < row_pcr r /\ row_timestamp r = None.
Proof.
  induction rows as [| r rest IH]; cbn.
  - split; [discriminate | intros (r & [] & _)].
  - destruct (Qle_bool (row_pcr r) (1 # 100)) eqn:Hr.
    + rewrite IH. split.
      * intros (x & Hx & H). exists x. auto.
      * intros (x & [<- | Hx] & Hpcr & Hts); [| now exists x].
        apply Qle_bool_iff in Hr. lra.
    + assert (Hgt : 1 # 100 < row_pcr r).
      { apply Qnot_le_lt. intros Hle. apply Qle_bool_iff in Hle. congruence. }
      destruct (row_timestamp r) as [ts |] eqn:Hts.
      * destruct (intraday_points rest) as [pts |].
        -- split; [discriminate |].
           intros (x & [<- | Hx] & Hpcr & Hnull); [congruence |].
           assert (Hcontra : Some pts = None)
             by (apply (proj2 IH); now exists x).
           discriminate.
        -- split; [| reflexivity]. intros _.
           destruct (proj1 IH eq_refl) as (x & Hx & H). exists x. auto.
      * split; [| reflexivity]. intros _. exists r. auto.
Qed.

Lemma intraday_points_snoc (rows : list pcr_row) (points : list pcr_point)
    (r : pcr_row) (ts_str : string) :
  intraday_points rows = Some points ->
  1 # 100 < row_pcr r -> row_timestamp r = Some ts_str ->
  intraday_points (rows ++ [r])
  = Some (points ++ [mk_point (time_val ts_str) (row_pcr r) (row_spot_price r)]).
Proof.
  intros Hrows Hpcr Hts. revert points Hrows.
  induction rows as [| x rest IH]; intros points; cbn.
  - intros [= <-]. rewrite Hts.
    destruct (Qle_bool (row_pcr r) (1 # 100)) eqn:Hr; [| reflexivity].
    apply Qle_bool_iff in Hr. lra.
  - destruct (Qle_bool (row_pcr x) (1 # 100)); [apply IH |].
    destruct (row_timestamp x) as [ts |]; [| discriminate].
    destruct (intraday_points rest) as [pts |]; [| discriminate].
    intros [= <-]. now rewrite (IH pts eq_refl).
Qed.

(** X22.  Saving a snapshot appends at most one row to the history and
    never a row whose ratio is 0.01 or less; in particular a snapshot
    without call open interest, whose ratio is zero, leaves the history as
    it was, as does a missing snapshot or a failed insert. *)
Theorem invalid_pcr_is_never_stored
    (insert_ok : bool) (snapshot : option snapshot) (pcr_history : list pcr_row) :
  exists new,
    save_pcr_snapshot insert_ok snapshot pcr_history = pcr_history ++ new
    /\ (length new <= 1)%nat
    /\ Forall (fun r => 1 # 100 < row_pcr r) new
    /\ (snapshot = None \/ insert_ok = false -> new = [])
    /\ (forall s, snapshot = Some s ->
          pcr s == calculate_pcr_correct 0 (total_put_oi s) -> new = [])
    /\ (forall s, snapshot = Some s -> insert_ok = true -> 1 # 100 < pcr s ->
          new = [mk_row (timestamp s) (spot_price s) (total_call_oi s)
                        (total_put_oi s) (pcr s)]).
Proof.
  unfold save_pcr_snapshot. destruct snapshot as [s |].
  - destruct (Qle_bool (pcr s) (1 # 100)) eqn:Hp.
    + exists []. rewrite app_nil_r. apply Qle_bool_iff in Hp.
      repeat split; auto. intros s' [= <-] _ Hgt. lra.
    + assert (Hgt : 1 # 100 < pcr s).
      { apply Qnot_le_lt. intros Hle. apply Qle_bool_iff in Hle. congruence. }
      destruct insert_ok.
      * eexists. split; [reflexivity |].
        split; [cbn; lia |]. split; [repeat constructor; exact Hgt |].
        split; [intros [H | H]; discriminate |].
        split; [| intros s' [= <-] _ _; reflexivity].
        intros s' [= <-] Hzero. cbn in Hzero. lra.
      * exists []. rewrite app_nil_r. repeat split; auto.
        intros; discriminate.
  - exists []. rewrite app_nil_r. repeat split; auto; intros; discriminate.
Qed.

(** X23.  The intraday series holds at most twenty points, taken in
    order of insertion from the last twenty rows of the history, and no
    point with a ratio of 0.01 or less.  When every such row that is not
    skipped has a timestamp, the points are exactly those rows; when one
    of them has none, the whole series comes back empty. *)
Theorem intraday_series_is_the_valid_recent_rows (pcr_history : list pcr_row) :
  let recent := skipn (length pcr_history - 20) pcr_history in
  let points := get_intraday_pcr pcr_history in
  (length points <= 20)%nat
  /\ Forall (fun p => 1 # 100 < point_pcr p) points
  /\ ((forall r, In r recent -> 1 # 100 < row_pcr r -> row_timestamp r <> None) ->
      map (fun p => (point_pcr p, point_spot p)) points
      = map (fun r => (row_pcr r, row_spot_price r))
            (List.filter (fun r => negb (Qle_bool (row_pcr r) (1 # 100))) recent))
  /\ ((exists r, In r recent /\ 1 # 100 < row_pcr r /\ row_timestamp r = None) ->
      points = []).
Proof.
  intros recent points. subst points. unfold get_intraday_pcr.
  rewrite last_rows_rev. fold recent.
  assert (Hlen : (length recent <= 20)%nat).
  { subst recent. rewrite length_skipn. lia. }
  destruct (intraday_points recent) as [pts |] eqn:Hpts.
  - destruct (intraday_points_some _ _ Hpts) as (H1 & H2 & H3).
    split; [lia |]. split; [exact H2 |]. split; [intros _; exact H3 |].
    intros Hbad. apply intraday_points_none in Hbad. congruence.
  - split; [cbn; lia |]. split; [constructor |]. split; [| reflexivity].
    intros Hall. apply intraday_points_none in Hpts.
    destruct Hpts as (r & Hr & Hpcr & Hts). now destruct (Hall r Hr Hpcr).
Qed.

(** X24.  A snapshot that is stored shows up as the newest point of the
    intraday series, with its own ratio and spot price, after the points
    of the nineteen rows before it. *)
Theorem stored_snapshot_is_the_newest_point
    (s : snapshot) (ts_str : string) (pcr_history : list pcr_row)
    (earlier : list pcr_point) :
  1 # 100 < pcr s ->
  timestamp s = Some ts_str ->
  intraday_points (skipn (length pcr_history - 19) pcr_history) = Some earlier ->
  get_intraday_pcr (save_pcr_snapshot true (Some s) pcr_history)
  = earlier ++ [mk_point (time_val ts_str) (pcr s) (spot_price s)].
Proof.
  intros Hpcr Hts Hearlier.
  unfold save_pcr_snapshot.
  destruct (Qle_bool (pcr s) (1 # 100)) eqn:Hp;
    [apply Qle_bool_iff in Hp; lra |].
  unfold get_intraday_pcr. rewrite last_rows_rev.
  rewrite length_app, skipn_app. cbn [length].
  replace (length pcr_history + 1 - 20)%nat with (length pcr_history - 19)%nat
    by lia.
  replace (length pcr_history - 19 - length pcr_history)%nat with 0%nat by lia.
  cbn [skipn].
  erewrite intraday_points_snoc;
    [reflexivity | exact Hearlier | exact Hpcr | exact Hts].
Qed.

(** The round trip at a history of two rows. *)
Lemma stored_snapshot_is_the_newest_point_witness :
  map point_time (get_intraday_pcr
                    (save_pcr_snapshot true (Some sample_snapshot) sample_history))
  = ["09:45:00"; "10:00:00"; "10:15:00"]%string.
Proof.
  rewrite (stored_snapshot_is_the_newest_point
             sample_snapshot "Groww (2026-01-05 10:15:00)" sample_history
             [mk_point "09:45:00" (108 # 100) 25790;
              mk_point "10:00:00" (11429 # 10000) 25800]
             eq_refl eq_refl eq_refl).
  reflexivity.
Defined.

End PCRFacts.

(* ===================================================================== *)
(** ** Open-interest analysis *)
(* ===================================================================== *)

Module OIAnalysisFacts.
Import Stats StatsFacts RoundingFacts StockDataFacts OIAnalyzer OIFixtures PCRFacts.
Local Open Scope Q_scope.

Lemma py_max_by_spec {A : Type} (key : A -> Q) (first : A) (others : list A) :
  In (py_max_by key first others) (first :: others)
  /\ forall x, In x (first :: others) ->
               key x <= key (py_max_by key first others).
Proof.
  unfold py_max_by. revert first.
  induction others as [| y ys IH]; intros first; cbn [fold_left].
  - split; [now left |]. intros x [<- | []]. apply Qle_refl.
  - destruct (Qltb (key first) (key y)) eqn:Hc.
    + apply Qltb_lt in Hc. destruct (IH y) as [Hin Hmax].
      split; [now right |].
      intros x [<- | Hx]; [| now apply Hmax].
      specialize (Hmax y (or_introl eq_refl)). lra.
    + apply Qltb_ge in Hc. destruct (IH first) as [Hin Hmax].
      split; [destruct Hin as [H | H]; [now left | now right; right] |].
      intros x [<- | [<- | Hx]].
      * apply Hmax. now left.
      * specialize (Hmax first (or_introl eq_refl)). lra.
      * apply Hmax. now right.
Qed.

Lemma py_min_by_spec {A : Type} (key : A -> Q) (first : A) (others : list A) :
  In (py_min_by key first others) (first :: others)
  /\ forall x, In x (first :: others) ->
               key (py_min_by key first others) <= key x.
Proof.
  unfold py_min_by. revert first.
  induction others as [| y ys IH]; intros first; cbn [fold_left].
  - split; [now left |]. intros x [<- | []]. apply Qle_refl.
  - destruct (Qltb (key y) (key first)) eqn:Hc.
    + apply Qltb_lt in Hc. destruct (IH y) as [Hin Hmin].
      split; [now right |].
      intros x [<- | Hx]; [| now apply Hmin].
      specialize (Hmin y (or_introl eq_refl)). lra.
    + apply Qltb_ge in Hc. destruct (IH first) as [Hin Hmin].
      split; [destruct Hin as [H | H]; [now left | now right; right] |].
      intros x [<- | [<- | Hx]].
      * apply Hmin. now left.
      * specialize (Hmin first (or_introl eq_refl)). lra.
      * apply Hmin. now right.
Qed.

(** Every [step]-th element: [step] elements of the list account for
    each one kept, up to the offset of the first. *)
Lemma stride_from_length {A : Type} (step : nat) (l : list A) (k : nat) :
  (k < step)%nat ->
  (length (stride_from k step l) * step + k <= length l + (step - 1))%nat.
Proof.
  revert k. induction l as [| x xs IH]; intros k Hk; cbn [stride_from length].
  - lia.
  - destruct k as [| k'].
    + cbn [length]. specialize (IH (step - 1)%nat ltac:(lia)). lia.
    + specialize (IH k' ltac:(lia)). lia.
Qed.

Lemma stride_from_sublist {A : Type} (step : nat) (l : list A) (k : nat) :
  sublist (stride_from k step l) l.
Proof.
  revert k. induction l as [| x xs IH]; intros k; cbn [stride_from].
  - constructor.
  - destruct k; [apply sublist_skip | apply sublist_cons]; apply IH.
Qed.

Lemma filter_sublist {A : Type} (f : A -> bool) (l : list A) :
  sublist (List.filter f l) l.
Proof.
  induction l as [| x xs IH]; cbn; [constructor |].
  destruct (f x); [now apply sublist_skip | now apply sublist_cons].
Qed.

Lemma downsample_length (l : list strike_row) : (length (downsample l) <= 20)%nat.
Proof.
  unfold downsample. destruct (Nat.ltb_spec 20 (length l)) as [Hlong | Hshort];
    [| exact Hshort].
  set (step := (length l / 20 + 1)%nat).
  pose proof (stride_from_length step l 0 ltac:(subst step; lia)) as Hs.
  assert (Hdiv : (length l < 20 * step)%nat).
  { subst step. pose proof (Nat.div_mod_eq (length l) 20) as Hdm.
    pose proof (Nat.mod_upper_bound (length l) 20 ltac:(lia)). lia. }
  nia.
Qed.

Lemma downsample_sublist (l : list strike_row) : sublist (downsample l) l.
Proof.
  unfold downsample. destruct (20 <? length l)%nat; [| reflexivity].
  apply stride_from_sublist.
Qed.

(** X25.  The analysis fails exactly on a snapshot without strikes.
    Otherwise the resistance level is a strike of the chain whose call
    open interest no other strike exceeds, and the support level a strike
    whose put open interest no other strike exceeds, a null counting as
    zero; the open interest quoted with each level is that strike's. *)
Theorem key_levels_hold_the_largest_open_interest (s : snapshot) :
  (generate_oi_analysis (Some s) = RaisesValueError <-> strikes_data s = [])
  /\ generate_oi_analysis (Some s) <> EmptyAnalysis
  /\ forall a, generate_oi_analysis (Some s) = Analysis a ->
       (exists r, In r (strikes_data s)
                  /\ key_resistance a = strike r
                  /\ max_ce_oi_val a = ce_oi r
                  /\ forall x, In x (strikes_data s) ->
                               (or_0 (ce_oi x) <= or_0 (ce_oi r))%Z)
       /\ (exists r, In r (strikes_data s)
                     /\ key_support a = strike r
                     /\ max_pe_oi_val a = pe_oi r
                     /\ forall x, In x (strikes_data s) ->
                                  (or_0 (pe_oi x) <= or_0 (pe_oi r))%Z).
Proof.
  unfold generate_oi_analysis.
  destruct (strikes_data s) as [| first others] eqn:Hstrikes.
  - split; [tauto |]. split; [discriminate |]. intros a [=].
  - split; [split; discriminate |]. split; [discriminate |].
    intros a [= <-]. cbn [key_resistance key_support max_ce_oi_val max_pe_oi_val].
    split.
    + destruct (py_max_by_spec (fun x => inject_Z (or_0 (ce_oi x))) first others)
        as [Hin Hmax].
      eexists. split; [exact Hin |]. repeat split.
      intros x Hx. rewrite Zle_Qle. now apply Hmax.
    + destruct (py_max_by_spec (fun x => inject_Z (or_0 (pe_oi x))) first others)
        as [Hin Hmax].
      eexists. split; [exact Hin |]. repeat split.
      intros x Hx. rewrite Zle_Qle. now apply Hmax.
Qed.

Lemma analysis_strikes (s : snapshot) first others (a : oi_analysis) :
  strikes_data s = first :: others ->
  generate_oi_analysis (Some s) = Analysis a ->
  an_strikes a
  = downsample
      (List.filter
         (fun x => Qle_bool (Qabs (strike x - atm_strike s first others)) 800)
         (first :: others)).
Proof.
  intros Hs. unfold generate_oi_analysis. rewrite Hs.
  intros [= <-]. reflexivity.
Qed.

(** X26.  The strikes charted by the analysis are at most twenty, they
    are strikes of the chain in the chain's order, and each lies within
    800 points of the at-the-money strike, which is a strike of the chain
    as close to the spot price as any. *)
Theorem charted_strikes_are_near_the_money (s : snapshot) (a : oi_analysis) :
  generate_oi_analysis (Some s) = Analysis a ->
  exists atm,
    In atm (strikes_data s)
    /\ (forall x, In x (strikes_data s) ->
          Qabs (strike atm - spot_price s) <= Qabs (strike x - spot_price s))
    /\ (length (an_strikes a) <= 20)%nat
    /\ sublist (an_strikes a) (strikes_data s)
    /\ Forall (fun x => Qabs (strike x - strike atm) <= 800) (an_strikes a).
Proof.
  intros Ha.
  destruct (strikes_data s) as [| first others] eqn:Hstrikes.
  { unfold generate_oi_analysis in Ha. rewrite Hstrikes in Ha. discriminate. }
  rewrite (analysis_strikes s first others a Hstrikes Ha).
  unfold atm_strike.
  destruct (py_min_by_spec (fun x => Qabs (strike x - spot_price s)) first others)
    as [Hin Hmin].
  set (atm := py_min_by _ first others) in *.
  exists atm. split; [exact Hin |]. split; [exact Hmin |].
  split; [apply downsample_length |].
  match goal with
  | |- context [downsample ?l] => set (relevant := l)
  end.
  assert (Hsub : sublist relevant (first :: others)) by apply filter_sublist.
  split.
  - etransitivity; [apply downsample_sublist | exact Hsub].
  - apply List.Forall_forall. intros x Hx.
    assert (Hrel : In x relevant).
    { pose proof (downsample_sublist relevant) as Hd.
      apply list_elem_of_In. eapply elem_of_sublist; [| exact Hd].
      now apply list_elem_of_In. }
    apply filter_In in Hrel. destruct Hrel as [_ Hle].
    now apply Qle_bool_iff in Hle.
Qed.

(** The statement at a chain of three strikes. *)
Lemma charted_strikes_are_near_the_money_witness :
  exists a atm,
    generate_oi_analysis (Some sample_snapshot) = Analysis a
    /\ In atm (strikes_data sample_snapshot)
    /\ (length (an_strikes a) <= 20)%nat.
Proof.
  eexists.
  destruct (charted_strikes_are_near_the_money sample_snapshot _ eq_refl)
    as (atm & Hin & _ & Hlen & _).
  exists atm. split; [reflexivity |]. split; [exact Hin | exact Hlen].
Defined.

Lemma digit_is_no_colon (c : ascii) : is_digit c = true -> is_colon c = false.
Proof.
  intros Hd. unfold is_colon. destruct (Ascii.eqb_spec c ":") as [-> | _];
    [discriminate | reflexivity].
Qed.

(** No time starts where the third character is not a colon. *)
Lemma time_at_needs_colon (c0 c1 c2 : ascii) (rest : string) :
  is_colon c2 = false -> time_at (String c0 (String c1 (String c2 rest))) = None.
Proof.
  intros Hc.
  destruct rest as [| c3 [| c4 [| c5 [| c6 [| c7 rest]]]]]; cbn [time_at];
    try reflexivity.
  rewrite Hc, andb_false_r. reflexivity.
Qed.

Lemma append_nil_l (s : string) : ("" ++ s)%string = s.
Proof. reflexivity. Qed.

Lemma append_cons (c : ascii) (s t : string) :
  (String c s ++ t)%string = String c (s ++ t)%string.
Proof. reflexivity. Qed.

Lemma search_time_after_prefix (pre post : string) (a b d e g h : ascii) :
  contains ":" pre = false ->
  is_digit a = true -> is_digit b = true -> is_digit d = true ->
  is_digit e = true -> is_digit g = true -> is_digit h = true ->
  search_time
    (pre ++ String a (String b (String ":" (String d (String e (String ":"
       (String g (String h post))))))))%string
  = Some (String a (String b (String ":" (String d (String e (String ":"
       (String g (String h EmptyString)))))))).
Proof.
  intros Hpre Ha Hb Hd He Hg Hh.
  induction pre as [| c pre' IH].
  - rewrite append_nil_l. cbn [search_time time_at].
    rewrite Ha, Hb, Hd, He, Hg, Hh. reflexivity.
  - cbn [contains] in Hpre. apply orb_false_iff in Hpre.
    destruct Hpre as [Hc Hpre'].
    specialize (IH Hpre').
    rewrite append_cons.
    assert (Hnone : time_at (String c (pre' ++ String a (String b (String ":"
                      (String d (String e (String ":" (String g
                         (String h post))))))))%string) = None).
    { destruct pre' as [| c1 [| c2 pre'']];
        rewrite ?append_cons, ?append_nil_l.
      - apply time_at_needs_colon. now apply digit_is_no_colon.
      - apply time_at_needs_colon. now apply digit_is_no_colon.
      - apply time_at_needs_colon.
        cbn [contains] in Hpre'. apply orb_false_iff in Hpre'.
        destruct Hpre' as [_ Hpre']. apply orb_false_iff in Hpre'.
        now destruct Hpre' as [Hc2 _]. }
    change (search_time (String c ?s))
      with (match time_at (String c s) with
            | Some t => Some t
            | None => search_time s
            end).
    now rewrite Hnone.
Qed.

(** X27.  Whatever stands before it and after it, the first clock time
    [HH:MM:SS] of a timestamp is what the intraday series shows for it,
    provided no colon comes before that time, as in the timestamp of a
    synthetic snapshot. *)
Theorem time_val_is_the_clock_time (pre post : string) (a b d e g h : ascii) :
  contains ":" pre = false ->
  is_digit a = true -> is_digit b = true -> is_digit d = true ->
  is_digit e = true -> is_digit g = true -> is_digit h = true ->
  time_val
    (pre ++ String a (String b (String ":" (String d (String e (String ":"
       (String g (String h post))))))))%string
  = String a (String b (String ":" (String d (String e (String ":"
       (String g (String h EmptyString))))))).
Proof.
  intros Hpre Ha Hb Hd He Hg Hh. unfold time_val.
  now rewrite (search_time_after_prefix pre post a b d e g h).
Qed.

(** The time of a synthetic snapshot. *)
Lemma time_val_is_the_clock_time_witness :
  time_val "Synthetic Data (2026-01-05 10:15:00)" = "10:15:00"%string.
Proof.
  exact (time_val_is_the_clock_time "Synthetic Data (2026-01-05 " ")"
           "1" "0" "1" "5" "0" "0"
           eq_refl eq_refl eq_refl eq_refl eq_refl eq_refl eq_refl).
Defined.

Lemma fold_add_bounds (l : list Z) (lo hi : Z) :
  Forall (fun x => lo <= x <= hi)%Z l ->
  (Z.of_nat (length l) * lo <= fold_left Z.add l 0
   <= Z.of_nat (length l) * hi)%Z.
Proof.
  induction 1 as [| x xs Hx _ IH]; [cbn; lia |].
  cbn [fold_left length]. rewrite fold_add_start. lia.
Qed.

Section Demo.
Context {E : Type} (env : demo_env E).
Hypothesis randint_in_range :
  forall a b e, (a <= b)%Z -> (a <= fst (randint env a b e) <= b)%Z.

Lemma demo_strike_spec (spot : Q) (k : Z) (e : E) :
  let '(k', ce, pe) := fst (demo_strike env spot k e) in
  k' = k /\ (20000 <= ce <= 300000)%Z /\ (20000 <= pe <= 300000)%Z.
Proof using randint_in_range.
  unfold demo_strike.
  destruct (Qltb spot (inject_Z k)); [| destruct (Qltb (inject_Z k) spot)].
  - pose proof (randint_in_range 100000 300000 e ltac:(lia)) as H1.
    destruct (randint env 100000 300000 e) as [ce e1].
    pose proof (randint_in_range 20000 100000 e1 ltac:(lia)) as H2.
    destruct (randint env 20000 100000 e1) as [pe e2].
    cbn in *. lia.
  - pose proof (randint_in_range 20000 100000 e ltac:(lia)) as H1.
    destruct (randint env 20000 100000 e) as [ce e1].
    pose proof (randint_in_range 100000 300000 e1 ltac:(lia)) as H2.
    destruct (randint env 100000 300000 e1) as [pe e2].
    cbn in *. lia.
  - pose proof (randint_in_range 100000 200000 e ltac:(lia)) as H1.
    destruct (randint env 100000 200000 e) as [ce e1].
    pose proof (randint_in_range 100000 200000 e1 ltac:(lia)) as H2.
    destruct (randint env 100000 200000 e1) as [pe e2].
    cbn in *. lia.
Qed.

Lemma demo_strikes_spec (spot : Q) (start_strike : Z) (indices : list Z) (e : E) :
  let rows := fst (demo_strikes env spot start_strike indices e) in
  map (fun r => fst (fst r)) rows
  = map (fun i => (start_strike + i * 100)%Z) indices
  /\ Forall (fun r => (20000 <= snd (fst r) <= 300000)%Z
                      /\ (20000 <= snd r <= 300000)%Z) rows.
Proof using randint_in_range.
  revert e. induction indices as [| i rest IH]; intros e; cbn [demo_strikes].
  - split; [reflexivity | constructor].
  - pose proof (demo_strike_spec spot (start_strike + i * 100) e) as Hrow.
    destruct (demo_strike env spot (start_strike + i * 100) e)
      as [[[k ce] pe] e1].
    specialize (IH e1).
    destruct (demo_strikes env spot start_strike rest e1) as [rows e2].
    cbn in *. destruct Hrow as (-> & Hce & Hpe). destruct IH as [IH1 IH2].
    split; [now rewrite IH1 | constructor; [split; assumption | exact IH2]].
Qed.

(** X28.  As long as [random.randint] stays within the range asked for,
    the synthetic snapshot has thirty strikes a hundred points apart,
    starting fifteen hundred below the spot price rounded to the nearest
    hundred; every open interest lies between 20,000 and 300,000; its
    ratio is above 0.01, so that saving it appends it to the history; and
    the analysis of it does not fail. *)
Theorem synthetic_chain_is_well_formed
    (now_text : string) (known_spot : option Q) (e : E)
    (pcr_history : list pcr_row) :
  let s := fst (generate_demo_snapshot env now_text known_spot e) in
  let base_strike := (round_half_even (spot_price s / 100) * 100)%Z in
  map strike (strikes_data s)
  = map (fun i => inject_Z (base_strike - 1500 + i * 100)) range30
  /\ Qabs (inject_Z base_strike - spot_price s) <= 50
  /\ Forall (fun r => exists ce pe,
                 ce_oi r = Some ce /\ pe_oi r = Some pe
                 /\ (20000 <= ce <= 300000)%Z /\ (20000 <= pe <= 300000)%Z)
            (strikes_data s)
  /\ 1 # 100 < pcr s
  /\ save_pcr_snapshot true (Some s) pcr_history
     = pcr_history ++ [mk_row (timestamp s) (spot_price s) (total_call_oi s)
                              (total_put_oi s) (pcr s)]
  /\ exists a, generate_oi_analysis (Some s) = Analysis a.
Proof using randint_in_range.
  unfold generate_demo_snapshot.
  destruct (demo_spot env known_spot e) as [spot e0].
  pose proof (demo_strikes_spec spot
                (round_half_even (spot / 100) * 100 - 1500) range30 e0) as Hrows.
  destruct (demo_strikes env spot
              (round_half_even (spot / 100) * 100 - 1500) range30 e0)
    as [rows e1].
  cbn [fst] in Hrows. destruct Hrows as [Hk Hoi].
  cbn [fst spot_price strikes_data pcr timestamp total_call_oi total_put_oi].
  set (base := (round_half_even (spot / 100) * 100)%Z) in *.
  assert (Hlen : length rows = 30%nat).
  { apply (f_equal (@length Z)) in Hk. now rewrite !length_map in Hk. }
  assert (Hce : (600000 <= fold_left Z.add (map (fun s => snd (fst s)) rows) 0
                 <= 9000000)%Z).
  { pose proof (fold_add_bounds (map (fun s => snd (fst s)) rows) 20000 300000)
      as Hb.
    rewrite length_map, Hlen in Hb. apply Hb.
    apply Forall_map. eapply List.Forall_impl; [| exact Hoi]. cbn. tauto. }
  assert (Hpe : (600000 <= fold_left Z.add (map snd rows) 0 <= 9000000)%Z).
  { pose proof (fold_add_bounds (map snd rows) 20000 300000) as Hb.
    rewrite length_map, Hlen in Hb. apply Hb.
    apply Forall_map. eapply List.Forall_impl; [| exact Hoi]. cbn. tauto. }
  set (total_ce := fold_left Z.add (map (fun s => snd (fst s)) rows) 0%Z) in *.
  set (total_pe := fold_left Z.add (map snd rows) 0%Z) in *.
  assert (Hpcr : 1 # 100 < calculate_pcr_correct total_ce total_pe).
  { unfold calculate_pcr_correct.
    destruct (Z.eqb_spec total_ce 0) as [H0 | _]; [lia |].
    assert (Hratio : 1 # 15 <= inject_Z total_pe / inject_Z total_ce).
    { destruct Hce as [Hce1 Hce2], Hpe as [Hpe1 Hpe2].
      rewrite Zle_Qle in Hce1, Hce2, Hpe1, Hpe2.
      change (inject_Z 600000) with 600000 in *.
      change (inject_Z 9000000) with 9000000 in *.
      apply Qle_shift_div_l; lra. }
    pose proof (round4_monotone _ _ Hratio) as Hm.
    assert (H15 : round4 (1 # 15) == 667 # 10000) by reflexivity. lra. }
  split; [| split; [| split; [| split; [exact Hpcr | split]]]].
  - rewrite map_map.
    transitivity (map inject_Z (map (fun r => fst (fst r)) rows)).
    + rewrite map_map. apply map_ext. now intros [[k ce] pe].
    + rewrite Hk, map_map. reflexivity.
  - destruct (round_half_even_error (spot / 100)) as [H1 H2].
    subst base. rewrite inject_Z_mult. change (inject_Z 100) with 100.
    unfold Qdiv in H1, H2 |- *. change (/ 100) with (1 # 100) in H1, H2 |- *.
    set (r := inject_Z (round_half_even (spot * (1 # 100)))) in *.
    apply Qabs_Qle_condition. split; lra.
  - apply Forall_map. eapply List.Forall_impl; [| exact Hoi].
    intros [[k ce] pe] [H1 H2]. cbn in *. exists ce, pe. auto.
  - unfold save_pcr_snapshot.
    cbn [pcr timestamp spot_price total_call_oi total_put_oi].
    destruct (Qle_bool (calculate_pcr_correct total_ce total_pe) (1 # 100))
      eqn:Hle; [| reflexivity].
    apply Qle_bool_iff in Hle. lra.
  - unfold generate_oi_analysis. cbn [strikes_data].
    destruct rows as [| row rows']; [discriminate |].
    cbn [map]. eexists. reflexivity.
Qed.

End Demo.

(** The statement with a random source that always draws the lower end of
    the range, around a spot price of 25,810. *)
Lemma synthetic_chain_is_well_formed_witness :
  1 # 100 < pcr (fst (generate_demo_snapshot lowest_draw "2026-01-05 10:15:00"
                        (Some 25810) tt)).
Proof.
  refine (proj1 (proj2 (proj2 (proj2
            (synthetic_chain_is_well_formed lowest_draw _
               "2026-01-05 10:15:00" (Some 25810) tt []))))).
  intros a b e Hab. cbn. lia.
Defined.

End OIAnalysisFacts.

(* ===================================================================== *)
(** ** The sources of the volatility index *)
(* ===================================================================== *)

Module VIXSourceFacts.
Import Calendar Stats StatsFacts RoundingFacts VIX ValidatorFacts ConsensusFacts
       VIXSources Fixtures VIXSourceFixtures.
Local Open Scope Q_scope.

Lemma yahoo_reading hist r :
  fetch_vix_yahoo_finance hist = Some r ->
  source r = "Yahoo Finance"%string /\ confidence r = "HIGH"%string.
Proof.
  unfold fetch_vix_yahoo_finance. destruct hist as [rows |]; [| discriminate].
  destruct (rev rows) as [| [d v] [| [d' v'] rest]]; try discriminate.
  intros [= <-]. split; reflexivity.
Qed.

Lemma nse_reading now response r :
  fetch_vix_nse_official now response = Some r ->
  source r = "NSE Official"%string /\ confidence r = "HIGH"%string.
Proof.
  unfold fetch_vix_nse_official. destruct response as [resp |]; [| discriminate].
  destruct (negb _); [discriminate |].
  destruct (find _ _) as [index |]; [| discriminate].
  destruct (Qeq_bool _ _); [discriminate |].
  intros [= <-]. split; reflexivity.
Qed.

Lemma moneycontrol_reading now response r :
  fetch_vix_moneycontrol now response = Some r ->
  source r = "MoneyControl"%string /\ confidence r = "MEDIUM"%string.
Proof.
  unfold fetch_vix_moneycontrol. destruct response as [resp |]; [| discriminate].
  destruct (negb _); [discriminate |].
  destruct (price_div resp) as [v |]; [| discriminate].
  intros [= <-]. split; reflexivity.
Qed.

Lemma groww_reading response : fetch_vix_groww response = None.
Proof.
  unfold fetch_vix_groww. destruct response as [c |]; [| reflexivity].
  now destruct (negb _).
Qed.

(** With a reading of high confidence in front, that reading is the
    representative. *)
Lemma high_reading_represents first others :
  confidence first = "HIGH"%string -> best_source first others = first.
Proof.
  intros Hc. rewrite best_source_find. cbn [find]. now rewrite Hc.
Qed.

(** X29.  [get_india_vix] raises exactly when no reading an adapter
    returned passes both the range and the freshness check.  Otherwise the
    result names Yahoo Finance, NSE Official or MoneyControl as its
    source and counts between one and three sources, Groww never being
    one of them; and the result has medium confidence only when
    MoneyControl is the single valid source, else high confidence. *)
Theorem india_vix_comes_from_a_live_source
    (self : fetcher) (now : datetime) (feeds : vix_feeds) :
  let result := get_india_vix self now feeds in
  (result = None <->
   forall name r, In (name, Some r) (fetched_sources feeds) ->
     fst (validate_vix_value (value r))
     && fst (validate_freshness self now (timestamp r)) = false)
  /\ forall r, result = Some r ->
       (source r = "Yahoo Finance" \/ source r = "NSE Official"
        \/ source r = "MoneyControl")%string
       /\ (exists n, num_sources r = Some n /\ (1 <= n <= 3)%nat)
       /\ (confidence r = "HIGH"%string
           \/ (confidence r = "MEDIUM"%string
               /\ source r = "MoneyControl"%string
               /\ num_sources r = Some 1%nat)).
Proof.
  intros result. subst result. unfold get_india_vix, cross_validate_sources.
  change (match fetched_sources feeds with
          | [] => None
          | _ => consensus self (valid_sources self now (fetched_sources feeds))
          end)
    with (consensus self (valid_sources self now (fetched_sources feeds))).
  split.
  - assert (Hnil : consensus self (valid_sources self now (fetched_sources feeds))
                   = None
                   <-> valid_sources self now (fetched_sources feeds) = []).
    { destruct (valid_sources self now (fetched_sources feeds)) as [| a [| b l]];
        cbn; split; congruence. }
    rewrite Hnil. split.
    + intros Hempty name r Hin.
      destruct (fst (validate_vix_value (value r))) eqn:Hv; [| reflexivity].
      destruct (fst (validate_freshness self now (timestamp r))) eqn:Hf;
        [| reflexivity].
      assert (Hr : In r (valid_sources self now (fetched_sources feeds))).
      { apply in_valid_sources. split; [now exists name | now split]. }
      rewrite Hempty in Hr. destruct Hr.
    + intros Hall.
      destruct (valid_sources self now (fetched_sources feeds)) as [| r l] eqn:Hvs;
        [reflexivity |].
      assert (Hr : In r (valid_sources self now (fetched_sources feeds)))
        by (rewrite Hvs; now left).
      apply in_valid_sources in Hr. destruct Hr as ([name Hin] & Hv & Hf).
      specialize (Hall name r Hin). rewrite Hv, Hf in Hall. discriminate.
  - unfold fetched_sources. rewrite groww_reading.
    pose proof (yahoo_reading (yahoo_hist feeds)) as Hy.
    pose proof (nse_reading (nse_clock feeds) (nse_reply feeds)) as Hn.
    pose proof (moneycontrol_reading (moneycontrol_clock feeds)
                  (moneycontrol_reply feeds)) as Hm.
    destruct (fetch_vix_yahoo_finance _) as [ry |];
      [destruct (Hy ry eq_refl) as [Hys Hyc] |]; clear Hy;
      (destruct (fetch_vix_nse_official _ _) as [rn |];
       [destruct (Hn rn eq_refl) as [Hns Hnc] |]; clear Hn);
      (destruct (fetch_vix_moneycontrol _ _) as [rm |];
       [destruct (Hm rm eq_refl) as [Hms Hmc] |]; clear Hm);
      cbn [valid_sources];
      repeat match goal with
             | |- context [if fst (validate_vix_value ?v) then _ else _] =>
                 destruct (fst (validate_vix_value v))
             | |- context [if fst (validate_freshness ?a ?b ?c) then _ else _] =>
                 destruct (fst (validate_freshness a b c))
             end;
      intros r Hr;
      match type of Hr with
      | consensus _ [] = _ => discriminate
      | consensus _ [_] = _ => cbn in Hr; injection Hr as <-; cbn
      | consensus _ (_ :: _ :: _) = _ =>
          rewrite consensus_many in Hr; apply (inj Some) in Hr; subst r;
          rewrite high_reading_represents by assumption;
          cbn [source confidence num_sources length]
      end;
      rewrite ?Hys, ?Hyc, ?Hns, ?Hnc, ?Hms, ?Hmc;
      (split; [tauto |]);
      (split; [eexists; split; [reflexivity | lia] |]);
      tauto.
Qed.

(** X30.  A healthy reply of the NSE is enough for [get_india_vix] not
    to raise: a reply with status 200 whose first entry named INDIA VIX
    has a value between 8 and 40, read by the adapter at a moment that is
    fresh when the readings are validated, yields a result whatever the
    other three sources do; and when Yahoo Finance and MoneyControl
    return nothing, the result is that value rounded to two places,
    attributed to NSE Official as the one source. *)
Theorem healthy_nse_reply_suffices
    (self : fetcher) (now : datetime) (feeds : vix_feeds)
    (response : indices_response) (index : index_entry) :
  nse_reply feeds = Some response ->
  status_code response = 200%Z ->
  find (fun i => String.eqb (index_name i) "INDIA VIX") (data response)
  = Some index ->
  8 <= last index <= 40 ->
  age_minutes now (nse_clock feeds) <= max_age self now ->
  exists r,
    get_india_vix self now feeds = Some r
    /\ (fetch_vix_yahoo_finance (yahoo_hist feeds) = None ->
        fetch_vix_moneycontrol (moneycontrol_clock feeds)
                               (moneycontrol_reply feeds) = None ->
        value r = round2 (last index)
        /\ source r = "NSE Official"%string
        /\ timestamp r = nse_clock feeds
        /\ num_sources r = Some 1%nat).
Proof.
  intros Hreply Hstatus Hfind Hrange Hfresh.
  set (rn := {| value := round2 (last index);
                change := Some (round2 (match index_change index with
                                        | Some c => c
                                        | None => 0
                                        end));
                timestamp := nse_clock feeds;
                source := "NSE Official";
                confidence := "HIGH";
                validated := None;
                num_sources := None |}).
  assert (Hnse : fetch_vix_nse_official (nse_clock feeds) (nse_reply feeds)
                 = Some rn).
  { unfold fetch_vix_nse_official. rewrite Hreply, Hstatus, Hfind.
    cbn [Z.eqb Pos.eqb negb].
    destruct (Qeq_bool (last index) 0) eqn:Hz; [| reflexivity].
    apply Qeq_bool_eq in Hz. lra. }
  assert (Hvalue : fst (validate_vix_value (value rn)) = true).
  { apply validate_vix_value_true. cbn [value rn].
    destruct (round2_bounds (last index) 800 4000) as [H1 H2].
    - unfold Qdiv. change (/ 100) with (1 # 100).
      change (inject_Z 800) with 800. lra.
    - unfold Qdiv. change (/ 100) with (1 # 100).
      change (inject_Z 4000) with 4000. lra.
    - unfold Qdiv in H1, H2. change (/ 100) with (1 # 100) in H1, H2.
      change (inject_Z 800) with 800 in H1.
      change (inject_Z 4000) with 4000 in H2. lra. }
  assert (Hts : fst (validate_freshness self now (timestamp rn)) = true)
    by now apply validate_freshness_true.
  unfold get_india_vix, cross_validate_sources, fetched_sources.
  rewrite Hnse, groww_reading.
  destruct (fetch_vix_yahoo_finance (yahoo_hist feeds)) as [ry |];
    destruct (fetch_vix_moneycontrol _ _) as [rm |];
    cbn [valid_sources]; rewrite Hvalue, Hts;
    repeat match goal with
           | |- context [if fst (validate_vix_value ?v) then _ else _] =>
               destruct (fst (validate_vix_value v))
           | |- context [if fst (validate_freshness ?a ?b ?c) then _ else _] =>
               destruct (fst (validate_freshness a b c))
           end;
    eexists; (split; [reflexivity |]); intros Hy Hm; try discriminate.
  repeat split.
Qed.

(** The statement at a run in which only the NSE answers, with 12.34. *)
Lemma healthy_nse_reply_suffices_witness :
  exists r,
    get_india_vix default_fetcher tuesday_10am nse_only = Some r
    /\ value r == 1234 # 100.
Proof.
  destruct (healthy_nse_reply_suffices default_fetcher tuesday_10am nse_only
              _ (mk_index "INDIA VIX" (1234 # 100) None)
              eq_refl eq_refl eq_refl)
    as (r & Hr & Honly).
  - split; vm_compute; discriminate.
  - vm_compute; discriminate.
  - exists r. split; [exact Hr |].
    destruct (Honly eq_refl eq_refl) as (Hv & _). rewrite Hv. reflexivity.
Defined.

End VIXSourceFacts.

(* ===================================================================== *)
(** ** Doubles *)
(* ===================================================================== *)

Module Binary64Facts.
Import Stats StatsFacts RoundingFacts Binary64.
Local Open Scope Q_scope.

Lemma pow2_pos (e : Z) : 0 < 2 ^ e.
Proof. apply Qpower_0_lt. reflexivity. Qed.

Lemma pow2_of_Z (p : Z) : (0 <= p)%Z -> 2 ^ p == inject_Z (2 ^ p).
Proof. intros Hp. now rewrite (Zpower_Qpower 2 p Hp). Qed.

(** The leading bit found is not above the number. *)
Lemma ilog2_le (q : Q) : 0 < q -> 2 ^ ilog2 q <= q.
Proof.
  intros Hq. unfold ilog2.
  set (a := Z.log2 (Qnum q)). set (b := Z.log2 (Z.pos (Qden q))).
  destruct (Qle_bool (2 ^ (a - b)) q) eqn:Hk; [now apply Qle_bool_iff |].
  assert (Hn : (0 < Qnum q)%Z).
  { destruct q as [n d]. unfold Qlt in Hq. cbn in *. lia. }
  destruct (Z.log2_spec (Qnum q) Hn) as [Ha _]. fold a in Ha.
  destruct (Z.log2_spec (Z.pos (Qden q)) ltac:(lia)) as [_ Hb]. fold b in Hb.
  assert (Ha0 : (0 <= a)%Z) by apply Z.log2_nonneg.
  assert (Hb0 : (0 <= b)%Z) by apply Z.log2_nonneg.
  replace (a - b - 1)%Z with (a - (b + 1))%Z by lia.
  rewrite Qpower_minus by discriminate.
  rewrite (pow2_of_Z a Ha0), (pow2_of_Z (b + 1) ltac:(lia)).
  replace (Z.succ b) with (b + 1)%Z in Hb by lia.
  rewrite Zle_Qle in Ha. rewrite Zlt_Qlt in Hb.
  assert (Hq' : q == inject_Z (Qnum q) / inject_Z (Z.pos (Qden q))).
  { destruct q as [n d]. cbn. apply Qmake_Qdiv. }
  rewrite Hq'.
  assert (Hd : 0 < inject_Z (Z.pos (Qden q))) by reflexivity.
  assert (HB : 0 < inject_Z (2 ^ (b + 1))) by lra.
  assert (HA : 0 < inject_Z (2 ^ a)).
  { rewrite <- (pow2_of_Z a Ha0). apply pow2_pos. }
  apply Qle_shift_div_l; [exact Hd |].
  unfold Qdiv. rewrite <- Qmult_assoc, (Qmult_comm (/ _)).
  change (inject_Z (2 ^ a) * (inject_Z (Z.pos (Qden q)) / inject_Z (2 ^ (b + 1)))
          <= inject_Z (Qnum q)).
  assert (Hfrac : inject_Z (Z.pos (Qden q)) / inject_Z (2 ^ (b + 1)) <= 1).
  { apply Qle_shift_div_r; [exact HB | lra]. }
  assert (Hfrac0 : 0 <= inject_Z (Z.pos (Qden q)) / inject_Z (2 ^ (b + 1))).
  { apply Qle_shift_div_l; [exact HB | lra]. }
  set (f := inject_Z (Z.pos (Qden q)) / inject_Z (2 ^ (b + 1))) in *.
  nra.
Qed.

Lemma ulp_exponent_nonpos (q : Q) :
  0 < q -> q < inject_Z (2 ^ 53) -> (ulp_exponent q <= 0)%Z.
Proof.
  intros Hq Hlt. unfold ulp_exponent.
  assert (Habs : Qabs q == q) by (apply Qabs_pos; lra).
  assert (Hpos : 0 < Qabs q) by (rewrite Habs; exact Hq).
  pose proof (ilog2_le (Qabs q) Hpos) as Hle.
  assert (Hpow : 2 ^ ilog2 (Qabs q) < 2 ^ 53).
  { rewrite (pow2_of_Z 53) by lia.
    apply Qle_lt_trans with (Qabs q); [exact Hle |]. now rewrite Habs. }
  apply Qpower_lt_compat_l_inv in Hpow; [lia | reflexivity].
Qed.

Lemma max_double_large : inject_Z (2 ^ 53) <= max_double.
Proof. unfold max_double. rewrite <- Zle_Qle. vm_compute. discriminate. Qed.

(** An operation whose exact result lies between two integers below
    2^53 returns a finite double between them. *)
Lemma of_Q_bounds (q : Q) (a b : Z) :
  (1 <= a)%Z -> (b < 2 ^ 53)%Z ->
  inject_Z a <= q -> q <= inject_Z b ->
  exists r, of_Q q = Finite r /\ inject_Z a <= r <= inject_Z b.
Proof.
  intros Ha Hb Hlo Hhi.
  assert (Ha' : 1 <= inject_Z a).
  { change 1 with (inject_Z 1). now rewrite <- Zle_Qle. }
  assert (Hb' : inject_Z b < inject_Z (2 ^ 53)) by now rewrite <- Zlt_Qlt.
  assert (Hq : 0 < q) by lra.
  pose proof (ulp_exponent_nonpos q Hq ltac:(lra)) as He.
  assert (Hround : inject_Z a <= round_to_double q <= inject_Z b).
  { unfold round_to_double.
    destruct (Qeq_bool q 0) eqn:Hz; [apply Qeq_bool_eq in Hz; lra |].
    set (e := ulp_exponent q) in *.
    set (p := (- e)%Z).
    assert (Hp : (0 <= p)%Z) by (subst p; lia).
    assert (Hpow : 2 ^ e == / inject_Z (2 ^ p)).
    { replace e with (- p)%Z by (subst p; lia).
      rewrite Qpower_opp. now rewrite (pow2_of_Z p Hp). }
    assert (Hp2 : 0 < inject_Z (2 ^ p)).
    { rewrite <- (pow2_of_Z p Hp). apply pow2_pos. }
    assert (Hx : q / 2 ^ e == q * inject_Z (2 ^ p)).
    { rewrite Hpow. field. lra. }
    destruct (round_half_even_bounds (q / 2 ^ e) (a * 2 ^ p) (b * 2 ^ p))
      as [H1 H2].
    - rewrite Hx, inject_Z_mult. nra.
    - rewrite Hx, inject_Z_mult. nra.
    - rewrite Zle_Qle, inject_Z_mult in H1, H2.
      set (n := inject_Z (round_half_even (q / 2 ^ e))) in *.
      rewrite Hpow.
      set (P := inject_Z (2 ^ p)) in *.
      assert (Hinv : n * / P == n / P) by reflexivity.
      rewrite Hinv. split.
      + apply Qle_shift_div_l; [exact Hp2 | lra].
      + apply Qle_shift_div_r; [exact Hp2 | lra]. }
  exists (round_to_double q). split; [| exact Hround].
  unfold of_Q. pose proof max_double_large as Hmax.
  destruct (Qltb max_double (round_to_double q)) eqn:H1.
  { apply Qltb_lt in H1. lra. }
  destruct (Qltb (round_to_double q) (- max_double)) eqn:H2.
  { apply Qltb_lt in H2. assert (0 <= inject_Z (2 ^ 53)) by (now vm_compute).
    lra. }
  reflexivity.
Qed.

End Binary64Facts.

(* ===================================================================== *)
(** ** The consensus engine on doubles *)
(* ===================================================================== *)

Module DoubleConsensusFacts.
Import Calendar Stats StatsFacts RoundingFacts Binary64 Binary64Facts VIX64
       Fixtures Fixtures64.
Local Open Scope Q_scope.

(** The range check lets through the values from 8 to 40, and NaN. *)
Lemma validate_vix_value_passes (v : pyfloat) :
  fst (validate_vix_value v) = true <-> passes_range_check v.
Proof.
  unfold validate_vix_value, VIX.historical_vix_range, fle, fgt.
  cbn [fst snd].
  destruct v as [q | | |]; cbn [flt feq passes_range_check orb].
  - destruct (Qltb q 0) eqn:H0; cbn [orb].
    { apply Qltb_lt in H0. cbn. split; [discriminate | lra]. }
    apply Qltb_ge in H0.
    destruct (Qeq_bool q 0) eqn:Hz.
    { apply Qeq_bool_eq in Hz. cbn. split; [discriminate | lra]. }
    destruct (Qltb q 8) eqn:H8.
    { apply Qltb_lt in H8. cbn. split; [discriminate | lra]. }
    apply Qltb_ge in H8.
    destruct (Qltb 40 q) eqn:H40.
    { apply Qltb_lt in H40. cbn. split; [discriminate | lra]. }
    apply Qltb_ge in H40. cbn. split; [intros _; lra | reflexivity].
  - cbn. split; [discriminate | intros []].
  - cbn. split; [discriminate | intros []].
  - cbn. split; [intros _; exact I | reflexivity].
Qed.

(** Every reading kept was offered and passed the range check, and the
    readings kept are no more than the sources. *)
Lemma valid_sources_kept self clock sources : forall reads r,
  In r (valid_sources self clock reads sources) ->
  (exists name, In (name, Some r) sources)
  /\ passes_range_check (value r)
  /\ exists k, (reads <= k)%nat
               /\ fst (VIX.validate_freshness self (clock k) (timestamp r)) = true.
Proof.
  induction sources as [| [name [data |]] rest IH]; intros reads r;
    cbn [valid_sources].
  - intros [].
  - destruct (fst (validate_vix_value (value data))) eqn:Hv.
    + destruct (fst (VIX.validate_freshness self (clock reads) (timestamp data)))
        eqn:Hf.
      * intros [<- | Hin].
        -- split; [exists name; now left |].
           split; [now apply validate_vix_value_passes |].
           exists reads. split; [lia | exact Hf].
        -- destruct (IH _ _ Hin) as ([n Hn] & Hp & k & Hk & Hfresh).
           split; [exists n; now right |]. split; [exact Hp |].
           exists k. split; [lia | exact Hfresh].
      * intros Hin. destruct (IH _ _ Hin) as ([n Hn] & Hp & k & Hk & Hfresh).
        split; [exists n; now right |]. split; [exact Hp |].
        exists k. split; [lia | exact Hfresh].
    + intros Hin. destruct (IH _ _ Hin) as ([n Hn] & Hp & k & Hk & Hfresh).
      split; [exists n; now right |]. split; [exact Hp |].
      exists k. split; [lia | exact Hfresh].
  - intros Hin. destruct (IH _ _ Hin) as ([n Hn] & Hp & k & Hk & Hfresh).
    split; [exists n; now right |]. split; [exact Hp |].
    exists k. split; [lia | exact Hfresh].
Qed.

Lemma valid_sources_count self clock sources : forall reads,
  (length (valid_sources self clock reads sources) <= length sources)%nat.
Proof.
  induction sources as [| [name [data |]] rest IH]; intros reads;
    cbn [valid_sources length].
  - lia.
  - destruct (fst (validate_vix_value (value data)));
      [destruct (fst (VIX.validate_freshness self (clock reads) (timestamp data))) |];
      cbn [length]; pose proof (IH reads); pose proof (IH (S reads)); lia.
  - specialize (IH reads). lia.
Qed.

Lemma fadd_nan_l (x : pyfloat) : fadd NaN x = NaN.
Proof. reflexivity. Qed.

Lemma fold_fadd_nan (xs : list pyfloat) : fold_left fadd xs NaN = NaN.
Proof. induction xs as [| x xs IH]; [reflexivity | exact IH]. Qed.

Lemma in_non_finite (x : pyfloat) (data : list pyfloat) :
  In x (non_finite data) <-> In x data /\ forall q, x <> Finite q.
Proof.
  unfold non_finite. rewrite filter_In.
  destruct x; split; intros [Hin H]; split; try exact Hin;
    try discriminate; try reflexivity.
  now destruct (H q).
Qed.

Lemma finite_values_range (data : list pyfloat) :
  Forall passes_range_check data ->
  Forall (fun q => 8 <= q <= 40) (finite_values data).
Proof.
  induction 1 as [| x xs Hx _ IH]; [constructor |].
  unfold finite_values. cbn [flat_map].
  destruct x; cbn [app]; try exact IH. constructor; [exact Hx | exact IH].
Qed.

Lemma finite_values_all (data : list pyfloat) :
  non_finite data = [] -> map Finite (finite_values data) = data.
Proof.
  induction data as [| x xs IH]; [reflexivity |].
  unfold non_finite, finite_values. cbn [List.filter flat_map].
  destruct x; try discriminate. intros H. cbn [app map]. f_equal. now apply IH.
Qed.

(** The mean of values that passed the range check passes it too, and it
    is NaN exactly when one of them is. *)
Lemma mean_of_valid (values : list pyfloat) :
  values <> [] ->
  Forall passes_range_check values ->
  passes_range_check (mean values) /\ (mean values = NaN <-> In NaN values).
Proof.
  intros Hne Hall. unfold mean.
  destruct (non_finite values) as [| x xs] eqn:Hnf.
  - pose proof (finite_values_all values Hnf) as Hmap.
    pose proof (finite_values_range values Hall) as Hrange.
    assert (Hqs : finite_values values <> []).
    { intros Hnil. rewrite Hnil in Hmap. cbn in Hmap. congruence. }
    destruct (mean_bounds 8 40 (finite_values values) Hqs Hrange) as [H8 H40].
    destruct (of_Q_bounds (Stats.mean (finite_values values)) 8 40)
      as (r & Hr & Hr8 & Hr40); try lia; try assumption.
    rewrite Hr. split; [cbn; split; assumption |].
    split; [discriminate |]. intros Hin.
    assert (Hx : In NaN (non_finite values))
      by (apply in_non_finite; split; [exact Hin | discriminate]).
    rewrite Hnf in Hx. destruct Hx.
  - assert (Hx : In x (non_finite values)) by (rewrite Hnf; now left).
    apply in_non_finite in Hx. destruct Hx as [Hin Hnot].
    rewrite List.Forall_forall in Hall. specialize (Hall x Hin).
    destruct x as [q | | |]; try contradiction; [now destruct (Hnot q) |].
    rewrite fold_fadd_nan. split; [exact I |]. split; [intros _; exact Hin | reflexivity].
Qed.

(** With a mean that is not zero no division raises; with a mean that is
    NaN every deviation is NaN. *)
Lemma deviations_defined (mean_value : pyfloat) (values : list pyfloat) :
  is_zero mean_value = false ->
  exists ds,
    deviations mean_value values = Some ds
    /\ length ds = length values
    /\ (mean_value = NaN -> Forall (eq NaN) ds).
Proof.
  intros Hz. induction values as [| v rest IH]; cbn [deviations].
  - exists []. repeat split. intros _. constructor.
  - destruct IH as (ds & Hds & Hlen & Hnan).
    unfold fdiv. rewrite Hz, Hds.
    eexists. split; [reflexivity |]. split; [cbn; now rewrite Hlen |].
    intros ->. constructor; [| now apply Hnan].
    destruct v; reflexivity.
Qed.

Lemma py_max_nan (ds : list pyfloat) :
  ds <> [] -> Forall (eq NaN) ds -> py_max ds = NaN.
Proof.
  intros Hne Hall. destruct ds as [| d rest]; [congruence |].
  inversion Hall as [| ? ? Hd Hrest]; subst. cbn [py_max].
  clear Hne Hall. induction rest as [| x xs IH]; [reflexivity |].
  inversion Hrest as [| ? ? Hx Hxs]; subst. cbn [fold_left]. now apply IH.
Qed.

Lemma in_float_insert (y x : pyfloat) (l : list pyfloat) :
  In y (Binary64.insert_sorted x l) <-> y = x \/ In y l.
Proof.
  induction l as [| z zs IH]; cbn [Binary64.insert_sorted].
  - cbn. intuition congruence.
  - destruct (flt z x); cbn [In]; [rewrite IH |]; intuition congruence.
Qed.

Lemma in_float_sorted (y : pyfloat) (l : list pyfloat) :
  In y (Binary64.sorted l) <-> In y l.
Proof.
  unfold Binary64.sorted. induction l as [| x xs IH]; cbn [fold_right];
    [tauto |].
  rewrite in_float_insert, IH. cbn. intuition congruence.
Qed.

Lemma length_float_insert (x : pyfloat) (l : list pyfloat) :
  length (Binary64.insert_sorted x l) = S (length l).
Proof.
  induction l as [| z zs IH]; cbn [Binary64.insert_sorted]; [reflexivity |].
  destruct (flt z x); cbn [length]; [now rewrite IH | reflexivity].
Qed.

Lemma length_float_sorted (l : list pyfloat) :
  length (Binary64.sorted l) = length l.
Proof.
  unfold Binary64.sorted. induction l as [| x xs IH]; cbn [fold_right];
    [reflexivity |].
  now rewrite length_float_insert, IH.
Qed.

(** The median of finite values from 8 to 40 is such a value. *)
Lemma median_of_valid (values : list pyfloat) :
  values <> [] ->
  Forall (fun v => exists q, v = Finite q /\ 8 <= q <= 40) values ->
  exists r, median values = Finite r /\ 8 <= r <= 40.
Proof.
  intros Hne Hall. unfold median.
  set (data := Binary64.sorted values).
  assert (Hlen : (0 < length data)%nat).
  { subst data. rewrite length_float_sorted. destruct values; [congruence |].
    cbn. lia. }
  assert (Hnth : forall i, (i < length data)%nat ->
            exists q, nth i data NaN = Finite q /\ 8 <= q <= 40).
  { intros i Hi. rewrite List.Forall_forall in Hall. apply Hall.
    apply in_float_sorted. now apply nth_In. }
  assert (Hhalf : (length data / 2 < length data)%nat)
    by (apply Nat.div_lt; lia).
  destruct (Nat.odd (length data)) eqn:Hodd.
  - exact (Hnth _ Hhalf).
  - assert (Hpos : (0 < length data / 2)%nat).
    { destruct (length data) as [| [| n]] eqn:Hn; [lia | discriminate |].
      apply Nat.div_str_pos. lia. }
    destruct (Hnth (length data / 2 - 1)%nat ltac:(lia)) as (a & -> & Ha).
    destruct (Hnth (length data / 2)%nat Hhalf) as (b & -> & Hb).
    cbn [fadd].
    destruct (of_Q_bounds (a + b) 16 80) as (s & Hs & Hs1 & Hs2);
      try lia; try (change (inject_Z 16) with 16; lra);
      try (change (inject_Z 80) with 80; lra).
    rewrite Hs. cbn [quotient].
    change (inject_Z 16) with 16 in Hs1. change (inject_Z 80) with 80 in Hs2.
    destruct (of_Q_bounds (s / 2) 8 40) as (r & Hr & Hr1 & Hr2);
      try lia.
    + change (inject_Z 8) with 8. unfold Qdiv. change (/ 2) with (1 # 2). lra.
    + change (inject_Z 40) with 40. unfold Qdiv. change (/ 2) with (1 # 2). lra.
    + exists r. split; [exact Hr | exact (conj Hr1 Hr2)].
Qed.

(** Rounding to two places keeps a value within the range, and NaN as
    it is. *)
Lemma round2_of_valid (v : pyfloat) :
  passes_range_check v ->
  passes_range_check (round2 v) /\ (round2 v = NaN <-> v = NaN).
Proof.
  destruct v as [q | | |]; cbn [passes_range_check round2];
    try contradiction.
  - intros [H8 H40].
    destruct (round2_bounds q 800 4000) as [H1 H2].
    { unfold Qdiv. change (/ 100) with (1 # 100).
      change (inject_Z 800) with 800. lra. }
    { unfold Qdiv. change (/ 100) with (1 # 100).
      change (inject_Z 4000) with 4000. lra. }
    unfold Qdiv in H1, H2. change (/ 100) with (1 # 100) in H1, H2.
    change (inject_Z 800) with 800 in H1.
    change (inject_Z 4000) with 4000 in H2.
    destruct (of_Q_bounds (Stats.round2 q) 8 40) as (r & Hr & Hr1 & Hr2);
      try lia; try (change (inject_Z 8) with 8; lra);
      try (change (inject_Z 40) with 40; lra).
    rewrite Hr. split; [exact (conj Hr1 Hr2) |]. split; discriminate.
  - intros _. split; [exact I | tauto].
Qed.

Lemma valid_mean_not_zero (values : list pyfloat) :
  values <> [] ->
  Forall passes_range_check values ->
  is_zero (mean values) = false.
Proof.
  intros Hne Hall. destruct (mean_of_valid values Hne Hall) as [Hp _].
  destruct (mean values) as [r | | |]; cbn in *; try reflexivity.
  destruct (Qeq_bool r 0) eqn:Hz; [| reflexivity].
  apply Qeq_bool_eq in Hz. lra.
Qed.

(** Two or more readings that passed the range check: no division
    raises, and the result is built from the mean or the median. *)
Lemma consensus_of_many (self : VIX.fetcher) (first second : reading)
    (rest : list reading) :
  let valid := first :: second :: rest in
  let values := map value valid in
  Forall (fun r => passes_range_check (value r)) valid ->
  exists max_deviation_pct,
    max_deviation (mean values) values = Some max_deviation_pct
    /\ (In NaN values -> max_deviation_pct = NaN)
    /\ consensus self valid
       = Returns (Some {|
           value := round2 (if fgt max_deviation_pct
                                   (Finite (VIX.tolerance_percent self))
                            then median values else mean values);
           change := Some (round2 (consensus_change valid));
           timestamp := timestamp (best_source first (second :: rest));
           source := source (best_source first (second :: rest));
           confidence := confidence (best_source first (second :: rest));
           validated := Some true;
           num_sources := Some (length valid) |}).
Proof.
  intros valid values Hall.
  assert (Hvalues : Forall passes_range_check values).
  { subst values. apply Forall_map. exact Hall. }
  assert (Hne : values <> []) by discriminate.
  pose proof (valid_mean_not_zero values Hne Hvalues) as Hz.
  destruct (deviations_defined (mean values) values Hz) as (ds & Hds & Hlen & Hnan).
  exists (py_max ds).
  assert (Hmax : max_deviation (mean values) values = Some (py_max ds)).
  { unfold max_deviation. now rewrite Hds. }
  split; [exact Hmax |]. split.
  - intros Hin. apply py_max_nan.
    + intros ->. cbn in Hlen. discriminate.
    + apply Hnan. now apply (mean_of_valid values Hne Hvalues).
  - unfold consensus. fold valid. cbn [length Nat.ltb Nat.leb].
    fold values. now rewrite Hmax.
Qed.

(** [max(..., key=...)] returns the first item whose key is largest:
    every item before it has a smaller key, no item after it a larger
    one. *)
Lemma py_max_by_first {A : Type} (key : A -> Q) (others : list A) :
  forall (best : A) (before middle : list A),
    Forall (fun x => key x < key best) before ->
    Forall (fun x => key x <= key best) middle ->
    exists before' after,
      before ++ best :: middle ++ others
      = before' ++ py_max_by key best others :: after
      /\ Forall (fun x => key x < key (py_max_by key best others)) before'
      /\ Forall (fun x => key x <= key (py_max_by key best others)) after.
Proof.
  unfold py_max_by.
  induction others as [| x xs IH]; intros best before middle Hb Hm;
    cbn [fold_left].
  - exists before, middle. rewrite app_nil_r. auto.
  - destruct (Qltb (key best) (key x)) eqn:Hc.
    + apply Qltb_lt in Hc.
      destruct (IH x (before ++ best :: middle) []) as (b' & a' & Heq & H1 & H2).
      * apply Forall_app. split.
        -- eapply List.Forall_impl; [| exact Hb]. cbn. intros; lra.
        -- constructor; [exact Hc |].
           eapply List.Forall_impl; [| exact Hm]. cbn. intros; lra.
      * constructor.
      * exists b', a'. split; [| auto].
        rewrite <- Heq. cbn [app]. rewrite <- !app_assoc. reflexivity.
    + apply Qltb_ge in Hc.
      destruct (IH best before (middle ++ [x])) as (b' & a' & Heq & H1 & H2).
      * exact Hb.
      * apply Forall_app. split; [exact Hm |]. constructor; [exact Hc | constructor].
      * exists b', a'. split; [| auto].
        rewrite <- Heq. rewrite <- !app_assoc. reflexivity.
Qed.

(** Between HIGH and MEDIUM the key of [max] orders the readings as the
    tiers do. *)
Lemma key_follows_tier (x y : reading) :
  (confidence x = "HIGH" \/ confidence x = "MEDIUM")%string ->
  (confidence y = "HIGH" \/ confidence y = "MEDIUM")%string ->
  (confidence_key x < confidence_key y ->
   (spec_tier_rank (confidence x) < spec_tier_rank (confidence y))%nat)
  /\ (confidence_key x <= confidence_key y ->
      (spec_tier_rank (confidence x) <= spec_tier_rank (confidence y))%nat).
Proof.
  unfold confidence_key.
  intros [-> | ->] [-> | ->]; cbn; split; intros H; try lia;
    exfalso; revert H; vm_compute; intros H; try discriminate;
    apply H; reflexivity.
Qed.

Lemma valid_sources_pass self clock sources :
  Forall (fun r => passes_range_check (value r))
         (valid_sources self clock 0 sources).
Proof.
  apply List.Forall_forall. intros r Hr.
  now destruct (valid_sources_kept self clock sources 0 r Hr) as (_ & Hp & _).
Qed.

Lemma cross_validate_is_consensus self clock sources :
  cross_validate_sources self clock sources
  = consensus self (valid_sources self clock 0 sources).
Proof. destruct sources; reflexivity. Qed.

(** C1, as amended.  The readings that passed validation decide the
    outcome by their number: none, no consensus; one, that reading as
    it is, marked validated, with a source count of one; two or more,
    with the mean and the largest deviation from it in percent computed
    in double arithmetic, the mean rounded to two places when that
    deviation is not above the tolerance and the median rounded to two
    places otherwise, with the number of valid readings as source count;
    and no division by zero is raised.  In particular, at a tolerance of
    5%, the readings 10, 10, 15 yield their median 10 and the readings
    10.0, 10.1, 10.2 their mean 10.1 with a source count of three. *)
Theorem consensus_by_number_of_valid_readings :
  (forall (self : VIX.fetcher) (clock : nat -> datetime)
          (sources : list (string * option reading)),
     let valid := valid_sources self clock 0 sources in
     let values := map value valid in
     match valid with
     | [] => cross_validate_sources self clock sources = Returns None
     | [only] =>
         cross_validate_sources self clock sources
         = Returns (Some {| value := value only;
                            change := change only;
                            timestamp := timestamp only;
                            source := source only;
                            confidence := confidence only;
                            validated := Some true;
                            num_sources := Some 1%nat |})
     | _ =>
         exists max_deviation_pct res,
           max_deviation (mean values) values = Some max_deviation_pct
           /\ cross_validate_sources self clock sources = Returns (Some res)
           /\ value res
              = round2 (if fgt max_deviation_pct
                               (Finite (VIX.tolerance_percent self))
                        then median values else mean values)
           /\ num_sources res = Some (length valid)
           /\ validated res = Some true
     end)
  /\ (exists res,
        cross_validate_sources VIX.default_fetcher at_10am (three_sources 10 10 15)
        = Returns (Some res)
        /\ feq (value res) (literal 10) = true
        /\ num_sources res = Some 3%nat)
  /\ (exists res,
        cross_validate_sources VIX.default_fetcher at_10am
          (three_sources 10 (101 # 10) (102 # 10))
        = Returns (Some res)
        /\ feq (value res) (literal (101 # 10)) = true
        /\ feq (value res)
               (round2 (mean (map literal [10; 101 # 10; 102 # 10]))) = true
        /\ num_sources res = Some 3%nat).
Proof.
  split; [| split].
  - intros self clock sources valid values.
    rewrite cross_validate_is_consensus. fold valid.
    pose proof (valid_sources_pass self clock sources) as Hpass. fold valid in Hpass.
    destruct valid as [| first [| second rest]] eqn:Hvalid.
    + reflexivity.
    + reflexivity.
    + destruct (consensus_of_many self first second rest Hpass)
        as (dev & Hdev & _ & Hres).
      exists dev. eexists. split; [exact Hdev |].
      split; [exact Hres |]. repeat split.
  - eexists. split; [vm_compute; reflexivity |]. split; vm_compute; reflexivity.
  - eexists. split; [vm_compute; reflexivity |].
    repeat split; vm_compute; reflexivity.
Qed.

(** The claim's own examples on the code: the readings 100, 100, 150
    all fail the range check, and there is no consensus, not the median
    100; and the readings 10.00, 10.01, 10.01, which agree within the
    tolerance, give 10.01, which is not their mean. *)
Lemma returned_value_is_not_the_mean :
  cross_validate_sources VIX.default_fetcher at_10am (three_sources 100 100 150)
  = Returns None
  /\ exists res max_deviation_pct,
       let values := map literal [10; 1001 # 100; 1001 # 100] in
       cross_validate_sources VIX.default_fetcher at_10am
         (three_sources 10 (1001 # 100) (1001 # 100))
       = Returns (Some res)
       /\ max_deviation (mean values) values = Some max_deviation_pct
       /\ fgt max_deviation_pct (Finite 5) = false
       /\ feq (value res) (literal (1001 # 100)) = true
       /\ feq (value res) (mean values) = false.
Proof.
  split; [vm_compute; reflexivity |].
  eexists. eexists. cbv zeta.
  split; [vm_compute; reflexivity |].
  split; [vm_compute; reflexivity |].
  repeat split; vm_compute; reflexivity.
Qed.

(** The comparison with the tolerance is made on doubles: the readings
    14.06, 15.17, 15.17 deviate from their mean 14.8 by five percent in
    exact arithmetic, by 5.000000000000001 in doubles, and the median is
    returned. *)
Example deviation_at_the_tolerance :
  exists res max_deviation_pct,
    let values := map literal [1406 # 100; 1517 # 100; 1517 # 100] in
    cross_validate_sources VIX.default_fetcher at_10am
      (three_sources (1406 # 100) (1517 # 100) (1517 # 100))
    = Returns (Some res)
    /\ max_deviation (mean values) values = Some max_deviation_pct
    /\ feq max_deviation_pct (Finite (5 + 2 ^ (-50))) = true
    /\ feq (value res) (literal (1517 # 100)) = true.
Proof.
  eexists. eexists. cbv zeta.
  split; [vm_compute; reflexivity |].
  split; [vm_compute; reflexivity |].
  split; vm_compute; reflexivity.
Qed.

(** The mean of the doubles 8.05 and 8.06 is a double just below 8.055,
    and rounds to 8.05. *)
Example mean_between_two_decimals :
  exists res,
    cross_validate_sources VIX.default_fetcher at_10am
      [("yahoo_finance"%string, Some (quote64 (805 # 100) "Yahoo Finance" "HIGH"));
       ("nse_official"%string, Some (quote64 (806 # 100) "NSE Official" "HIGH"))]
    = Returns (Some res)
    /\ feq (value res) (literal (805 # 100)) = true
    /\ flt (mean (map literal [805 # 100; 806 # 100])) (Finite (8055 # 1000)) = true.
Proof.
  eexists. split; [vm_compute; reflexivity |].
  split; vm_compute; reflexivity.
Qed.

(** C7.  A value that is not a number passes the range check, all three
    comparisons being false of it: the reading enters the consensus and
    comes back validated, alone or together with another reading, whose
    value it turns into NaN. *)
Theorem nan_reading_enters_consensus :
  validate_vix_value NaN = (true, VIX.WithinNormalRange)
  /\ cross_validate_sources VIX.default_fetcher at_10am
       [("yahoo_finance"%string, Some nan_quote);
        ("nse_official"%string, None);
        ("groww"%string, None);
        ("moneycontrol"%string, None)]
     = Returns (Some {| value := NaN;
                        change := Some (Finite 0);
                        timestamp := tuesday_10am;
                        source := "Yahoo Finance";
                        confidence := "HIGH";
                        validated := Some true;
                        num_sources := Some 1%nat |})
  /\ exists res,
       cross_validate_sources VIX.default_fetcher at_10am
         [("yahoo_finance"%string, Some nan_quote);
          ("nse_official"%string,
           Some (quote64 (1234 # 100) "NSE Official" "HIGH"));
          ("groww"%string, None);
          ("moneycontrol"%string, None)]
       = Returns (Some res)
       /\ value res = NaN
       /\ validated res = Some true
       /\ num_sources res = Some 2%nat.
Proof.
  split; [reflexivity |]. split; [vm_compute; reflexivity |].
  eexists. split; [vm_compute; reflexivity |]. repeat split.
Qed.

(** C8, as amended.  For two or more valid readings of HIGH or MEDIUM
    confidence, the tiers the adapters emit, the representative is the
    contributor of the highest confidence, the first of them in arrival
    order: every reading before it ranks strictly lower, none after it
    ranks higher.  Its source, timestamp and confidence are reused in the
    result, and its value is replaced by the consensus value rounded to
    two places. *)
Theorem representative_has_the_highest_confidence
    (self : VIX.fetcher) (clock : nat -> datetime)
    (sources : list (string * option reading))
    (first second : reading) (rest : list reading) :
  valid_sources self clock 0 sources = first :: second :: rest ->
  Forall (fun r => confidence r = "HIGH" \/ confidence r = "MEDIUM")%string
         (first :: second :: rest) ->
  let valid := first :: second :: rest in
  let values := map value valid in
  exists res before best after max_deviation_pct,
    cross_validate_sources self clock sources = Returns (Some res)
    /\ valid = before ++ best :: after
    /\ Forall (fun r => (spec_tier_rank (confidence r)
                         < spec_tier_rank (confidence best))%nat) before
    /\ Forall (fun r => (spec_tier_rank (confidence r)
                         <= spec_tier_rank (confidence best))%nat) after
    /\ source res = source best
    /\ timestamp res = timestamp best
    /\ confidence res = confidence best
    /\ max_deviation (mean values) values = Some max_deviation_pct
    /\ value res
       = round2 (if fgt max_deviation_pct (Finite (VIX.tolerance_percent self))
                 then median values else mean values).
Proof.
  intros Hvalid Htiers valid values.
  pose proof (valid_sources_pass self clock sources) as Hpass.
  rewrite Hvalid in Hpass.
  destruct (consensus_of_many self first second rest Hpass)
    as (dev & Hdev & _ & Hres).
  destruct (py_max_by_first confidence_key (second :: rest) first [] [])
    as (before & after & Heq & Hbefore & Hafter); [constructor | constructor |].
  fold (best_source first (second :: rest)) in Heq, Hbefore, Hafter.
  set (best := best_source first (second :: rest)) in *.
  assert (Htier : forall r, In r valid ->
            (confidence r = "HIGH" \/ confidence r = "MEDIUM")%string).
  { intros r Hr. rewrite List.Forall_forall in Htiers. now apply Htiers. }
  assert (Hbest : In best valid).
  { subst valid. cbn [app] in Heq. rewrite Heq. apply in_or_app. right. now left. }
  exists {| value := round2 (if fgt dev (Finite (VIX.tolerance_percent self))
                             then median values else mean values);
            change := Some (round2 (consensus_change valid));
            timestamp := timestamp best;
            source := source best;
            confidence := confidence best;
            validated := Some true;
            num_sources := Some (length valid) |},
         before, best, after, dev.
  split; [rewrite cross_validate_is_consensus, Hvalid; exact Hres |].
  split; [exact Heq |].
  split.
  { apply List.Forall_forall. intros r Hr.
    rewrite List.Forall_forall in Hbefore.
    apply (key_follows_tier r best).
    - apply Htier. subst valid. cbn [app] in Heq. rewrite Heq.
      apply in_or_app. now left.
    - now apply Htier.
    - now apply Hbefore. }
  split.
  { apply List.Forall_forall. intros r Hr.
    rewrite List.Forall_forall in Hafter.
    apply (key_follows_tier r best).
    - apply Htier. subst valid. cbn [app] in Heq. rewrite Heq.
      apply in_or_app. right. now right.
    - now apply Htier.
    - now apply Hafter. }
  repeat split. exact Hdev.
Qed.

(** The rule at a run in which MoneyControl arrives first and the NSE
    last: the NSE reading, of HIGH confidence, is the representative. *)
Lemma representative_has_the_highest_confidence_witness :
  exists res,
    cross_validate_sources VIX.default_fetcher at_10am
      [("moneycontrol"%string, Some (quote64 12 "MoneyControl" "MEDIUM"));
       ("nse_official"%string, Some (quote64 12 "NSE Official" "HIGH"))]
    = Returns (Some res)
    /\ source res = "NSE Official"%string.
Proof.
  destruct (representative_has_the_highest_confidence
              VIX.default_fetcher at_10am
              [("moneycontrol"%string, Some (quote64 12 "MoneyControl" "MEDIUM"));
               ("nse_official"%string, Some (quote64 12 "NSE Official" "HIGH"))]
              (quote64 12 "MoneyControl" "MEDIUM")
              (quote64 12 "NSE Official" "HIGH") [] eq_refl)
    as (res & before & best & after & dev & Hres & Heq & Hbefore & Hafter
        & Hsrc & _).
  - constructor; [now right |]. constructor; [now left | constructor].
  - exists res. split; [exact Hres |]. rewrite Hsrc.
    destruct before as [| b [| b' before']].
    + injection Heq as <- <-.
      inversion Hafter as [| ? ? Hrank _]; subst. cbn in Hrank. lia.
    + injection Heq as _ <- _. reflexivity.
    + injection Heq as _ _ Hnil. destruct before'; discriminate.
Defined.

(** The value of the result is not the consensus value itself: for the
    readings 12.00, 12.01, 12.01, within the tolerance, the consensus
    value is their mean, about 12.00667, and the result carries
    12.01. *)
Lemma result_value_is_rounded :
  exists res max_deviation_pct,
    let values := map literal [12; 1201 # 100; 1201 # 100] in
    cross_validate_sources VIX.default_fetcher at_10am
      (three_sources 12 (1201 # 100) (1201 # 100))
    = Returns (Some res)
    /\ source res = "Yahoo Finance"%string
    /\ max_deviation (mean values) values = Some max_deviation_pct
    /\ fgt max_deviation_pct (Finite 5) = false
    /\ feq (value res) (mean values) = false
    /\ feq (value res) (literal (1201 # 100)) = true.
Proof.
  eexists. eexists. cbv zeta.
  split; [vm_compute; reflexivity |].
  split; [reflexivity |].
  split; [vm_compute; reflexivity |].
  repeat split; vm_compute; reflexivity.
Qed.

(** X2.  Whatever the sources deliver, finite, infinite or not a
    number, [cross_validate_sources] raises no division by zero; it
    returns nothing exactly when no reading is valid; and a result is
    marked validated, counts at least one source and at most as many as
    were offered, and carries a value from 8 to 40, or NaN, which it
    carries exactly when a valid reading does. *)
Theorem cross_validated_result_is_plausible
    (self : VIX.fetcher) (clock : nat -> datetime)
    (sources : list (string * option reading)) :
  let valid := valid_sources self clock 0 sources in
  exists result,
    cross_validate_sources self clock sources = Returns result
    /\ (result = None <-> valid = [])
    /\ forall res, result = Some res ->
         validated res = Some true
         /\ (exists n, num_sources res = Some n
                       /\ (1 <= n <= length sources)%nat)
         /\ passes_range_check (value res)
         /\ (value res = NaN <-> exists r, In r valid /\ value r = NaN).
Proof.
  intros valid. rewrite cross_validate_is_consensus. fold valid.
  pose proof (valid_sources_pass self clock sources) as Hpass.
  pose proof (valid_sources_count self clock sources 0) as Hcount.
  fold valid in Hpass, Hcount.
  destruct valid as [| first [| second rest]] eqn:Hvalid.
  - exists None. split; [reflexivity |]. split; [tauto |]. intros res [=].
  - eexists. split; [reflexivity |]. split; [split; discriminate |].
    intros res [= <-]. cbn [validated num_sources value].
    inversion Hpass as [| ? ? Hp _]; subst.
    split; [reflexivity |].
    split; [exists 1%nat; split; [reflexivity | cbn in Hcount; lia] |].
    split; [exact Hp |]. split.
    + intros Hnan. exists first. split; [now left | exact Hnan].
    + intros (r & [<- | []] & Hr). exact Hr.
  - destruct (consensus_of_many self first second rest Hpass)
      as (dev & Hdev & Hnan & Hres).
    set (all := first :: second :: rest) in *.
    set (values := map value all) in *.
    eexists. split; [exact Hres |]. split; [split; discriminate |].
    intros res Hsome. apply (inj Some) in Hsome. subst res.
    cbv beta iota delta [validated num_sources value].
    assert (Hvalues : Forall passes_range_check values).
    { subst values. apply Forall_map. exact Hpass. }
    assert (Hne : values <> []) by discriminate.
    destruct (mean_of_valid values Hne Hvalues) as [Hmean Hmean_nan].
    assert (Hin_nan : In NaN values <-> exists r, In r all /\ value r = NaN).
    { subst values. rewrite in_map_iff. split.
      - intros (r & Hr & Hin). now exists r.
      - intros (r & Hin & Hr). now exists r. }
    split; [reflexivity |].
    split; [exists (length all); split; [reflexivity | cbn in *; lia] |].
    rewrite <- Hin_nan, <- Hmean_nan.
    destruct (mean values) as [m | | |] eqn:Hm; try contradiction.
    + (* no NaN among the values *)
      assert (Hfinite : Forall (fun v => exists q, v = Finite q /\ 8 <= q <= 40)
                               values).
      { apply List.Forall_forall. intros v Hv.
        rewrite List.Forall_forall in Hvalues. specialize (Hvalues v Hv).
        destruct v as [q | | |]; try contradiction; [now exists q |].
        apply Hmean_nan in Hv. discriminate. }
      destruct (median_of_valid values Hne Hfinite) as (r & Hr & Hrange).
      assert (Hcv : passes_range_check
                      (if fgt dev (Finite (VIX.tolerance_percent self))
                       then median values else Finite m)
                    /\ (if fgt dev (Finite (VIX.tolerance_percent self))
                        then median values else Finite m) <> NaN).
      { destruct (fgt dev _); [rewrite Hr |]; split;
          solve [exact Hrange | exact Hmean | discriminate]. }
      destruct Hcv as [Hcv Hnot].
      destruct (round2_of_valid _ Hcv) as [Hround Hround_nan].
      split; [exact Hround |]. split; [| discriminate].
      intros H. apply Hround_nan in H. contradiction.
    + (* a NaN among the values *)
      rewrite (Hnan (proj1 Hmean_nan eq_refl)).
      cbn. split; [exact I | tauto].
Qed.

End DoubleConsensusFacts.
